(** * SFML [RenderTarget]: state cache, draw protocol and pipeline selection

    A shallow embedding of [src/SFML/Graphics/RenderTarget.cpp].  The render
    target is a record, its member functions are programs of a small
    state-and-writer monad: the state holds the target and the mutable
    collaborators it touches, the writer collects, in order, every call the
    code makes to the graphics device and to the static [bind] entry points
    of its collaborators.  Floating-point values are IEEE binary32 values of
    the Standard Library's [SpecFloat]. *)

From Stdlib Require Import ZArith NArith Bool List String Ascii Lia.
From Stdlib Require Import Floats.SpecFloat DecimalString.
From stdpp Require Import base list.
Import ListNotations.

Local Open Scope string_scope.
Local Open Scope list_scope.

(** ** C++ [float] and [int] *)

Module Float32.

Definition prec : Z := 24.
Definition emax : Z := 128.

Definition float : Type := spec_float.

Definition add : float -> float -> float := SFadd prec emax.
Definition sub : float -> float -> float := SFsub prec emax.
Definition mul : float -> float -> float := SFmul prec emax.
Definition div : float -> float -> float := SFdiv prec emax.
Definition opp : float -> float := SFopp.

(** [m * 2^e], rounded to nearest even: how a literal is read. *)
Definition literal (m e : Z) : float := binary_normalize prec emax m e false.

(** [static_cast<float>(n)] for an integer [n]. *)
Definition of_int (n : Z) : float := literal n 0.

Definition zero : float := S754_zero false.
Definition half : float := literal 1 (-1).
Definition one : float := literal 1 0.
Definition two : float := literal 2 0.
Definition f255 : float := literal 255 0.

Definition INT_MIN : Z := - 2 ^ 31.
Definition INT_MAX : Z := 2 ^ 31 - 1.

(** The integer part of a finite value (truncation toward zero). *)
Definition trunc (f : float) : option Z :=
  match f with
  | S754_zero _ => Some 0%Z
  | S754_finite s m e =>
      let mag := if (0 <=? e)%Z then (Z.pos m * 2 ^ e)%Z
                 else (Z.pos m / 2 ^ (- e))%Z in
      Some (if s then (- mag)%Z else mag)
  | S754_infinity _ | S754_nan => None
  end.

(** [static_cast<int>(f)].  The conversion is undefined in C++ when the
    integer part does not fit an [int]; the value taken here for that case
    is the one the x86 conversion instructions deliver. *)
Definition to_int (f : float) : Z :=
  match trunc f with
  | Some z => if ((INT_MIN <=? z) && (z <=? INT_MAX))%Z then z else INT_MIN
  | None => INT_MIN
  end.

End Float32.

Abbreviation float := Float32.float.

(** Conversion of a 32-bit pattern to [int] (two's complement wrap-around):
    what an [unsigned int] expression becomes when stored in an [int]. *)
Definition wrap_int (z : Z) : Z := ((z + 2 ^ 31) mod 2 ^ 32 - 2 ^ 31)%Z.

(** ** Value types of the library *)

Module Vector2f.
Record Vector2f := mk { x : float; y : float }.
End Vector2f.
Abbreviation Vector2f := Vector2f.Vector2f.

Module Vector3f.
Record Vector3f := mk { x : float; y : float; z : float }.
End Vector3f.
Abbreviation Vector3f := Vector3f.Vector3f.

Module Vector2i.
Record Vector2i := mk { x : Z; y : Z }.
End Vector2i.
Abbreviation Vector2i := Vector2i.Vector2i.

Module Vector2u.
Record Vector2u := mk { x : Z; y : Z }.
End Vector2u.
Abbreviation Vector2u := Vector2u.Vector2u.

Module Color.
Record Color := mk { r : Z; g : Z; b : Z; a : Z }.
End Color.
Abbreviation Color := Color.Color.

Module FloatRect.
Record FloatRect := mk { left : float; top : float; width : float; height : float }.
End FloatRect.
Abbreviation FloatRect := FloatRect.FloatRect.

Module IntRect.
Record IntRect := mk { left : Z; top : Z; width : Z; height : Z }.
End IntRect.
Abbreviation IntRect := IntRect.IntRect.

(** Modelled from the spec: the vertex record, declared in a header that is
    not among the sources: "position: 3D float, color: 4x8-bit, texCoord: 2D
    float, normal: 3D float".  The draw code reads the members under the
    names used here. *)
Module Vertex.
Record Vertex := mk {
  position : Vector3f;
  color : Color;
  texCoords : Vector2f;
  normal : Vector3f
}.
End Vertex.
Abbreviation Vertex := Vertex.Vertex.

(** [sizeof] of the vertex record and of its leading members: the array
    overload hard-codes the offsets 12, 16 and 24. *)
Definition sizeof_float : Z := 4.
Definition sizeof_char : Z := 1.
Definition sizeof_Vector3f : Z := 12.
Definition sizeof_Color : Z := 4.
Definition sizeof_Vector2f : Z := 8.
Definition sizeof_Vertex : Z := 36.

(** Modelled from the spec: a transform is a "4x4 matrix"; [getMatrix()]
    hands its sixteen entries to the device.  The class and its algebra are
    defined outside the sources; the operations are fields of [Env]. *)
Module Transform.
Record Transform := mk { m_matrix : list float }.
End Transform.
Abbreviation Transform := Transform.Transform.

Inductive BlendMode := BlendAlpha | BlendAdd | BlendMultiply | BlendNone.

Inductive PrimitiveType :=
  Points | Lines | LinesStrip | Triangles | TrianglesStrip | TrianglesFan | Quads.

Definition BlendMode_eqb (a b : BlendMode) : bool :=
  match a, b with
  | BlendAlpha, BlendAlpha | BlendAdd, BlendAdd
  | BlendMultiply, BlendMultiply | BlendNone, BlendNone => true
  | _, _ => false
  end.

(** Resources are handed to the target by pointer.  A texture or a vertex
    buffer is read through the pointer, so its record carries both the
    address it lives at and the members the target reads.  The classes are
    declared outside the sources; the members are those the code reads. *)
Module Texture.
Record Texture := mk {
  address : nat;
  m_cacheId : N;
  m_size : Vector2u;
  m_actualSize : Vector2u;
  m_pixelsFlipped : bool
}.
End Texture.
Abbreviation Texture := Texture.Texture.

Module VertexBuffer.
Record VertexBuffer := mk {
  address : nat;
  m_cacheId : N;
  getVertexCount : nat;
  getPrimitiveType : PrimitiveType
}.
End VertexBuffer.
Abbreviation VertexBuffer := VertexBuffer.VertexBuffer.

(** A shader and a light are only ever passed on, never read: a pointer. *)
Definition ShaderPtr : Type := nat.
Definition LightPtr : Type := nat.

(** Modelled from the spec: a view, declared outside the sources, is
    "viewport: normalized rect, transform, inverse transform,
    view-transform, position"; the fields carry the names of the accessors
    the code calls. *)
Module View.
Record View := mk {
  getViewport : FloatRect;
  getTransform : Transform;
  getInverseTransform : Transform;
  getViewTransform : Transform;
  getPosition : Vector3f
}.
End View.
Abbreviation View := View.View.

(** Modelled from the spec: the render states, declared outside the
    sources: "transform, blendMode, texture: optional reference, shader:
    optional reference, useVertexCache: bool". *)
Module RenderStates.
Record RenderStates := mk {
  transform : Transform;
  blendMode : BlendMode;
  texture : option Texture;
  shader : option ShaderPtr;
  useVertexCache : bool
}.
End RenderStates.
Abbreviation RenderStates := RenderStates.RenderStates.

(** ** The calls the target makes *)

Inductive GLenum :=
| GL_DEPTH_TEST | GL_GEQUAL | GL_LIGHTING | GL_ALPHA_TEST | GL_CULL_FACE
| GL_BLEND | GL_TEXTURE_2D | GL_COLOR_MATERIAL | GL_NORMALIZE
| GL_MODELVIEW | GL_PROJECTION | GL_TEXTURE
| GL_VERTEX_ARRAY | GL_COLOR_ARRAY | GL_TEXTURE_COORD_ARRAY | GL_NORMAL_ARRAY
| GL_FRONT_AND_BACK | GL_FILL
| GL_SRC_ALPHA | GL_ONE_MINUS_SRC_ALPHA | GL_ONE | GL_DST_COLOR | GL_ZERO
| GL_FLOAT | GL_UNSIGNED_BYTE
| GL_POINTS | GL_LINES | GL_LINE_STRIP | GL_TRIANGLES | GL_TRIANGLE_STRIP
| GL_TRIANGLE_FAN | GL_QUADS
| GL_CLIENT_ALL_ATTRIB_BITS | GL_ALL_ATTRIB_BITS.

Definition GL_COLOR_BUFFER_BIT : Z := 16384.
Definition GL_DEPTH_BUFFER_BIT : Z := 256.

(** Where a vertex pointer handed to the device points: into the caller's
    array or into the target's own [m_cache.vertexCache].  No base is the
    null pointer, which the device reads as an offset into the bound
    buffer. *)
Inductive ArrayBase := CallerVertices | VertexCacheArray.

Record Pointer := { base : option ArrayBase; offset : Z }.

Inductive CoordinateType := Normalized | Pixels.

Inductive Uniform :=
| UInt (n : Z)
| UMatrix (m : Transform)
| UTexture (t : Texture)
| UVector3 (v : Vector3f).

Inductive Call :=
| glClearColor (r g b a : float)
| glClear (mask : Z)
| glEnable (cap : GLenum)
| glDisable (cap : GLenum)
| glDepthFunc (func : GLenum)
| glClearDepth (depth : float)
| glDepthRangef (n f : float)
| glMatrixMode (mode : GLenum)
| glLoadMatrixf (m : Transform)
| glPushMatrix
| glPopMatrix
| glPushClientAttrib (mask : GLenum)
| glPushAttrib (mask : GLenum)
| glPopClientAttrib
| glPopAttrib
| glEnableClientState (array : GLenum)
| glPolygonMode (face mode : GLenum)
| glBlendFunc (sfactor dfactor : GLenum)
| glBlendFuncSeparateEXT (srcRGB dstRGB srcAlpha dstAlpha : GLenum)
| glViewport (x y width height : Z)
| glVertexPointer (size : Z) (type : GLenum) (stride : Z) (p : Pointer)
| glColorPointer (size : Z) (type : GLenum) (stride : Z) (p : Pointer)
| glTexCoordPointer (size : Z) (type : GLenum) (stride : Z) (p : Pointer)
| glNormalPointer (type : GLenum) (stride : Z) (p : Pointer)
| glDrawArrays (mode : GLenum) (first : Z) (count : nat)
| glEnableVertexAttribArrayARB (index : Z)
| glVertexAttribPointerARB (index size : Z) (type : GLenum) (normalized : bool)
    (stride : Z) (p : Pointer)
| glDisableVertexAttribArrayARB (index : Z)
| ensureGlewInit
| Texture_bind (texture : option Texture) (coordinateType : CoordinateType)
| Shader_bind (shader : option ShaderPtr)
| VertexBuffer_bind (buffer : option VertexBuffer)
| Shader_setParameter (shader : ShaderPtr) (name : string) (value : Uniform)
| Light_addToShader (light : LightPtr) (shader : ShaderPtr)
| err (message : string).

(** ** The target and its state cache *)

(** Modelled from the spec: the state cache is declared in the header of
    the target; its members are those the code reads and writes, and
    [vertexCache] is the array of [VertexCacheSize] vertices. *)
Module StatesCache.
Record StatesCache := mk {
  glStatesSet : bool;
  viewChanged : bool;
  lastBlendMode : BlendMode;
  lastTextureId : N;
  lastVertexBufferId : N;
  useVertexCache : bool;
  vertexCache : list Vertex
}.
End StatesCache.
Abbreviation StatesCache := StatesCache.StatesCache.

Record RenderTarget := {
  m_defaultView : View;
  m_view : View;
  m_cache : StatesCache;
  m_depthTest : bool;
  m_clearDepth : bool;
  m_defaultShader : option ShaderPtr;
  m_currentNonLegacyShader : option ShaderPtr;
  m_lastNonLegacyShader : option ShaderPtr
}.

(** [m_view] is a pointer that is null between construction and
    [initialize]; every function below that uses the view dereferences it
    unchecked, so the record describes an initialized target. *)

Import StatesCache.

Definition set_glStatesSet (v : bool) (c : StatesCache) : StatesCache :=
  StatesCache.mk v (viewChanged c) (lastBlendMode c) (lastTextureId c)
    (lastVertexBufferId c) (useVertexCache c) (vertexCache c).
Definition set_viewChanged (v : bool) (c : StatesCache) : StatesCache :=
  StatesCache.mk (glStatesSet c) v (lastBlendMode c) (lastTextureId c)
    (lastVertexBufferId c) (useVertexCache c) (vertexCache c).
Definition set_lastBlendMode (v : BlendMode) (c : StatesCache) : StatesCache :=
  StatesCache.mk (glStatesSet c) (viewChanged c) v (lastTextureId c)
    (lastVertexBufferId c) (useVertexCache c) (vertexCache c).
Definition set_lastTextureId (v : N) (c : StatesCache) : StatesCache :=
  StatesCache.mk (glStatesSet c) (viewChanged c) (lastBlendMode c) v
    (lastVertexBufferId c) (useVertexCache c) (vertexCache c).
Definition set_lastVertexBufferId (v : N) (c : StatesCache) : StatesCache :=
  StatesCache.mk (glStatesSet c) (viewChanged c) (lastBlendMode c)
    (lastTextureId c) v (useVertexCache c) (vertexCache c).
Definition set_useVertexCache (v : bool) (c : StatesCache) : StatesCache :=
  StatesCache.mk (glStatesSet c) (viewChanged c) (lastBlendMode c)
    (lastTextureId c) (lastVertexBufferId c) v (vertexCache c).
Definition set_vertexCache (v : list Vertex) (c : StatesCache) : StatesCache :=
  StatesCache.mk (glStatesSet c) (viewChanged c) (lastBlendMode c)
    (lastTextureId c) (lastVertexBufferId c) (useVertexCache c) v.

Definition set_m_defaultView (v : View) (t : RenderTarget) : RenderTarget :=
  Build_RenderTarget v (m_view t) (m_cache t) (m_depthTest t) (m_clearDepth t)
    (m_defaultShader t) (m_currentNonLegacyShader t) (m_lastNonLegacyShader t).
Definition set_m_view (v : View) (t : RenderTarget) : RenderTarget :=
  Build_RenderTarget (m_defaultView t) v (m_cache t) (m_depthTest t)
    (m_clearDepth t) (m_defaultShader t) (m_currentNonLegacyShader t)
    (m_lastNonLegacyShader t).
Definition set_m_cache (v : StatesCache) (t : RenderTarget) : RenderTarget :=
  Build_RenderTarget (m_defaultView t) (m_view t) v (m_depthTest t)
    (m_clearDepth t) (m_defaultShader t) (m_currentNonLegacyShader t)
    (m_lastNonLegacyShader t).
Definition set_m_depthTest (v : bool) (t : RenderTarget) : RenderTarget :=
  Build_RenderTarget (m_defaultView t) (m_view t) (m_cache t) v
    (m_clearDepth t) (m_defaultShader t) (m_currentNonLegacyShader t)
    (m_lastNonLegacyShader t).
Definition set_m_defaultShader (v : option ShaderPtr) (t : RenderTarget)
  : RenderTarget :=
  Build_RenderTarget (m_defaultView t) (m_view t) (m_cache t) (m_depthTest t)
    (m_clearDepth t) v (m_currentNonLegacyShader t) (m_lastNonLegacyShader t).
Definition set_m_currentNonLegacyShader (v : option ShaderPtr)
  (t : RenderTarget) : RenderTarget :=
  Build_RenderTarget (m_defaultView t) (m_view t) (m_cache t) (m_depthTest t)
    (m_clearDepth t) (m_defaultShader t) v (m_lastNonLegacyShader t).
Definition set_m_lastNonLegacyShader (v : option ShaderPtr)
  (t : RenderTarget) : RenderTarget :=
  Build_RenderTarget (m_defaultView t) (m_view t) (m_cache t) (m_depthTest t)
    (m_clearDepth t) (m_defaultShader t) (m_currentNonLegacyShader t) v.

(** ** What the target relies on but does not define

    Everything [RenderTarget.cpp] calls and that lives in another file of
    the library, or in the class derived from the target, is a field here. *)

Record Env := {
  (** [Transform]: the identity, [operator*] on transforms and on points,
      the sixteen-argument constructor, inverse and transpose. *)
  Identity : Transform;
  combine : Transform -> Transform -> Transform;
  transformPoint : Transform -> Vector3f -> Vector3f;
  transformPoint2 : Transform -> Vector2f -> Vector2f;
  construct : list float -> Transform;
  getInverse : Transform -> Transform;
  getTranspose : Transform -> Transform;
  (** [View::reset]. *)
  View_reset : View -> FloatRect -> View;
  (** [StatesCache::VertexCacheSize], from the header. *)
  VertexCacheSize : nat;
  (** The two pure virtual functions of the target: the size of the surface,
      and activation, whose result may differ from one call to the next. *)
  getSize : Vector2u;
  activate_result : nat -> bool;
  (** Capabilities and global settings. *)
  GLEW_EXT_blend_func_separate : bool;
  Shader_isAvailable : bool;
  VertexBuffer_isAvailable : bool;
  Light_isLightingEnabled : bool;
  Light_getEnabledLights : list LightPtr;
  Light_hasShaderLighting : bool;
  Light_getMaximumLights : nat;
  Shader_getVertexAttributeLocation : ShaderPtr -> string -> Z;
  (** The [double] read from [Shader::getSupportedVersion()]. *)
  supportedVersionNumber : spec_float;
  (** Whether the build defines [SFML_LEGACY_GL]. *)
  SFML_LEGACY_GL : bool;
  (** The address [new Shader] returns, and whether [loadFromMemory]
      accepts the default program pair. *)
  new_Shader : ShaderPtr;
  loadFromMemory_default : bool
}.

(** The state the programs run in: the target, the number of activations
    requested so far, and the [warnMissing] setting of each shader. *)
Record World := {
  target : RenderTarget;
  activations : nat;
  warnMissingSetting : ShaderPtr -> bool
}.

Definition set_target (t : RenderTarget) (w : World) : World :=
  Build_World t (activations w) (warnMissingSetting w).

(** ** The monad *)

Definition M (A : Type) : Type := World -> A * World * list Call.

Definition ret {A} (a : A) : M A := fun w => (a, w, []).

Definition bind {A B} (m : M A) (k : A -> M B) : M B :=
  fun w =>
    let '(a, w1, c1) := m w in
    let '(b, w2, c2) := k a w1 in
    (b, w2, c1 ++ c2).

Declare Scope rt_scope.
Delimit Scope rt_scope with rt.
Notation "x <- m ;; k" := (bind m (fun x => k))
  (at level 100, m at next level, right associativity) : rt_scope.
Notation "m ;; k" := (bind m (fun _ => k))
  (at level 100, right associativity) : rt_scope.
Local Open Scope rt_scope.

Definition result {A} (m : M A) (w : World) : A := fst (fst (m w)).
Definition final {A} (m : M A) (w : World) : World := snd (fst (m w)).
Definition issued {A} (m : M A) (w : World) : list Call := snd (m w).

Definition emit (c : Call) : M unit := fun w => (tt, w, [c]).
Definition getTarget : M RenderTarget := fun w => (target w, w, []).
Definition modifyTarget (f : RenderTarget -> RenderTarget) : M unit :=
  fun w => (tt, set_target (f (target w)) w, []).
Definition modifyCache (f : StatesCache -> StatesCache) : M unit :=
  modifyTarget (fun t => set_m_cache (f (m_cache t)) t).
Definition when (b : bool) (m : M unit) : M unit := if b then m else ret tt.

Fixpoint forEach {A} (l : list A) (f : A -> M unit) : M unit :=
  match l with
  | [] => ret tt
  | a :: l' => f a ;; forEach l' f
  end.

Definition isNull {A} (p : option A) : bool :=
  match p with Some _ => false | None => true end.

Definition samePointer (p q : option ShaderPtr) : bool :=
  match p, q with
  | Some a, Some b => Nat.eqb a b
  | None, None => true
  | _, _ => false
  end.

(** ** The member functions *)

Section RenderTarget.

Variable env : Env.

(** [activate(true)]: pure virtual.  The [n]-th request made to the target
    is answered by [activate_result env n]. *)
Definition activate (active : bool) : M bool :=
  fun w =>
    (activate_result env (activations w),
     Build_World (target w) (S (activations w)) (warnMissingSetting w), []).

(** Modelled from the spec: [Shader::warnMissing] (Shader.cpp is not among
    the sources) is "a warn on missing parameter toggle returning the
    previous setting". *)
Definition Shader_warnMissing (s : ShaderPtr) (warn : bool) : M bool :=
  fun w =>
    (warnMissingSetting w s,
     Build_World (target w) (activations w)
       (fun s' => if Nat.eqb s' s then warn else warnMissingSetting w s'), []).

(** Modelled from the spec: [RenderTarget::setView] is declared in the
    header and defined outside this file; "current view replacement marks
    viewChanged = true". *)
Definition setView (view : View) : M unit :=
  modifyTarget (set_m_view view) ;;
  modifyCache (set_viewChanged true).

Definition getView : M View := t <- getTarget ;; ret (m_view t).

Definition getDefaultView : M View := t <- getTarget ;; ret (m_defaultView t).

Definition getViewport (view : View) : IntRect :=
  let width := Float32.of_int (Vector2u.x (getSize env)) in
  let height := Float32.of_int (Vector2u.y (getSize env)) in
  let viewport := View.getViewport view in
  IntRect.mk
    (Float32.to_int (Float32.add Float32.half
                       (Float32.mul width (FloatRect.left viewport))))
    (Float32.to_int (Float32.add Float32.half
                       (Float32.mul height (FloatRect.top viewport))))
    (Float32.to_int (Float32.mul width (FloatRect.width viewport)))
    (Float32.to_int (Float32.mul height (FloatRect.height viewport))).

(** The differences [point.x - viewport.left] are [int] differences; they
    are taken here without wrap-around, as overflow is undefined for them. *)
Definition mapPixelToCoords (point : Vector2i) (view : View) : Vector2f :=
  let viewport := getViewport view in
  let normalized :=
    Vector2f.mk
      (Float32.add (Float32.opp Float32.one)
         (Float32.div
            (Float32.mul Float32.two
               (Float32.of_int (Vector2i.x point - IntRect.left viewport)))
            (Float32.of_int (IntRect.width viewport))))
      (Float32.sub Float32.one
         (Float32.div
            (Float32.mul Float32.two
               (Float32.of_int (Vector2i.y point - IntRect.top viewport)))
            (Float32.of_int (IntRect.height viewport)))) in
  transformPoint2 env (View.getInverseTransform view) normalized.

Definition mapCoordsToPixel (point : Vector3f) (view : View) : Vector2i :=
  let normalized :=
    transformPoint env
      (combine env (View.getTransform view) (View.getViewTransform view))
      point in
  let viewport := getViewport view in
  Vector2i.mk
    (Float32.to_int
       (Float32.add
          (Float32.mul
             (Float32.div (Float32.add (Vector3f.x normalized) Float32.one)
                Float32.two)
             (Float32.of_int (IntRect.width viewport)))
          (Float32.of_int (IntRect.left viewport))))
    (Float32.to_int
       (Float32.add
          (Float32.mul
             (Float32.div
                (Float32.add (Float32.opp (Vector3f.y normalized)) Float32.one)
                Float32.two)
             (Float32.of_int (IntRect.height viewport)))
          (Float32.of_int (IntRect.top viewport)))).

(** In the shader pipeline the uniforms go to the shader of the draw in
    progress, or to the default shader outside a draw. *)
Definition uniformShader (t : RenderTarget) (defaultShader : ShaderPtr)
  : ShaderPtr :=
  match m_currentNonLegacyShader t with
  | Some current => current
  | None => defaultShader
  end.

Definition applyCurrentView : M unit :=
  t <- getTarget ;;
  let viewport := getViewport (m_view t) in
  let top := wrap_int (Vector2u.y (getSize env)
                       - (IntRect.top viewport + IntRect.height viewport)) in
  emit (glViewport (IntRect.left viewport) top (IntRect.width viewport)
          (IntRect.height viewport)) ;;
  match m_defaultShader t with
  | Some defaultShader =>
      emit (Shader_setParameter (uniformShader t defaultShader)
              "sf_ProjectionMatrix" (UMatrix (View.getTransform (m_view t))))
  | None =>
      emit (glMatrixMode GL_PROJECTION) ;;
      emit (glLoadMatrixf (View.getTransform (m_view t))) ;;
      emit (glMatrixMode GL_MODELVIEW)
  end ;;
  modifyCache (set_viewChanged false).

Definition applyBlendMode (mode : BlendMode) : M unit :=
  match mode with
  | BlendAlpha =>
      if GLEW_EXT_blend_func_separate env
      then emit (glBlendFuncSeparateEXT GL_SRC_ALPHA GL_ONE_MINUS_SRC_ALPHA
                   GL_ONE GL_ONE_MINUS_SRC_ALPHA)
      else emit (glBlendFunc GL_SRC_ALPHA GL_ONE_MINUS_SRC_ALPHA)
  | BlendAdd =>
      if GLEW_EXT_blend_func_separate env
      then emit (glBlendFuncSeparateEXT GL_SRC_ALPHA GL_ONE GL_ONE GL_ONE)
      else emit (glBlendFunc GL_SRC_ALPHA GL_ONE)
  | BlendMultiply => emit (glBlendFunc GL_DST_COLOR GL_ZERO)
  | BlendNone => emit (glBlendFunc GL_ONE GL_ZERO)
  end ;;
  modifyCache (set_lastBlendMode mode).

Definition applyTransform (transform : Transform) : M unit :=
  t <- getTarget ;;
  match m_defaultShader t with
  | Some defaultShader =>
      let shader := uniformShader t defaultShader in
      emit (Shader_setParameter shader "sf_ViewMatrix"
              (UMatrix (View.getViewTransform (m_view t)))) ;;
      emit (Shader_setParameter shader "sf_ModelMatrix" (UMatrix transform)) ;;
      let modelMatrix i := List.nth i (Transform.m_matrix transform) Float32.zero in
      let normalMatrix :=
        construct env
          [modelMatrix 0%nat; modelMatrix 4%nat; modelMatrix 8%nat; Float32.zero;
           modelMatrix 1%nat; modelMatrix 5%nat; modelMatrix 9%nat; Float32.zero;
           modelMatrix 2%nat; modelMatrix 6%nat; modelMatrix 10%nat; Float32.zero;
           Float32.zero; Float32.zero; Float32.zero; Float32.one] in
      when (Light_isLightingEnabled env)
        (emit (Shader_setParameter shader "sf_NormalMatrix"
                 (UMatrix (getTranspose env (getInverse env normalMatrix)))))
  | None =>
      emit (glLoadMatrixf
              (combine env (View.getViewTransform (m_view t)) transform))
  end.

Definition cacheIdOf (texture : option Texture) : N :=
  match texture with
  | Some tex => Texture.m_cacheId tex
  | None => 0%N
  end.

Definition applyTexture (texture : option Texture) : M unit :=
  t <- getTarget ;;
  match m_defaultShader t with
  | Some defaultShader =>
      let shader := uniformShader t defaultShader in
      match texture with
      | Some tex =>
          let xScale :=
            Float32.div Float32.one
              (Float32.of_int (Vector2u.x (Texture.m_actualSize tex))) in
          let yScale :=
            Float32.div Float32.one
              (Float32.of_int (Vector2u.y (Texture.m_actualSize tex))) in
          let yScale' :=
            if Texture.m_pixelsFlipped tex then Float32.opp yScale else yScale in
          let yFlip :=
            if Texture.m_pixelsFlipped tex
            then Float32.div
                   (Float32.of_int (Vector2u.y (Texture.m_size tex)))
                   (Float32.of_int (Vector2u.y (Texture.m_actualSize tex)))
            else Float32.zero in
          let textureMatrix :=
            construct env
              [xScale; Float32.zero; Float32.zero; Float32.zero;
               Float32.zero; yScale'; Float32.zero; yFlip;
               Float32.zero; Float32.zero; Float32.one; Float32.zero;
               Float32.zero; Float32.zero; Float32.zero; Float32.one] in
          emit (Shader_setParameter shader "sf_TextureMatrix"
                  (UMatrix textureMatrix)) ;;
          emit (Shader_setParameter shader "sf_Texture0" (UTexture tex)) ;;
          emit (Shader_setParameter shader "sf_TextureEnabled" (UInt 1))
      | None =>
          emit (Shader_setParameter shader "sf_TextureEnabled" (UInt 0))
      end
  | None => emit (Texture_bind texture Pixels)
  end ;;
  modifyCache (set_lastTextureId (cacheIdOf texture)).

Definition applyShader (shader : option ShaderPtr) : M unit :=
  emit (Shader_bind shader).

Definition applyVertexBuffer (buffer : option VertexBuffer) : M unit :=
  emit (VertexBuffer_bind buffer) ;;
  modifyCache
    (set_lastVertexBufferId
       (match buffer with
        | Some b => VertexBuffer.m_cacheId b
        | None => 0%N
        end)).

Definition clear (color : Color) : M unit :=
  ok <- activate true ;;
  if ok then
    emit (glClearColor
            (Float32.div (Float32.of_int (Color.r color)) Float32.f255)
            (Float32.div (Float32.of_int (Color.g color)) Float32.f255)
            (Float32.div (Float32.of_int (Color.b color)) Float32.f255)
            (Float32.div (Float32.of_int (Color.a color)) Float32.f255)) ;;
    t <- getTarget ;;
    emit (glClear (Z.lor GL_COLOR_BUFFER_BIT
                     (if m_clearDepth t then GL_DEPTH_BUFFER_BIT else 0%Z)))
  else ret tt.

Definition enableDepthTest (enable : bool) : M unit :=
  modifyTarget (set_m_depthTest enable) ;;
  if enable then
    emit (glEnable GL_DEPTH_TEST) ;;
    emit (glDepthFunc GL_GEQUAL) ;;
    emit (glClearDepth Float32.zero) ;;
    emit (glDepthRangef Float32.one Float32.zero)
  else emit (glDisable GL_DEPTH_TEST).

Definition resetGLStates : M unit :=
  ok <- activate true ;;
  if ok then
    emit ensureGlewInit ;;
    emit (glDisable GL_LIGHTING) ;;
    t <- getTarget ;;
    when (negb (m_depthTest t)) (emit (glDisable GL_DEPTH_TEST)) ;;
    emit (glDisable GL_ALPHA_TEST) ;;
    emit (glEnable GL_CULL_FACE) ;;
    emit (glEnable GL_BLEND) ;;
    when (isNull (m_defaultShader t))
      (emit (glEnable GL_TEXTURE_2D) ;;
       emit (glEnable GL_COLOR_MATERIAL) ;;
       emit (glEnable GL_NORMALIZE) ;;
       emit (glMatrixMode GL_MODELVIEW) ;;
       emit (glEnableClientState GL_VERTEX_ARRAY) ;;
       emit (glEnableClientState GL_COLOR_ARRAY) ;;
       emit (glEnableClientState GL_TEXTURE_COORD_ARRAY) ;;
       emit (glEnableClientState GL_NORMAL_ARRAY)) ;;
    emit (glPolygonMode GL_FRONT_AND_BACK GL_FILL) ;;
    modifyCache (set_glStatesSet true) ;;
    applyBlendMode BlendAlpha ;;
    applyTransform (Identity env) ;;
    applyTexture None ;;
    when (Shader_isAvailable env)
      (match m_defaultShader t with
       | None => applyShader None
       | Some defaultShader => applyShader (Some defaultShader)
       end) ;;
    when (VertexBuffer_isAvailable env) (applyVertexBuffer None) ;;
    modifyCache (set_useVertexCache false) ;;
    defaultView <- getDefaultView ;;
    setView defaultView
  else ret tt.

(** The block under [#ifdef SFML_DEBUG] and the error check that the
    [glCheck] macro adds in debug builds are left out: release build. *)
Definition pushGLStates : M unit :=
  ok <- activate true ;;
  (if ok then
     emit (glPushClientAttrib GL_CLIENT_ALL_ATTRIB_BITS) ;;
     emit (glPushAttrib GL_ALL_ATTRIB_BITS) ;;
     emit (glMatrixMode GL_MODELVIEW) ;;
     emit glPushMatrix ;;
     emit (glMatrixMode GL_PROJECTION) ;;
     emit glPushMatrix ;;
     emit (glMatrixMode GL_TEXTURE) ;;
     emit glPushMatrix
   else ret tt) ;;
  resetGLStates.

Definition popGLStates : M unit :=
  ok <- activate true ;;
  if ok then
    t <- getTarget ;;
    when (negb (isNull (m_defaultShader t))) (applyShader None) ;;
    emit (glMatrixMode GL_PROJECTION) ;;
    emit glPopMatrix ;;
    emit (glMatrixMode GL_MODELVIEW) ;;
    emit glPopMatrix ;;
    emit (glMatrixMode GL_TEXTURE) ;;
    emit glPopMatrix ;;
    emit glPopClientAttrib ;;
    emit glPopAttrib
  else ret tt.

(** *** Pipeline selection *)

(** The [double] nearest to the literal [1.29]. *)
Definition version_threshold : spec_float :=
  S754_finite false 5809643519307940 (-52).

(** The text of the two programs is fixed but for the number of lights, and
    only reaches [loadFromMemory], whose verdict is [loadFromMemory_default].
    Freeing the previous shader has no counterpart here. *)
Definition setupNonLegacyPipeline : M unit :=
  modifyTarget (set_m_defaultShader None) ;;
  if negb (Light_hasShaderLighting env) then ret tt
  else
    let versionNumber :=
      if SFML_LEGACY_GL env then S754_zero false
      else supportedVersionNumber env in
    if SFltb version_threshold versionNumber then
      modifyTarget (set_m_defaultShader (Some (new_Shader env))) ;;
      if negb (loadFromMemory_default env) then
        emit (err "Compiling default shader failed. Falling back to legacy pipeline...") ;;
        modifyTarget (set_m_defaultShader None)
      else ret tt
    else ret tt.

Definition initialize : M unit :=
  modifyTarget
    (fun t =>
       set_m_defaultView
         (View_reset env (m_defaultView t)
            (FloatRect.mk Float32.zero Float32.zero
               (Float32.of_int (Vector2u.x (getSize env)))
               (Float32.of_int (Vector2u.y (getSize env))))) t) ;;
  modifyTarget (fun t => set_m_view (m_defaultView t) t) ;;
  modifyCache (set_glStatesSet false) ;;
  setupNonLegacyPipeline.

(** *** The draw protocol *)

Definition modes (type : PrimitiveType) : GLenum :=
  match type with
  | Points => GL_POINTS
  | Lines => GL_LINES
  | LinesStrip => GL_LINE_STRIP
  | Triangles => GL_TRIANGLES
  | TrianglesStrip => GL_TRIANGLE_STRIP
  | TrianglesFan => GL_TRIANGLE_FAN
  | Quads => GL_QUADS
  end.

(** The blocks below are written out twice in the source, once in each
    [draw] overload, with the same text. *)

(** "Track if we need to set uniforms again for current shader": sets
    [m_currentNonLegacyShader] and returns [shaderChanged] and
    [previousShaderWarnSetting]. *)
Definition trackNonLegacyShader (states : RenderStates) : M (bool * bool) :=
  t <- getTarget ;;
  match m_defaultShader t with
  | Some defaultShader =>
      previousShaderWarnSetting <-
        match RenderStates.shader states with
        | Some s =>
            modifyTarget (set_m_currentNonLegacyShader (Some s)) ;;
            Shader_warnMissing s false
        | None =>
            modifyTarget (set_m_currentNonLegacyShader (Some defaultShader)) ;;
            ret true
        end ;;
      t' <- getTarget ;;
      ret (negb (samePointer (m_currentNonLegacyShader t')
                   (m_lastNonLegacyShader t')),
           previousShaderWarnSetting)
  | None => ret (false, true)
  end.

(** "Apply the shader". *)
Definition applyResolvedShader (states : RenderStates) : M unit :=
  t <- getTarget ;;
  match RenderStates.shader states with
  | Some s => applyShader (Some s)
  | None =>
      match m_defaultShader t with
      | Some defaultShader => applyShader (Some defaultShader)
      | None => ret tt
      end
  end.

Definition at_offset (data : option ArrayBase) (off : Z) : Pointer :=
  {| base := data; offset := off |}.

(** The fixed-function pointers; [data] is null in the buffer overload. *)
Definition setVertexPointers (data : option ArrayBase) : M unit :=
  emit (glVertexPointer 3 GL_FLOAT sizeof_Vertex (at_offset data 0)) ;;
  emit (glColorPointer 4 GL_UNSIGNED_BYTE sizeof_Vertex (at_offset data 12)) ;;
  emit (glTexCoordPointer 2 GL_FLOAT sizeof_Vertex (at_offset data 16)) ;;
  emit (glNormalPointer GL_FLOAT sizeof_Vertex (at_offset data 24)).

(** The lights, pushed into the shader of the draw in progress. *)
Definition setLightParameters (shader : ShaderPtr) : M unit :=
  if Light_isLightingEnabled env then
    emit (Shader_setParameter shader "sf_LightCount"
            (UInt (Z.of_nat (length (Light_getEnabledLights env))))) ;;
    forEach (Light_getEnabledLights env)
      (fun light => emit (Light_addToShader light shader)) ;;
    t <- getTarget ;;
    emit (Shader_setParameter shader "sf_ViewerPosition"
            (UVector3 (View.getPosition (m_view t))))
  else emit (Shader_setParameter shader "sf_LightCount" (UInt 0)).

(** The generic attribute arrays around the draw call.  The position
    attribute is given a null pointer in both overloads. *)
Definition drawWithAttributes (shader : ShaderPtr) (data : option ArrayBase)
  (mode : GLenum) (vertexCount : nat) : M unit :=
  let vertexLocation := Shader_getVertexAttributeLocation env shader "sf_Vertex" in
  let colorLocation := Shader_getVertexAttributeLocation env shader "sf_Color" in
  let texCoordLocation :=
    Shader_getVertexAttributeLocation env shader "sf_MultiTexCoord0" in
  let normalLocation := Shader_getVertexAttributeLocation env shader "sf_Normal" in
  when (0 <=? vertexLocation)%Z
    (emit (glEnableVertexAttribArrayARB vertexLocation) ;;
     emit (glVertexAttribPointerARB vertexLocation 3 GL_FLOAT false
             sizeof_Vertex (at_offset None 0))) ;;
  when (0 <=? colorLocation)%Z
    (emit (glEnableVertexAttribArrayARB colorLocation) ;;
     emit (glVertexAttribPointerARB colorLocation 4 GL_UNSIGNED_BYTE true
             sizeof_Vertex (at_offset data sizeof_Vector3f))) ;;
  when (0 <=? texCoordLocation)%Z
    (emit (glEnableVertexAttribArrayARB texCoordLocation) ;;
     emit (glVertexAttribPointerARB texCoordLocation 2 GL_FLOAT false
             sizeof_Vertex (at_offset data (sizeof_Vector3f + sizeof_Color)))) ;;
  when (0 <=? normalLocation)%Z
    (emit (glEnableVertexAttribArrayARB normalLocation) ;;
     emit (glVertexAttribPointerARB normalLocation 3 GL_FLOAT false
             sizeof_Vertex
             (at_offset data (sizeof_Vector3f + sizeof_Color + sizeof_Vector2f)))) ;;
  emit (glDrawArrays mode 0 vertexCount) ;;
  when (0 <=? vertexLocation)%Z (emit (glDisableVertexAttribArrayARB vertexLocation)) ;;
  when (0 <=? colorLocation)%Z (emit (glDisableVertexAttribArrayARB colorLocation)) ;;
  when (0 <=? texCoordLocation)%Z
    (emit (glDisableVertexAttribArrayARB texCoordLocation)) ;;
  when (0 <=? normalLocation)%Z (emit (glDisableVertexAttribArrayARB normalLocation)).

(** The shader branch of "Setup the pointers to the vertices' components".
    [m_currentNonLegacyShader] was set by [trackNonLegacyShader]; the source
    dereferences it unchecked. *)
Definition drawNonLegacy (data : option ArrayBase) (mode : GLenum)
  (vertexCount : nat) : M unit :=
  t <- getTarget ;;
  match m_currentNonLegacyShader t with
  | Some current =>
      setLightParameters current ;;
      drawWithAttributes current data mode vertexCount
  | None => ret tt
  end.

(** "Unbind the shader, if any was bound in legacy mode". *)
Definition unbindLegacyShader (states : RenderStates) : M unit :=
  t <- getTarget ;;
  when (negb (isNull (RenderStates.shader states)) && isNull (m_defaultShader t))
    (applyShader None).

(** The closing block of a draw in the shader pipeline. *)
Definition recordNonLegacyShader (states : RenderStates)
  (previousShaderWarnSetting : bool) : M unit :=
  t <- getTarget ;;
  match m_defaultShader t with
  | Some _ =>
      match RenderStates.shader states with
      | Some s => Shader_warnMissing s previousShaderWarnSetting ;; ret tt
      | None => ret tt
      end ;;
      modifyTarget (fun t => set_m_lastNonLegacyShader (m_currentNonLegacyShader t) t) ;;
      modifyTarget (set_m_currentNonLegacyShader None)
  | None => ret tt
  end.

(** "First set the persistent OpenGL states if it's the very first call". *)
Definition ensureGLStates : M unit :=
  t <- getTarget ;;
  when (negb (glStatesSet (m_cache t))) resetGLStates.

Definition drawVertexBuffer (buffer : VertexBuffer) (states : RenderStates)
  : M unit :=
  if Nat.eqb (VertexBuffer.getVertexCount buffer) 0 then ret tt
  else
    ok <- activate true ;;
    if ok then
      ensureGLStates ;;
      tracked <- trackNonLegacyShader states ;;
      let shaderChanged := fst tracked in
      let previousShaderWarnSetting := snd tracked in
      applyTransform (RenderStates.transform states) ;;
      t <- getTarget ;;
      when (shaderChanged || viewChanged (m_cache t)) applyCurrentView ;;
      t <- getTarget ;;
      when (negb (BlendMode_eqb (RenderStates.blendMode states)
                    (lastBlendMode (m_cache t))))
        (applyBlendMode (RenderStates.blendMode states)) ;;
      let textureId := cacheIdOf (RenderStates.texture states) in
      t <- getTarget ;;
      when (shaderChanged || negb (N.eqb textureId (lastTextureId (m_cache t))))
        (applyTexture (RenderStates.texture states)) ;;
      applyResolvedShader states ;;
      let vertexBufferId := VertexBuffer.m_cacheId buffer in
      t <- getTarget ;;
      when (negb (N.eqb vertexBufferId (lastVertexBufferId (m_cache t))))
        (applyVertexBuffer (Some buffer)) ;;
      let mode := modes (VertexBuffer.getPrimitiveType buffer) in
      t <- getTarget ;;
      (if isNull (m_defaultShader t) then
         setVertexPointers None ;;
         emit (glDrawArrays mode 0 (VertexBuffer.getVertexCount buffer))
       else drawNonLegacy None mode (VertexBuffer.getVertexCount buffer)) ;;
      unbindLegacyShader states ;;
      recordNonLegacyShader states previousShaderWarnSetting
    else ret tt.

Definition preTransformed (transform : Transform) (v : Vertex) : Vertex :=
  Vertex.mk (transformPoint env transform (Vertex.position v))
    (Vertex.color v) (Vertex.texCoords v) (Vertex.normal v).

(** [for (i = first; i < first + remaining; ++i) vertexCache[i] = ...].
    The loop only runs when the count fits the array, so no store is out of
    range; a store past the end of the list would be dropped. *)
Fixpoint storePreTransformed (transform : Transform) (vertices : nat -> Vertex)
  (first remaining : nat) (vertexCache : list Vertex) : list Vertex :=
  match remaining with
  | O => vertexCache
  | S remaining' =>
      storePreTransformed transform vertices (S first) remaining'
        (<[first := preTransformed transform (vertices first)]> vertexCache)
  end.

(** The caller's array is a pointer: [vertices i] is what it holds at index
    [i].  The local [useVertexCache] of the source is [usesVertexCache]. *)
Definition usesVertexCache (t : RenderTarget) (vertexCount : nat)
  (states : RenderStates) : bool :=
  isNull (m_defaultShader t) && (vertexCount <=? VertexCacheSize env)%nat
  && RenderStates.useVertexCache states.

Definition drawVertices (vertices : option (nat -> Vertex)) (vertexCount : nat)
  (type : PrimitiveType) (states : RenderStates) : M unit :=
  match vertices with
  | None => ret tt
  | Some array =>
      if Nat.eqb vertexCount 0 then ret tt
      else
        ok <- activate true ;;
        if ok then
          ensureGLStates ;;
          tracked <- trackNonLegacyShader states ;;
          let shaderChanged := fst tracked in
          let previousShaderWarnSetting := snd tracked in
          t <- getTarget ;;
          let useVertexCache := usesVertexCache t vertexCount states in
          (if useVertexCache then
             modifyCache
               (fun c =>
                  set_vertexCache
                    (storePreTransformed (RenderStates.transform states) array
                       0 vertexCount (vertexCache c)) c) ;;
             when (negb (StatesCache.useVertexCache (m_cache t)))
               (applyTransform (Identity env))
           else applyTransform (RenderStates.transform states)) ;;
          t <- getTarget ;;
          when (shaderChanged || viewChanged (m_cache t)) applyCurrentView ;;
          t <- getTarget ;;
          when (negb (BlendMode_eqb (RenderStates.blendMode states)
                        (lastBlendMode (m_cache t))))
            (applyBlendMode (RenderStates.blendMode states)) ;;
          let textureId := cacheIdOf (RenderStates.texture states) in
          t <- getTarget ;;
          when (shaderChanged || negb (N.eqb textureId (lastTextureId (m_cache t))))
            (applyTexture (RenderStates.texture states)) ;;
          applyResolvedShader states ;;
          t <- getTarget ;;
          when (negb (N.eqb (lastVertexBufferId (m_cache t)) 0))
            (applyVertexBuffer None) ;;
          t <- getTarget ;;
          let vertices' :=
            if useVertexCache then
              if negb (StatesCache.useVertexCache (m_cache t))
              then Some VertexCacheArray
              else None
            else Some CallerVertices in
          let mode := modes type in
          (if isNull (m_defaultShader t) then
             when (negb (isNull vertices')) (setVertexPointers vertices') ;;
             emit (glDrawArrays mode 0 vertexCount)
           else drawNonLegacy vertices' mode vertexCount) ;;
          unbindLegacyShader states ;;
          modifyCache (set_useVertexCache useVertexCache) ;;
          recordNonLegacyShader states previousShaderWarnSetting
        else ret tt
  end.

(** [draw(const Drawable&, ...)]: the drawable's own callback, given the
    states; what it does is up to the drawable. *)
Definition drawDrawable (drawable : RenderStates -> M unit)
  (states : RenderStates) : M unit :=
  drawable states.

End RenderTarget.

(** ** Submissions and operations *)

(** What a caller hands to one of the two primitive [draw] overloads. *)
Inductive Submission :=
| VertexArray (vertices : option (nat -> Vertex)) (vertexCount : nat)
    (type : PrimitiveType) (states : RenderStates)
| Buffer (buffer : VertexBuffer) (states : RenderStates).

Definition draw (env : Env) (s : Submission) : M unit :=
  match s with
  | VertexArray vertices vertexCount type states =>
      drawVertices env vertices vertexCount type states
  | Buffer buffer states => drawVertexBuffer env buffer states
  end.

Definition statesOf (s : Submission) : RenderStates :=
  match s with
  | VertexArray _ _ _ states => states
  | Buffer _ states => states
  end.

(** "Nothing to draw?" *)
Definition nothingToDraw (s : Submission) : bool :=
  match s with
  | VertexArray vertices vertexCount _ _ =>
      isNull vertices || Nat.eqb vertexCount 0
  | Buffer buffer _ => Nat.eqb (VertexBuffer.getVertexCount buffer) 0
  end.

Definition textureIdOf (s : Submission) : N :=
  cacheIdOf (RenderStates.texture (statesOf s)).

(** The identity of the device buffer a submission reads: none ([0]) for a
    caller-owned array. *)
Definition vertexBufferIdOf (s : Submission) : N :=
  match s with
  | VertexArray _ _ _ _ => 0%N
  | Buffer buffer _ => VertexBuffer.m_cacheId buffer
  end.

(** The shader a draw resolves to: the override, else the default shader,
    else none. *)
Definition resolvedShader (t : RenderTarget) (states : RenderStates)
  : option ShaderPtr :=
  match RenderStates.shader states with
  | Some s => Some s
  | None => m_defaultShader t
  end.

(** [shaderChanged], as a function of the state a draw starts in. *)
Definition shaderChanges (t : RenderTarget) (states : RenderStates) : bool :=
  negb (isNull (m_defaultShader t))
  && negb (samePointer (resolvedShader t states) (m_lastNonLegacyShader t)).

(** The state-changing public operations of the target, [initialize]
    excepted. *)
Inductive Operation :=
| OpClear (color : Color)
| OpEnableDepthTest (enable : bool)
| OpSetView (view : View)
| OpDraw (s : Submission)
| OpPushGLStates
| OpPopGLStates
| OpResetGLStates.

Definition perform (env : Env) (op : Operation) : M unit :=
  match op with
  | OpClear color => clear env color
  | OpEnableDepthTest enable => enableDepthTest enable
  | OpSetView view => setView view
  | OpDraw s => draw env s
  | OpPushGLStates => pushGLStates env
  | OpPopGLStates => popGLStates env
  | OpResetGLStates => resetGLStates env
  end.

Definition performAll (env : Env) (ops : list Operation) : M unit :=
  forEach ops (perform env).

(** ** Reading a sequence of calls *)

(** Each applier of the cached state makes exactly one call that no other
    function of the target makes; a call is classified by the applier it
    betrays.  The texture applier binds the texture (legacy pipeline) or
    sets the [sf_TextureEnabled] uniform (shader pipeline). *)
Inductive CallKind :=
| ViewApply | BlendModeApply | TextureApply | ShaderApply | VertexBufferApply
| DrawArrays | MatrixCall | OtherCall.

Definition kind (c : Call) : CallKind :=
  match c with
  | glViewport _ _ _ _ => ViewApply
  | glBlendFunc _ _ | glBlendFuncSeparateEXT _ _ _ _ => BlendModeApply
  | Texture_bind _ _ => TextureApply
  | Shader_setParameter _ name _ =>
      if String.eqb name "sf_TextureEnabled" then TextureApply else OtherCall
  | Shader_bind _ => ShaderApply
  | VertexBuffer_bind _ => VertexBufferApply
  | glDrawArrays _ _ _ => DrawArrays
  | glMatrixMode _ | glLoadMatrixf _ | glPushMatrix | glPopMatrix => MatrixCall
  | _ => OtherCall
  end.

Definition CallKind_eqb (a b : CallKind) : bool :=
  match a, b with
  | ViewApply, ViewApply | BlendModeApply, BlendModeApply
  | TextureApply, TextureApply | ShaderApply, ShaderApply
  | VertexBufferApply, VertexBufferApply | DrawArrays, DrawArrays
  | MatrixCall, MatrixCall | OtherCall, OtherCall => true
  | _, _ => false
  end.

Fixpoint count (k : CallKind) (calls : list Call) : nat :=
  match calls with
  | [] => 0
  | c :: calls' => (if CallKind_eqb (kind c) k then 1 else 0) + count k calls'
  end.

(** The shader left bound by a sequence of calls, if it binds any. *)
Fixpoint boundShader (before : option ShaderPtr) (calls : list Call)
  : option ShaderPtr :=
  match calls with
  | [] => before
  | Shader_bind s :: calls' => boundShader s calls'
  | _ :: calls' => boundShader before calls'
  end.

(** The matrix state of the device: the current mode and the model-view and
    projection stacks, current matrix on top ([None]: never loaded). *)
Record Matrices := {
  matrixMode : GLenum;
  modelviewStack : list (option Transform);
  projectionStack : list (option Transform)
}.

Definition current (stack : list (option Transform)) : option Transform :=
  match stack with
  | m :: _ => m
  | [] => None
  end.

Definition load (m : Transform) (stack : list (option Transform))
  : list (option Transform) :=
  match stack with
  | _ :: rest => Some m :: rest
  | [] => [Some m]
  end.

Definition pop (stack : list (option Transform)) : list (option Transform) :=
  match stack with
  | _ :: (_ :: _) as rest => rest
  | _ => stack
  end.

Definition onStack (f : list (option Transform) -> list (option Transform))
  (d : Matrices) : Matrices :=
  match matrixMode d with
  | GL_MODELVIEW =>
      Build_Matrices (matrixMode d) (f (modelviewStack d)) (projectionStack d)
  | GL_PROJECTION =>
      Build_Matrices (matrixMode d) (modelviewStack d) (f (projectionStack d))
  | _ => d
  end.

Definition matrixStep (d : Matrices) (c : Call) : Matrices :=
  match c with
  | glMatrixMode mode =>
      Build_Matrices mode (modelviewStack d) (projectionStack d)
  | glLoadMatrixf m => onStack (load m) d
  | glPushMatrix => onStack (fun s => current s :: s) d
  | glPopMatrix => onStack pop d
  | _ => d
  end.

Definition replay (calls : list Call) (d : Matrices) : Matrices :=
  fold_left matrixStep calls d.

Definition modelview (d : Matrices) : option Transform :=
  current (modelviewStack d).

(** ** The viewport contract, as the specification words it *)

Definition viewportFormula (width height : float) (viewport : FloatRect)
  : IntRect :=
  {| IntRect.left :=
       Float32.to_int (Float32.add Float32.half
                         (Float32.mul width (FloatRect.left viewport)));
     IntRect.top :=
       Float32.to_int (Float32.add Float32.half
                         (Float32.mul height (FloatRect.top viewport)));
     IntRect.width := Float32.to_int (Float32.mul width (FloatRect.width viewport));
     IntRect.height :=
       Float32.to_int (Float32.mul height (FloatRect.height viewport)) |}.

(** ** Auxiliary definitions for the proofs *)

Definition withCache (f : StatesCache -> StatesCache) (w : World) : World :=
  set_target (set_m_cache (f (m_cache (target w))) (target w)) w.

Definition one_of (k0 k : CallKind) : nat :=
  if CallKind_eqb k0 k then 1 else 0.

Definition legacy (w : World) : bool := isNull (m_defaultShader (target w)).

(** The world [trackNonLegacyShader] leaves. *)
Definition afterTrack (states : RenderStates) (w : World) : World :=
  match m_defaultShader (target w) with
  | Some defaultShader =>
      match RenderStates.shader states with
      | Some s =>
          Build_World (set_m_currentNonLegacyShader (Some s) (target w))
            (activations w)
            (fun s' => if Nat.eqb s' s then false else warnMissingSetting w s')
      | None =>
          set_target
            (set_m_currentNonLegacyShader (Some defaultShader) (target w)) w
      end
  | None => w
  end.

Definition previousWarnSetting (states : RenderStates) (w : World) : bool :=
  match m_defaultShader (target w), RenderStates.shader states with
  | Some _, Some s => warnMissingSetting w s
  | _, _ => true
  end.

(** The world [recordNonLegacyShader] leaves. *)
Definition afterRecord (states : RenderStates) (previous : bool) (w : World)
  : World :=
  match m_defaultShader (target w) with
  | Some _ =>
      Build_World
        (set_m_currentNonLegacyShader None
           (set_m_lastNonLegacyShader (m_currentNonLegacyShader (target w))
              (target w)))
        (activations w)
        (match RenderStates.shader states with
         | Some s =>
             fun s' => if Nat.eqb s' s then previous else warnMissingSetting w s'
         | None => warnMissingSetting w
         end)
  | None => w
  end.

(** The world [resetGLStates] leaves. *)
Definition afterReset (env : Env) (w : World) : World :=
  let t := target w in
  if activate_result env (activations w) then
    Build_World
      (Build_RenderTarget (m_defaultView t) (m_defaultView t)
         (StatesCache.mk true true BlendAlpha 0%N
            (if VertexBuffer_isAvailable env then 0%N
             else lastVertexBufferId (m_cache t))
            false (vertexCache (m_cache t)))
         (m_depthTest t) (m_clearDepth t) (m_defaultShader t)
         (m_currentNonLegacyShader t) (m_lastNonLegacyShader t))
      (S (activations w)) (warnMissingSetting w)
  else Build_World t (S (activations w)) (warnMissingSetting w).

Definition idOfBuffer (b : option VertexBuffer) : N :=
  match b with Some b => VertexBuffer.m_cacheId b | None => 0%N end.

(** ** The draw protocol, as the specification words it

    Steps 2 to 11 of the protocol, from the world [w1] a draw is in once it
    has activated the target and made sure the persistent states are set.
    The calls of a step are those of its applier, run with the shader of the
    draw selected ([afterTrack]). *)

Definition activated (w : World) : World :=
  Build_World (target w) (S (activations w)) (warnMissingSetting w).

Section Protocol.

Variable env : Env.

Definition transformStep (s : Submission) (w1 : World) : list Call :=
  let states := statesOf s in
  let selected := afterTrack states w1 in
  match s with
  | VertexArray _ vertexCount _ _ =>
      if usesVertexCache env (target w1) vertexCount states then
        if useVertexCache (m_cache (target w1)) then []
        else issued (applyTransform env (Identity env)) selected
      else issued (applyTransform env (RenderStates.transform states)) selected
  | Buffer _ _ =>
      issued (applyTransform env (RenderStates.transform states)) selected
  end.

Definition viewStep (s : Submission) (w1 : World) : list Call :=
  if shaderChanges (target w1) (statesOf s)
     || viewChanged (m_cache (target w1))
  then issued (applyCurrentView env) (afterTrack (statesOf s) w1)
  else [].

Definition blendModeStep (s : Submission) (w1 : World) : list Call :=
  if negb (BlendMode_eqb (RenderStates.blendMode (statesOf s))
             (lastBlendMode (m_cache (target w1))))
  then issued (applyBlendMode env (RenderStates.blendMode (statesOf s)))
         (afterTrack (statesOf s) w1)
  else [].

Definition textureStep (s : Submission) (w1 : World) : list Call :=
  if shaderChanges (target w1) (statesOf s)
     || negb (N.eqb (textureIdOf s) (lastTextureId (m_cache (target w1))))
  then issued (applyTexture env (RenderStates.texture (statesOf s)))
         (afterTrack (statesOf s) w1)
  else [].

Definition shaderStep (s : Submission) (w1 : World) : list Call :=
  match resolvedShader (target w1) (statesOf s) with
  | Some shader => [Shader_bind (Some shader)]
  | None => []
  end.

Definition vertexSourceStep (s : Submission) (w1 : World) : list Call :=
  match s with
  | VertexArray _ _ _ _ =>
      if negb (N.eqb (lastVertexBufferId (m_cache (target w1))) 0)
      then [VertexBuffer_bind None] else []
  | Buffer buffer _ =>
      if negb (N.eqb (VertexBuffer.m_cacheId buffer)
                 (lastVertexBufferId (m_cache (target w1))))
      then [VertexBuffer_bind (Some buffer)] else []
  end.

(** Where the vertex pointers of an array draw point: nowhere new when the
    cached pre-transformed vertices of the previous draw are reused. *)
Definition vertexData (s : Submission) (w1 : World) : option ArrayBase :=
  match s with
  | VertexArray _ vertexCount _ states =>
      if usesVertexCache env (target w1) vertexCount states then
        if useVertexCache (m_cache (target w1)) then None
        else Some VertexCacheArray
      else Some CallerVertices
  | Buffer _ _ => None
  end.

Definition vertexCountOf (s : Submission) : nat :=
  match s with
  | VertexArray _ vertexCount _ _ => vertexCount
  | Buffer buffer _ => VertexBuffer.getVertexCount buffer
  end.

Definition modeOf (s : Submission) : GLenum :=
  match s with
  | VertexArray _ _ type _ => modes type
  | Buffer buffer _ => modes (VertexBuffer.getPrimitiveType buffer)
  end.

Definition pointerStep (s : Submission) (w1 : World) : list Call :=
  match s with
  | VertexArray _ _ _ _ =>
      match vertexData s w1 with
      | Some data => issued (setVertexPointers (Some data)) w1
      | None => []
      end
  | Buffer _ _ => issued (setVertexPointers None) w1
  end.

Definition drawStep (s : Submission) (w1 : World) : list Call :=
  if legacy w1 then
    pointerStep s w1 ++ [glDrawArrays (modeOf s) 0 (vertexCountOf s)]
  else
    issued (drawNonLegacy env (vertexData s w1) (modeOf s) (vertexCountOf s))
      (afterTrack (statesOf s) w1).

Definition unbindStep (s : Submission) (w1 : World) : list Call :=
  if negb (isNull (RenderStates.shader (statesOf s))) && legacy w1
  then [Shader_bind None] else [].

Definition protocolCalls (s : Submission) (w1 : World) : list Call :=
  transformStep s w1 ++ viewStep s w1 ++ blendModeStep s w1
  ++ textureStep s w1 ++ shaderStep s w1 ++ vertexSourceStep s w1
  ++ drawStep s w1 ++ unbindStep s w1.

Definition protocolCache (s : Submission) (w1 : World) : StatesCache :=
  let c := m_cache (target w1) in
  {| glStatesSet := glStatesSet c;
     viewChanged := false;
     lastBlendMode := RenderStates.blendMode (statesOf s);
     lastTextureId := textureIdOf s;
     lastVertexBufferId := vertexBufferIdOf s;
     useVertexCache :=
       match s with
       | VertexArray _ vertexCount _ states =>
           usesVertexCache env (target w1) vertexCount states
       | Buffer _ _ => useVertexCache c
       end;
     vertexCache :=
       match s with
       | VertexArray (Some array) vertexCount _ states =>
           if usesVertexCache env (target w1) vertexCount states
           then storePreTransformed env (RenderStates.transform states) array
                  0 vertexCount (vertexCache c)
           else vertexCache c
       | _ => vertexCache c
       end |}.

Definition protocolTarget (s : Submission) (w1 : World) : RenderTarget :=
  let t := target w1 in
  {| m_defaultView := m_defaultView t;
     m_view := m_view t;
     m_cache := protocolCache s w1;
     m_depthTest := m_depthTest t;
     m_clearDepth := m_clearDepth t;
     m_defaultShader := m_defaultShader t;
     m_currentNonLegacyShader :=
       if legacy w1 then m_currentNonLegacyShader t else None;
     m_lastNonLegacyShader :=
       if legacy w1 then m_lastNonLegacyShader t
       else resolvedShader t (statesOf s) |}.

End Protocol.

(** What the calls of an applier depend on: the pipeline, the shader of the
    draw in progress and the current view, never the state cache. *)
Definition sameContext (w w' : World) : Prop :=
  m_defaultShader (target w) = m_defaultShader (target w')
  /\ m_currentNonLegacyShader (target w) = m_currentNonLegacyShader (target w')
  /\ m_view (target w) = m_view (target w').

(** ** Sample data *)

Module Sample.

Definition f (n : Z) : float := Float32.of_int n.

(** Matrices as [getMatrix()] lays them out, column after column. *)
Definition entry (m : Transform) (i : nat) : float :=
  List.nth i (Transform.m_matrix m) Float32.zero.

Definition identity : Transform :=
  Transform.mk
    [f 1; f 0; f 0; f 0;  f 0; f 1; f 0; f 0;
     f 0; f 0; f 1; f 0;  f 0; f 0; f 0; f 1].

Definition translation (x y z : Z) : Transform :=
  Transform.mk
    [f 1; f 0; f 0; f 0;  f 0; f 1; f 0; f 0;
     f 0; f 0; f 1; f 0;  f x; f y; f z; f 1].

Definition dot4 (a b c d a' b' c' d' : float) : float :=
  Float32.add
    (Float32.add (Float32.add (Float32.mul a a') (Float32.mul b b'))
       (Float32.mul c c'))
    (Float32.mul d d').

Definition product (a b : Transform) : Transform :=
  Transform.mk
    (map (fun n =>
            let i := Nat.modulo n 4 in
            let j := Nat.div n 4 in
            dot4 (entry a i) (entry a (i + 4)) (entry a (i + 8))
              (entry a (i + 12))
              (entry b (4 * j)) (entry b (4 * j + 1)) (entry b (4 * j + 2))
              (entry b (4 * j + 3)))
       (seq 0 16)).

Definition apply (m : Transform) (p : Vector3f) : Vector3f :=
  let row i :=
    dot4 (entry m i) (entry m (i + 4)) (entry m (i + 8)) (entry m (i + 12))
      (Vector3f.x p) (Vector3f.y p) (Vector3f.z p) (f 1) in
  Vector3f.mk (row 0%nat) (row 1%nat) (row 2%nat).

Definition apply2 (m : Transform) (p : Vector2f) : Vector2f :=
  let q := apply m (Vector3f.mk (Vector2f.x p) (Vector2f.y p) (f 0)) in
  Vector2f.mk (Vector3f.x q) (Vector3f.y q).

Definition transpose (m : Transform) : Transform :=
  Transform.mk
    (map (fun n => entry m (4 * Nat.modulo n 4 + Nat.div n 4)) (seq 0 16)).

(** The sixteen-argument constructor takes the entries row after row. *)
Definition fromRows (rows : list float) : Transform :=
  transpose (Transform.mk rows).

Definition fullViewport : FloatRect := FloatRect.mk (f 0) (f 0) (f 1) (f 1).

Definition view : View :=
  View.mk fullViewport identity identity identity
    (Vector3f.mk (f 0) (f 0) (f 0)).

(** A legacy-pipeline environment on an 800x600 surface: no shader
    lighting, so no default shader is ever built.  The inverse is only
    asked for under lighting, which is off. *)
Definition legacyEnv : Env :=
  {| Identity := identity;
     combine := product;
     transformPoint := apply;
     transformPoint2 := apply2;
     construct := fromRows;
     getInverse := fun m => m;
     getTranspose := transpose;
     View_reset := fun v rect => v;
     VertexCacheSize := 4;
     getSize := Vector2u.mk 800 600;
     activate_result := fun _ => true;
     GLEW_EXT_blend_func_separate := true;
     Shader_isAvailable := true;
     VertexBuffer_isAvailable := true;
     Light_isLightingEnabled := false;
     Light_getEnabledLights := [];
     Light_hasShaderLighting := false;
     Light_getMaximumLights := 8;
     Shader_getVertexAttributeLocation := fun _ _ => (-1)%Z;
     supportedVersionNumber := S754_finite false 5854679515581645 (-52);
     SFML_LEGACY_GL := false;
     new_Shader := 1;
     loadFromMemory_default := true |}.

(** The same machine with shader lighting: version 1.30, the default
    program pair compiles. *)
Definition shaderEnv : Env :=
  {| Identity := identity;
     combine := product;
     transformPoint := apply;
     transformPoint2 := apply2;
     construct := fromRows;
     getInverse := fun m => m;
     getTranspose := transpose;
     View_reset := fun v rect => v;
     VertexCacheSize := 4;
     getSize := Vector2u.mk 800 600;
     activate_result := fun _ => true;
     GLEW_EXT_blend_func_separate := true;
     Shader_isAvailable := true;
     VertexBuffer_isAvailable := true;
     Light_isLightingEnabled := false;
     Light_getEnabledLights := [];
     Light_hasShaderLighting := true;
     Light_getMaximumLights := 8;
     Shader_getVertexAttributeLocation := fun _ _ => 0%Z;
     supportedVersionNumber := S754_finite false 5854679515581645 (-52);
     SFML_LEGACY_GL := false;
     new_Shader := 1;
     loadFromMemory_default := true |}.

(** That machine again, built with [SFML_LEGACY_GL] defined. *)
Definition legacyBuildEnv : Env :=
  {| Identity := identity;
     combine := product;
     transformPoint := apply;
     transformPoint2 := apply2;
     construct := fromRows;
     getInverse := fun m => m;
     getTranspose := transpose;
     View_reset := fun v rect => v;
     VertexCacheSize := 4;
     getSize := Vector2u.mk 800 600;
     activate_result := fun _ => true;
     GLEW_EXT_blend_func_separate := true;
     Shader_isAvailable := true;
     VertexBuffer_isAvailable := true;
     Light_isLightingEnabled := false;
     Light_getEnabledLights := [];
     Light_hasShaderLighting := true;
     Light_getMaximumLights := 8;
     Shader_getVertexAttributeLocation := fun _ _ => 0%Z;
     supportedVersionNumber := S754_finite false 5854679515581645 (-52);
     SFML_LEGACY_GL := true;
     new_Shader := 1;
     loadFromMemory_default := true |}.

Definition white : Color := Color.mk 255 255 255 255.

Definition vertexAt (x y : Z) : Vertex :=
  Vertex.mk (Vector3f.mk (f x) (f y) (f 0)) white (Vector2f.mk (f 0) (f 0))
    (Vector3f.mk (f 0) (f 0) (f 1)).

Definition noVertex : Vertex := vertexAt 0 0.

(** A target whose persistent states are set (the state after a first
    draw), with the given default shader. *)
Definition cache : StatesCache :=
  {| glStatesSet := true;
     viewChanged := false;
     lastBlendMode := BlendAlpha;
     lastTextureId := 0%N;
     lastVertexBufferId := 0%N;
     useVertexCache := false;
     vertexCache := [noVertex; noVertex; noVertex; noVertex] |}.

Definition targetWith (defaultShader : option ShaderPtr) : RenderTarget :=
  {| m_defaultView := view;
     m_view := view;
     m_cache := cache;
     m_depthTest := false;
     m_clearDepth := false;
     m_defaultShader := defaultShader;
     m_currentNonLegacyShader := None;
     m_lastNonLegacyShader := None |}.

Definition world (defaultShader : option ShaderPtr) : World :=
  {| target := targetWith defaultShader;
     activations := 0;
     warnMissingSetting := fun _ => true |}.

Definition legacyWorld : World := world None.
Definition shaderWorld : World := world (Some 1).

(** A target fresh from construction and [initialize]: states not set. *)
Definition freshWorld : World :=
  {| target := set_m_cache (set_glStatesSet false cache) (targetWith None);
     activations := 0;
     warnMissingSetting := fun _ => true |}.

Definition states (transform : Transform) (texture : option Texture)
  (shader : option ShaderPtr) : RenderStates :=
  RenderStates.mk transform BlendAlpha texture shader true.

Definition triangle (i : nat) : Vertex :=
  match i with
  | 0 => vertexAt 0 0
  | 1 => vertexAt 10 0
  | _ => vertexAt 0 10
  end.

(** Two textures at the same address with different identities: the
    second was created where the first had been destroyed. *)
Definition texture1 : Texture :=
  Texture.mk 64 1 (Vector2u.mk 64 64) (Vector2u.mk 64 64) false.
Definition texture2 : Texture :=
  Texture.mk 64 2 (Vector2u.mk 32 32) (Vector2u.mk 32 32) false.

Definition buffer : VertexBuffer := VertexBuffer.mk 128 7 3 Triangles.
Definition emptyBuffer : VertexBuffer := VertexBuffer.mk 128 7 0 Triangles.

Definition arrayDraw (transform : Transform) (texture : option Texture)
  (shader : option ShaderPtr) : Submission :=
  VertexArray (Some triangle) 3 Triangles (states transform texture shader).

Definition bufferDraw (transform : Transform) (texture : option Texture)
  (shader : option ShaderPtr) : Submission :=
  Buffer buffer (states transform texture shader).

End Sample.

(** The world a draw is in once it has activated the target and made sure
    the persistent states are set. *)
Definition prepared (env : Env) (w : World) : World :=
  final (ensureGLStates env) (activated w).

(** Weakest preconditions: [wp m Q w] says that [Q] holds of what [m]
    returns, leaves and issues when run from [w]. *)
Definition wp {A} (m : M A) (Q : A -> World -> list Call -> Prop) (w : World)
  : Prop :=
  Q (result m w) (final m w) (issued m w).

(** ** Pipeline selection, as the specification words it (amended by the
    build switch) *)

Definition shaderPipelineSupported (env : Env) : bool :=
  Light_hasShaderLighting env
  && negb (SFML_LEGACY_GL env)
  && SFltb version_threshold (supportedVersionNumber env)
  && loadFromMemory_default env.

(** Exactness of the viewport of a full view, checked size by size. *)
Definition fullViewExact (k : Z) : bool :=
  Z.eqb (Float32.to_int
           (Float32.add Float32.half
              (Float32.mul (Float32.of_int k) Float32.zero))) 0
  && Z.eqb (Float32.to_int (Float32.mul (Float32.of_int k) Float32.one)) k.

Fixpoint fullViewExactFrom (k : Z) (n : nat) : bool :=
  fullViewExact k
  && match n with
     | O => true
     | S n' => fullViewExactFrom (k + 1) n'
     end.

Module Scenario.

Import Sample.

(** Same address, different identity. *)
Definition firstTextured : Submission := arrayDraw identity (Some texture1) None.
Definition secondTextured : Submission := arrayDraw identity (Some texture2) None.
Definition afterFirstTextured : World :=
  final (draw legacyEnv firstTextured) legacyWorld.

(** An array draw through the vertex cache, a buffer draw with another
    transform, the array draw again. *)
Definition cachedDraw : Submission := arrayDraw (translation 1 2 3) None None.
Definition movedBufferDraw : Submission := bufferDraw (translation 5 0 0) None None.
Definition afterCachedDraw : World := final (draw legacyEnv cachedDraw) legacyWorld.
Definition afterBufferDraw : World :=
  final (draw legacyEnv movedBufferDraw) afterCachedDraw.

Definition device : Matrices :=
  {| matrixMode := GL_MODELVIEW;
     modelviewStack := [None];
     projectionStack := [None] |}.

(** The triangle of [cachedDraw], moved by its transform. *)
Definition movedVertex (x y z : Z) : Vertex :=
  Vertex.mk (Vector3f.mk (f x) (f y) (f z)) white (Vector2f.mk (f 0) (f 0))
    (Vector3f.mk (f 0) (f 0) (f 1)).

Definition movedTriangle : list Vertex :=
  [movedVertex 1 2 3; movedVertex 11 2 3; movedVertex 1 12 3].

(** A legacy draw with a shader override. *)
Definition overridden : Submission := bufferDraw identity None (Some 5).

End Scenario.

(** * Further definitions

    Readings of call sequences, the calls each part of the target can make,
    and further sample data. *)

(** ** Ranges of sizes and binary32 tests *)

(** The integers [lo], [lo + 1], ..., [lo + n - 1]. *)
Fixpoint zrange (lo : Z) (n : nat) : list Z :=
  match n with
  | O => []
  | S n' => lo :: zrange (lo + 1) n'
  end.

(** [pairwise R l]: [R x y] for every [x] that comes before [y] in [l]. *)
Fixpoint pairwise {A} (R : A -> A -> bool) (l : list A) : bool :=
  match l with
  | [] => true
  | x :: rest => forallb (R x) rest && pairwise R rest
  end.

(** Equality of two binary32 values, as a test. *)
Definition same_float (a b : float) : bool :=
  match a, b with
  | S754_zero s, S754_zero s' | S754_infinity s, S754_infinity s' =>
      Bool.eqb s s'
  | S754_nan, S754_nan => true
  | S754_finite s m e, S754_finite s' m' e' =>
      Bool.eqb s s' && Pos.eqb m m' && Z.eqb e e'
  | _, _ => false
  end.

(** What [clear] makes of an 8-bit colour component. *)
Definition clearComponent (c : Z) : float :=
  Float32.div (Float32.of_int c) Float32.f255.

(** ** What a sequence of calls says *)

(** Everything [f] reads in a sequence of calls, in order. *)
Fixpoint readAll {A} (f : Call -> option A) (calls : list Call) : list A :=
  match calls with
  | [] => []
  | c :: rest =>
      match f c with
      | Some a => a :: readAll f rest
      | None => readAll f rest
      end
  end.

(** The last call of a sequence that [f] can read, as read by [f]. *)
Fixpoint lastWhere {A} (f : Call -> option A) (calls : list Call) : option A :=
  match calls with
  | [] => None
  | c :: rest =>
      match lastWhere f rest with
      | Some a => Some a
      | None => f c
      end
  end.

(** The draw calls of a sequence are those [isDrawCall] keeps. *)
Definition isDrawCall (c : Call) : bool :=
  match c with glDrawArrays _ _ _ => true | _ => false end.

(** The calls before and after the first draw call of a sequence. *)
Fixpoint beforeDraw (calls : list Call) : list Call :=
  match calls with
  | [] => []
  | glDrawArrays _ _ _ :: _ => []
  | c :: rest => c :: beforeDraw rest
  end.

Fixpoint afterDraw (calls : list Call) : list Call :=
  match calls with
  | [] => []
  | glDrawArrays _ _ _ :: rest => rest
  | _ :: rest => afterDraw rest
  end.

(** What a call says about vertex attributes, lights, the viewport and
    shaders. *)
Definition attributeEnabled (c : Call) : option Z :=
  match c with glEnableVertexAttribArrayARB index => Some index | _ => None end.

Definition attributeDisabled (c : Call) : option Z :=
  match c with glDisableVertexAttribArrayARB index => Some index | _ => None end.

Definition attributePointer (c : Call)
  : option (Z * Z * GLenum * bool * Z * Pointer) :=
  match c with
  | glVertexAttribPointerARB index size type normalized stride p =>
      Some (index, size, type, normalized, stride, p)
  | _ => None
  end.

Definition lightUploaded (c : Call) : option (LightPtr * ShaderPtr) :=
  match c with Light_addToShader light shader => Some (light, shader) | _ => None end.

Definition lightCountSet (c : Call) : option (ShaderPtr * Z) :=
  match c with
  | Shader_setParameter shader name (UInt n) =>
      if String.eqb name "sf_LightCount" then Some (shader, n) else None
  | _ => None
  end.

Definition viewerPositionSet (c : Call) : option (ShaderPtr * Vector3f) :=
  match c with
  | Shader_setParameter shader name (UVector3 v) =>
      if String.eqb name "sf_ViewerPosition" then Some (shader, v) else None
  | _ => None
  end.

(** The calls about lights, as they are: the light count, the lights and
    the viewer position. *)
Definition lightCall (c : Call) : option Call :=
  match c with
  | Light_addToShader _ _ => Some c
  | Shader_setParameter _ name _ =>
      if String.eqb name "sf_LightCount" || String.eqb name "sf_ViewerPosition"
      then Some c else None
  | _ => None
  end.

Definition viewportSet (c : Call) : option (Z * Z * Z * Z) :=
  match c with
  | glViewport x y width height => Some (x, y, width, height)
  | _ => None
  end.

Definition shaderBound (c : Call) : option (option ShaderPtr) :=
  match c with Shader_bind shader => Some shader | _ => None end.

(** The shader a uniform or a light is sent to. *)
Definition addressee (c : Call) : option ShaderPtr :=
  match c with
  | Shader_setParameter shader _ _ | Light_addToShader _ shader => Some shader
  | _ => None
  end.

(** The blend mode a blend-function call stands for. *)
Definition blendFunction (c : Call) : option BlendMode :=
  match c with
  | glBlendFuncSeparateEXT GL_SRC_ALPHA GL_ONE_MINUS_SRC_ALPHA GL_ONE
      GL_ONE_MINUS_SRC_ALPHA
  | glBlendFunc GL_SRC_ALPHA GL_ONE_MINUS_SRC_ALPHA => Some BlendAlpha
  | glBlendFuncSeparateEXT GL_SRC_ALPHA GL_ONE GL_ONE GL_ONE
  | glBlendFunc GL_SRC_ALPHA GL_ONE => Some BlendAdd
  | glBlendFunc GL_DST_COLOR GL_ZERO => Some BlendMultiply
  | glBlendFunc GL_ONE GL_ZERO => Some BlendNone
  | _ => None
  end.

(** The texture and the vertex buffer a call binds. *)
Definition textureBound (c : Call) : option (option Texture) :=
  match c with
  | Texture_bind texture _ => Some texture
  | _ => None
  end.

Definition bufferBound (c : Call) : option (option VertexBuffer) :=
  match c with
  | VertexBuffer_bind buffer => Some buffer
  | _ => None
  end.

(** A member of the cache agrees with the calls issued since [w]: it holds
    what the last readable call says, or what it held in [w] when there is
    no such call. *)
Definition coherent {A B} (f : Call -> option A) (dec : A -> B)
  (proj : StatesCache -> B) (calls : list Call) (w w' : World) : Prop :=
  match lastWhere f calls with
  | Some a => proj (m_cache (target w')) = dec a
  | None => proj (m_cache (target w')) = proj (m_cache (target w))
  end.

(** ** The calls each part of the target can make *)

(** The calls [resetGLStates] makes once the target is active: the
    persistent states, the default blend mode, transform and texture, and
    the default shader and vertex buffer where the device has them. *)
Definition persistentStateCalls (t : RenderTarget) : list Call :=
  [ensureGlewInit; glDisable GL_LIGHTING]
  ++ (if m_depthTest t then [] else [glDisable GL_DEPTH_TEST])
  ++ [glDisable GL_ALPHA_TEST; glEnable GL_CULL_FACE; glEnable GL_BLEND]
  ++ (if isNull (m_defaultShader t)
      then [glEnable GL_TEXTURE_2D; glEnable GL_COLOR_MATERIAL;
            glEnable GL_NORMALIZE; glMatrixMode GL_MODELVIEW;
            glEnableClientState GL_VERTEX_ARRAY;
            glEnableClientState GL_COLOR_ARRAY;
            glEnableClientState GL_TEXTURE_COORD_ARRAY;
            glEnableClientState GL_NORMAL_ARRAY]
      else [])
  ++ [glPolygonMode GL_FRONT_AND_BACK GL_FILL].

Definition defaultBinds (env : Env) (t : RenderTarget) : list Call :=
  (if Shader_isAvailable env then [Shader_bind (m_defaultShader t)] else [])
  ++ (if VertexBuffer_isAvailable env then [VertexBuffer_bind None] else []).

Definition resetCalls (env : Env) (w : World) : list Call :=
  persistentStateCalls (target w)
  ++ issued (applyBlendMode env BlendAlpha) w
  ++ issued (applyTransform env (Identity env)) w
  ++ issued (applyTexture env None) w
  ++ defaultBinds env (target w).

(** Every call an applier of the cached state or of the transform makes is
    one of these, in the pipeline given. *)
Definition applierCall (isLegacy : bool) (c : Call) : bool :=
  match c with
  | glViewport _ _ _ _ | glBlendFunc _ _ | glBlendFuncSeparateEXT _ _ _ _
  | Shader_bind _ | VertexBuffer_bind _ => true
  | glMatrixMode _ | glLoadMatrixf _ | Texture_bind _ _ => isLegacy
  | Shader_setParameter _ name _ =>
      negb isLegacy
      && existsb (String.eqb name)
           ["sf_ProjectionMatrix"; "sf_ViewMatrix"; "sf_ModelMatrix";
            "sf_NormalMatrix"; "sf_TextureMatrix"; "sf_Texture0";
            "sf_TextureEnabled"]
  | _ => false
  end.

(** Every call of steps 2 to 11 of a draw is one of these. *)
Definition protocolCall (isLegacy : bool) (c : Call) : bool :=
  applierCall isLegacy c
  || match c with
     | glDrawArrays _ _ _ => true
     | glVertexPointer _ _ _ _ | glColorPointer _ _ _ _
     | glTexCoordPointer _ _ _ _ | glNormalPointer _ _ _ => isLegacy
     | Light_addToShader _ _ | glEnableVertexAttribArrayARB _
     | glVertexAttribPointerARB _ _ _ _ _ _
     | glDisableVertexAttribArrayARB _ => negb isLegacy
     | Shader_setParameter _ name _ =>
         negb isLegacy
         && existsb (String.eqb name) ["sf_LightCount"; "sf_ViewerPosition"]
     | _ => false
     end.

(** The calls that set the persistent states, and every call of
    [resetGLStates]. *)
Definition persistentStateCall (c : Call) : bool :=
  match c with
  | ensureGlewInit | glEnable _ | glDisable _ | glEnableClientState _
  | glPolygonMode _ _ => true
  | _ => false
  end.

Definition resetCall (isLegacy : bool) (c : Call) : bool :=
  applierCall isLegacy c || persistentStateCall c.

(** Calls that only make sense in one of the two pipelines: the
    fixed-function matrices, texture unit and vertex arrays on one side, the
    uniforms and generic vertex attributes on the other. *)
Definition fixedFunctionOnly (c : Call) : bool :=
  match c with
  | glLoadMatrixf _ | Texture_bind _ _
  | glVertexPointer _ _ _ _ | glColorPointer _ _ _ _
  | glTexCoordPointer _ _ _ _ | glNormalPointer _ _ _
  | glEnableClientState _
  | glEnable GL_TEXTURE_2D | glEnable GL_COLOR_MATERIAL
  | glEnable GL_NORMALIZE => true
  | _ => false
  end.

Definition programmableOnly (c : Call) : bool :=
  match c with
  | Shader_setParameter _ _ _ | Light_addToShader _ _
  | glEnableVertexAttribArrayARB _ | glVertexAttribPointerARB _ _ _ _ _ _
  | glDisableVertexAttribArrayARB _ => true
  | _ => false
  end.

(** A call that has no business in the pipeline given. *)
Definition foreignCall (isLegacy : bool) (c : Call) : bool :=
  if isLegacy then programmableOnly c else fixedFunctionOnly c.

Definition savesOrRestoresMatrix (c : Call) : bool :=
  match c with glPushMatrix | glPopMatrix => true | _ => false end.

(** ** Classes of operations *)

Definition isEnableDepthTest (op : Operation) : bool :=
  match op with OpEnableDepthTest _ => true | _ => false end.

(** The operations that have no business with the persistent states. *)
Definition leavesStatesAlone (op : Operation) : bool :=
  match op with
  | OpClear _ | OpSetView _ | OpDraw _ | OpPopGLStates => true
  | OpEnableDepthTest _ | OpPushGLStates | OpResetGLStates => false
  end.

(** The operations that may come between [pushGLStates] and the matching
    [popGLStates]. *)
Definition betweenPushAndPop (op : Operation) : bool :=
  match op with
  | OpPushGLStates | OpPopGLStates => false
  | _ => true
  end.

(** ** The vertex attributes of the shader pipeline *)

Definition attributesLookedUp : list string :=
  ["sf_Vertex"; "sf_Color"; "sf_MultiTexCoord0"; "sf_Normal"].

(** The attributes of a shader that the draw code feeds: those the shader
    has, in the order position, colour, texture coordinates, normal. *)
Definition attributeLocations (env : Env) (shader : ShaderPtr) : list Z :=
  List.filter (Z.leb 0)
    (map (Shader_getVertexAttributeLocation env shader) attributesLookedUp).

(** The shader a draw in the shader pipeline works with. *)
Definition shaderOfDraw (defaultShader : ShaderPtr) (s : Submission) : ShaderPtr :=
  match RenderStates.shader (statesOf s) with
  | Some shader => shader
  | None => defaultShader
  end.

(** Where the vertices of a draw in the shader pipeline are read from. *)
Definition attributeData (s : Submission) : option ArrayBase :=
  match s with
  | VertexArray _ _ _ _ => Some CallerVertices
  | Buffer _ _ => None
  end.

(** The vertex layout the shader pipeline declares to the device, attribute
    by attribute: index, component count, type, normalization, stride and
    pointer.  The position is declared at a null pointer, the other three
    relative to [data]. *)
Definition attributeLayout (env : Env) (shader : ShaderPtr)
  (data : option ArrayBase) : list (Z * Z * GLenum * bool * Z * Pointer) :=
  let location := Shader_getVertexAttributeLocation env shader in
  List.filter
    (fun entry =>
       match entry with (index, _, _, _, _, _) => (0 <=? index)%Z end)
    [(location "sf_Vertex", 3%Z, GL_FLOAT, false, 36%Z,
      {| base := None; offset := 0 |});
     (location "sf_Color", 4%Z, GL_UNSIGNED_BYTE, true, 36%Z,
      {| base := data; offset := 12 |});
     (location "sf_MultiTexCoord0", 2%Z, GL_FLOAT, false, 36%Z,
      {| base := data; offset := 16 |});
     (location "sf_Normal", 3%Z, GL_FLOAT, false, 36%Z,
      {| base := data; offset := 24 |})].

(** ** Pixels and normalized coordinates, size by size *)

(** The rectangle of a view on the surface, measured as the device does:
    from the bottom of the surface. *)
Definition deviceViewport (env : Env) (view : View) : Z * Z * Z * Z :=
  let viewport := getViewport env view in
  (IntRect.left viewport,
   wrap_int (Vector2u.y (getSize env)
             - (IntRect.top viewport + IntRect.height viewport)),
   IntRect.width viewport,
   IntRect.height viewport).

(** The first stage of [mapPixelToCoords], one axis at a time: the distance
    [d] of a pixel from the left (top) edge of a viewport [size] pixels
    wide (high). *)
Definition normalizedX (d size : Z) : float :=
  Float32.add (Float32.opp Float32.one)
    (Float32.div (Float32.mul Float32.two (Float32.of_int d))
       (Float32.of_int size)).

Definition normalizedY (d size : Z) : float :=
  Float32.sub Float32.one
    (Float32.div (Float32.mul Float32.two (Float32.of_int d))
       (Float32.of_int size)).

(** The last stage of [mapCoordsToPixel], one axis at a time. *)
Definition pixelX (n : float) (size origin : Z) : Z :=
  Float32.to_int
    (Float32.add
       (Float32.mul (Float32.div (Float32.add n Float32.one) Float32.two)
          (Float32.of_int size))
       (Float32.of_int origin)).

Definition pixelY (n : float) (size origin : Z) : Z :=
  Float32.to_int
    (Float32.add
       (Float32.mul
          (Float32.div (Float32.add (Float32.opp n) Float32.one) Float32.two)
          (Float32.of_int size))
       (Float32.of_int origin)).

(** The edges of a viewport of the given size are the edges of the
    normalized square, and back. *)
Definition edgesExact (size : Z) : bool :=
  same_float (normalizedX 0 size) (Float32.opp Float32.one)
  && same_float (normalizedX size size) Float32.one
  && same_float (normalizedY 0 size) Float32.one
  && same_float (normalizedY size size) (Float32.opp Float32.one)
  && Z.eqb (pixelX (Float32.opp Float32.one) size 0) 0
  && Z.eqb (pixelX Float32.one size 0) size
  && Z.eqb (pixelY Float32.one size 0) 0
  && Z.eqb (pixelY (Float32.opp Float32.one) size 0) size.


(** ** The default shader program

    The text [setupNonLegacyPipeline] hands to [loadFromMemory], literal by
    literal; the number of lights is the only part that is not fixed. *)

Definition newline : string := String "010"%char EmptyString.

Definition line (text : string) : string := text ++ newline.

Definition vertexShaderSource : string :=
  String.concat ""
    [line "#version 130";
     line "";
     line "// Uniforms";
     line "uniform mat4 sf_ModelMatrix;";
     line "uniform mat4 sf_ViewMatrix;";
     line "uniform mat4 sf_ProjectionMatrix;";
     line "uniform mat4 sf_TextureMatrix;";
     line "uniform int sf_TextureEnabled;";
     line "uniform int sf_LightCount;";
     line "";
     line "// Vertex attributes";
     line "in vec3 sf_Vertex;";
     line "in vec4 sf_Color;";
     line "in vec2 sf_MultiTexCoord0;";
     line "in vec3 sf_Normal;";
     line "";
     line "// Vertex shader outputs";
     line "out vec4 sf_FrontColor;";
     line "out vec2 sf_TexCoord0;";
     line "out vec3 sf_FragCoord;";
     line "out vec3 sf_FragNormal;";
     line "";
     line "void main()";
     line "{";
     line "    // Vertex position";
     line "    gl_Position = sf_ProjectionMatrix * sf_ViewMatrix * sf_ModelMatrix * vec4(sf_Vertex, 1.0);";
     line "";
     line "    // Vertex color";
     line "    sf_FrontColor = sf_Color;";
     line "";
     line "    // Texture data";
     line "    if (sf_TextureEnabled == 1)";
     line "        sf_TexCoord0 = (sf_TextureMatrix * vec4(sf_MultiTexCoord0, 0.0, 1.0)).st;";
     line "";
     line "    // Lighting data";
     line "    if (sf_LightCount > 0)";
     line "    {";
     line "        sf_FragNormal = sf_Normal;";
     line "        sf_FragCoord = sf_Vertex;";
     line "    }";
     line "}"].

Definition fragmentShaderSource (env : Env) : string :=
  String.concat ""
    [line "#version 130";
     line "";
     line "// Light structure";
     line "struct Light";
     line "{";
     line "    vec4  color;";
     line "    vec4  positionDirection;";
     line "    float ambientIntensity;";
     line "    float diffuseIntensity;";
     line "    float specularIntensity;";
     line "    float constantAttenuation;";
     line "    float linearAttenuation;";
     line "    float quadraticAttenuation;";
     line "};";
     line "";
     line "// Uniforms";
     line "uniform mat4 sf_ModelMatrix;";
     line "uniform mat4 sf_NormalMatrix;";
     line "uniform sampler2D sf_Texture0;";
     line "uniform int sf_TextureEnabled;";
     "uniform Light sf_Lights["]
  ++ NilZero.string_of_uint (Nat.to_uint (Light_getMaximumLights env))
  ++ String.concat ""
       [line "];";
        line "uniform int sf_LightCount;";
        line "uniform vec3 sf_ViewerPosition;";
        line "";
        line "// Fragment attributes";
        line "in vec4 sf_FrontColor;";
        line "in vec2 sf_TexCoord0;";
        line "in vec3 sf_FragCoord;";
        line "in vec3 sf_FragNormal;";
        line "";
        line "// Fragment shader outputs";
        line "out vec4 sf_FragColor;";
        line "";
        line "vec4 computeLighting()";
        line "{";
        line "    // Early return in case lighting disabled";
        line "    if (sf_LightCount == 0)";
        line "        return vec4(1.0, 1.0, 1.0, 1.0);";
        line "";
        line "    // TODO: Implement way to manipulate materials";
        line "    const float materialShininess = 1.0;";
        line "    const vec4 materialSpecularColor = vec4(0.0001, 0.0001, 0.0001, 1.0);";
        line "";
        line "    vec3 fragmentNormal = normalize((sf_NormalMatrix * vec4(sf_FragNormal, 1.0)).xyz);";
        line "    vec3 fragmentWorldPosition = vec3(sf_ModelMatrix * vec4(sf_FragCoord, 1.0));";
        "    vec3 fragmentDistanceToViewer = normalize(sf_ViewerPosition - fragmentWorldPosition);";
        line "";
        line "    vec4 totalIntensity = vec4(1.0, 1.0, 1.0, 1.0);";
        line "    if (sf_LightCount > 0)";
        line "        totalIntensity = vec4(0.0, 0.0, 0.0, 0.0);";
        line "    for (int index = 0; index < sf_LightCount; ++index)";
        line "    {";
        line "        vec3 fragmentToLightDirection = normalize(-sf_Lights[index].positionDirection.xyz);";
        "        float attenuationFactor = 1.0;";
        line "";
        line "        if (sf_Lights[index].positionDirection.w > 0.0)";
        line "        {";
        line "            fragmentToLightDirection = normalize(sf_Lights[index].positionDirection.xyz - fragmentWorldPosition);";
        "            float rayLength = length(sf_Lights[index].positionDirection.xyz - fragmentWorldPosition);";
        line "            attenuationFactor = sf_Lights[index].constantAttenuation +";
        line "                                sf_Lights[index].linearAttenuation * rayLength +";
        line "                                sf_Lights[index].quadraticAttenuation * rayLength * rayLength;";
        line "        }";
        line "";
        line "        vec4 ambientIntensity = sf_Lights[index].color * sf_Lights[index].ambientIntensity;";
        line "";
        line "        float diffuseCoefficient = max(0.0, dot(fragmentNormal, fragmentToLightDirection));";
        line "        vec4 diffuseIntensity = sf_Lights[index].color * sf_Lights[index].diffuseIntensity * diffuseCoefficient;";
        line "";
        line "        float specularCoefficient = 0.0;";
        "        if(diffuseCoefficient > 0.0)";
        "            specularCoefficient = pow(max(0.0, dot(fragmentDistanceToViewer, reflect(-fragmentToLightDirection, fragmentNormal))), materialShininess);";
        "        vec4 specularIntensity = specularCoefficient * materialSpecularColor * sf_Lights[index].color * sf_Lights[index].specularIntensity;";
        line "";
        line "        totalIntensity += ambientIntensity + (diffuseIntensity + specularIntensity) / attenuationFactor;";
        line "    }";
        line "";
        line "    return vec4(totalIntensity.rgb, 1.0);";
        line "}";
        line "";
        line "vec4 computeTexture()";
        line "{";
        line "    if (sf_TextureEnabled == 0)";
        line "        return vec4(1.0, 1.0, 1.0, 1.0);";
        line "";
        line "    return texture2D(sf_Texture0, sf_TexCoord0);";
        line "}";
        line "";
        line "void main()";
        line "{";
        line "    // Fragment color";
        line "    sf_FragColor = sf_FrontColor * computeTexture() * computeLighting();";
        line "}"].

(** The linesOf of a text. *)
Fixpoint linesOf (text : string) : list string :=
  match text with
  | EmptyString => [EmptyString]
  | String c rest =>
      if Ascii.eqb c "010"%char then EmptyString :: linesOf rest
      else match linesOf rest with
           | current :: more => String c current :: more
           | [] => [String c EmptyString]
           end
  end.

Fixpoint dropSpaces (text : string) : string :=
  match text with
  | String " " rest => dropSpaces rest
  | _ => text
  end.

(** The wordsOf of a line, and the identifier a word starts with. *)
Fixpoint wordsOf (text : string) : list string :=
  match text with
  | EmptyString => [EmptyString]
  | String c rest =>
      if Ascii.eqb c " "%char then EmptyString :: wordsOf rest
      else match wordsOf rest with
           | current :: more => String c current :: more
           | [] => [String c EmptyString]
           end
  end.

Fixpoint identifier (word : string) : string :=
  match word with
  | EmptyString => EmptyString
  | String c rest =>
      if Ascii.eqb c ";"%char || Ascii.eqb c "["%char then EmptyString
      else String c (identifier rest)
  end.

(** The name a line declares with the given storage qualifier:
    [uniform mat4 sf_ModelMatrix;] declares [sf_ModelMatrix]. *)
Definition declaration (qualifier : string) (text : string) : option string :=
  let text := dropSpaces text in
  if String.prefix (qualifier ++ " ") text
  then Some (identifier (List.last (wordsOf text) EmptyString))
  else None.

Fixpoint declarations (qualifier : string) (texts : list string) : list string :=
  match texts with
  | [] => []
  | text :: rest =>
      match declaration qualifier text with
      | Some name => name :: declarations qualifier rest
      | None => declarations qualifier rest
      end
  end.

Definition declared (qualifier : string) (text : string) : list string :=
  declarations qualifier (linesOf text).

(** The uniforms the target sets. *)
Definition uniformsSet : list string :=
  ["sf_ProjectionMatrix"; "sf_ViewMatrix"; "sf_ModelMatrix"; "sf_NormalMatrix";
   "sf_TextureMatrix"; "sf_Texture0"; "sf_TextureEnabled"; "sf_LightCount";
   "sf_ViewerPosition"].

Definition setsKnownUniform (c : Call) : bool :=
  match c with
  | Shader_setParameter _ name _ => existsb (String.eqb name) uniformsSet
  | _ => true
  end.

(** ** Further sample data *)

Module Cases.

(** The legacy machine of the samples, with a surface that cannot be
    activated. *)
Definition refusingEnv : Env :=
  {| Identity := Identity Sample.legacyEnv;
     combine := combine Sample.legacyEnv;
     transformPoint := transformPoint Sample.legacyEnv;
     transformPoint2 := transformPoint2 Sample.legacyEnv;
     construct := construct Sample.legacyEnv;
     getInverse := getInverse Sample.legacyEnv;
     getTranspose := getTranspose Sample.legacyEnv;
     View_reset := View_reset Sample.legacyEnv;
     VertexCacheSize := VertexCacheSize Sample.legacyEnv;
     getSize := getSize Sample.legacyEnv;
     activate_result := fun _ => false;
     GLEW_EXT_blend_func_separate := GLEW_EXT_blend_func_separate Sample.legacyEnv;
     Shader_isAvailable := Shader_isAvailable Sample.legacyEnv;
     VertexBuffer_isAvailable := VertexBuffer_isAvailable Sample.legacyEnv;
     Light_isLightingEnabled := Light_isLightingEnabled Sample.legacyEnv;
     Light_getEnabledLights := Light_getEnabledLights Sample.legacyEnv;
     Light_hasShaderLighting := Light_hasShaderLighting Sample.legacyEnv;
     Light_getMaximumLights := Light_getMaximumLights Sample.legacyEnv;
     Shader_getVertexAttributeLocation := Shader_getVertexAttributeLocation Sample.legacyEnv;
     supportedVersionNumber := supportedVersionNumber Sample.legacyEnv;
     SFML_LEGACY_GL := SFML_LEGACY_GL Sample.legacyEnv;
     new_Shader := new_Shader Sample.legacyEnv;
     loadFromMemory_default := loadFromMemory_default Sample.legacyEnv |}.

(** The shader machine of the samples with lighting on and two lights; its
    shaders have no normal attribute. *)
Definition litEnv : Env :=
  {| Identity := Identity Sample.shaderEnv;
     combine := combine Sample.shaderEnv;
     transformPoint := transformPoint Sample.shaderEnv;
     transformPoint2 := transformPoint2 Sample.shaderEnv;
     construct := construct Sample.shaderEnv;
     getInverse := getInverse Sample.shaderEnv;
     getTranspose := getTranspose Sample.shaderEnv;
     View_reset := View_reset Sample.shaderEnv;
     VertexCacheSize := VertexCacheSize Sample.shaderEnv;
     getSize := getSize Sample.shaderEnv;
     activate_result := activate_result Sample.shaderEnv;
     GLEW_EXT_blend_func_separate := GLEW_EXT_blend_func_separate Sample.shaderEnv;
     Shader_isAvailable := Shader_isAvailable Sample.shaderEnv;
     VertexBuffer_isAvailable := VertexBuffer_isAvailable Sample.shaderEnv;
     Light_isLightingEnabled := true;
     Light_getEnabledLights := [3; 4];
     Light_hasShaderLighting := Light_hasShaderLighting Sample.shaderEnv;
     Light_getMaximumLights := Light_getMaximumLights Sample.shaderEnv;
     Shader_getVertexAttributeLocation := fun _ name =>
       if String.eqb name "sf_Vertex" then 0%Z
       else if String.eqb name "sf_Color" then 1%Z
       else if String.eqb name "sf_MultiTexCoord0" then 2%Z
       else (-1)%Z;
     supportedVersionNumber := supportedVersionNumber Sample.shaderEnv;
     SFML_LEGACY_GL := SFML_LEGACY_GL Sample.shaderEnv;
     new_Shader := new_Shader Sample.shaderEnv;
     loadFromMemory_default := loadFromMemory_default Sample.shaderEnv |}.


(** A view squeezed to a viewport of no width. *)
Definition flatView : View :=
  View.mk (FloatRect.mk (Sample.f 0) (Sample.f 0) (Sample.f 0) (Sample.f 1))
    Sample.identity Sample.identity Sample.identity
    (Vector3f.mk (Sample.f 0) (Sample.f 0) (Sample.f 0)).

(** A world of the legacy machine with a view change pending. *)
Definition pendingWorld : World :=
  final (setView Sample.view) Sample.legacyWorld.

(** A draw through a shader of the caller. *)
Definition overriding : Submission :=
  Sample.arrayDraw Sample.identity (Some Sample.texture1) (Some 5).

End Cases.

(** * Properties *)

(** ** Running programs of the monad *)

Lemma result_bind {A B} (m : M A) (k : A -> M B) w :
  result (bind m k) w = result (k (result m w)) (final m w).
Proof.
  unfold result, final, bind. destruct (m w) as [[a w1] c1]; simpl.
  destruct (k a w1) as [[b w2] c2]; reflexivity.
Qed.

Lemma final_bind {A B} (m : M A) (k : A -> M B) w :
  final (bind m k) w = final (k (result m w)) (final m w).
Proof.
  unfold result, final, bind. destruct (m w) as [[a w1] c1]; simpl.
  destruct (k a w1) as [[b w2] c2]; reflexivity.
Qed.

Lemma issued_bind {A B} (m : M A) (k : A -> M B) w :
  issued (bind m k) w = issued m w ++ issued (k (result m w)) (final m w).
Proof.
  unfold result, final, issued, bind. destruct (m w) as [[a w1] c1]; simpl.
  destruct (k a w1) as [[b w2] c2]; reflexivity.
Qed.

Lemma count_app k l1 l2 : count k (l1 ++ l2) = count k l1 + count k l2.
Proof. induction l1 as [|c l1 IH]; simpl; [reflexivity | rewrite IH; lia]. Qed.

Lemma count_cons k c l :
  count k (c :: l) = (if CallKind_eqb (kind c) k then 1 else 0) + count k l.
Proof. reflexivity. Qed.

Lemma result_ret {A} (a : A) w : result (ret a) w = a.
Proof. reflexivity. Qed.
Lemma final_ret {A} (a : A) w : final (ret a) w = w.
Proof. reflexivity. Qed.
Lemma issued_ret {A} (a : A) w : issued (ret a) w = [].
Proof. reflexivity. Qed.
Lemma final_emit c w : final (emit c) w = w.
Proof. reflexivity. Qed.
Lemma issued_emit c w : issued (emit c) w = [c].
Proof. reflexivity. Qed.
Lemma result_getTarget w : result getTarget w = target w.
Proof. reflexivity. Qed.
Lemma final_getTarget w : final getTarget w = w.
Proof. reflexivity. Qed.
Lemma issued_getTarget w : issued getTarget w = [].
Proof. reflexivity. Qed.
Lemma final_modifyTarget f w :
  final (modifyTarget f) w = set_target (f (target w)) w.
Proof. reflexivity. Qed.
Lemma issued_modifyTarget f w : issued (modifyTarget f) w = [].
Proof. reflexivity. Qed.
Lemma final_modifyCache f w : final (modifyCache f) w = withCache f w.
Proof. reflexivity. Qed.
Lemma issued_modifyCache f w : issued (modifyCache f) w = [].
Proof. reflexivity. Qed.

Lemma wp_bind {A B} (m : M A) (k : A -> M B) Q w :
  wp m (fun a w1 c1 => wp (k a) (fun b w2 c2 => Q b w2 (c1 ++ c2)) w1) w ->
  wp (bind m k) Q w.
Proof. unfold wp. rewrite result_bind, final_bind, issued_bind. auto. Qed.

Lemma wp_ret {A} (a : A) Q w : Q a w [] -> wp (ret a) Q w.
Proof. auto. Qed.
Lemma wp_emit c (Q : unit -> World -> list Call -> Prop) w :
  Q tt w [c] -> wp (emit c) Q w.
Proof. auto. Qed.
Lemma wp_getTarget (Q : RenderTarget -> World -> list Call -> Prop) w :
  Q (target w) w [] -> wp getTarget Q w.
Proof. auto. Qed.
Lemma wp_modifyTarget f (Q : unit -> World -> list Call -> Prop) w :
  Q tt (set_target (f (target w)) w) [] -> wp (modifyTarget f) Q w.
Proof. auto. Qed.
Lemma wp_modifyCache f (Q : unit -> World -> list Call -> Prop) w :
  Q tt (withCache f w) [] -> wp (modifyCache f) Q w.
Proof. auto. Qed.
Lemma wp_block (m : M unit) (Q : unit -> World -> list Call -> Prop) w w' :
  final m w = w' -> Q tt w' (issued m w) -> wp m Q w.
Proof. intros <- H. unfold wp. destruct (result m w). exact H. Qed.
Lemma wp_exact (m : M unit) (Q : unit -> World -> list Call -> Prop) w w' c :
  final m w = w' -> issued m w = c -> Q tt w' c -> wp m Q w.
Proof. intros <- <- H. unfold wp. destruct (result m w). exact H. Qed.

(** ** The appliers and the blocks of a draw

    For each of them: the world it leaves, how many calls of each kind it
    issues, and what its calls depend on. *)

Section Blocks.

Variable env : Env.

Lemma result_activate b w :
  result (activate env b) w = activate_result env (activations w).
Proof. reflexivity. Qed.
Lemma final_activate b w :
  final (activate env b) w =
  Build_World (target w) (S (activations w)) (warnMissingSetting w).
Proof. reflexivity. Qed.
Lemma issued_activate b w : issued (activate env b) w = [].
Proof. reflexivity. Qed.

Lemma final_applyTexture t w :
  final (applyTexture env t) w = withCache (set_lastTextureId (cacheIdOf t)) w.
Proof.
  unfold final, applyTexture, bind, getTarget; simpl.
  destruct (m_defaultShader (target w)); [destruct t|]; reflexivity.
Qed.

Lemma count_applyTexture k t w :
  k <> OtherCall -> count k (issued (applyTexture env t) w) = one_of TextureApply k.
Proof.
  intros Hk. unfold issued, applyTexture, bind, getTarget; simpl.
  destruct (m_defaultShader (target w)); [destruct t|]; destruct k; try congruence; reflexivity.
Qed.

Lemma final_applyTransform t w : final (applyTransform env t) w = w.
Proof.
  unfold final, applyTransform, bind, getTarget; simpl.
  destruct (m_defaultShader (target w)); [destruct (Light_isLightingEnabled env)|]; reflexivity.
Qed.

Lemma count_applyTransform k t w :
  k <> OtherCall ->
  count k (issued (applyTransform env t) w) =
  if legacy w then one_of MatrixCall k else 0.
Proof.
  intros Hk. unfold issued, applyTransform, legacy, bind, getTarget; simpl.
  destruct (m_defaultShader (target w)); [destruct (Light_isLightingEnabled env)|];
    destruct k; try congruence; reflexivity.
Qed.

Lemma final_applyCurrentView w :
  final (applyCurrentView env) w = withCache (set_viewChanged false) w.
Proof.
  unfold final, applyCurrentView, bind, getTarget; simpl.
  destruct (m_defaultShader (target w)); reflexivity.
Qed.

Lemma count_applyCurrentView k w :
  k <> OtherCall ->
  count k (issued (applyCurrentView env) w) =
  one_of ViewApply k + (if legacy w then 3 * one_of MatrixCall k else 0).
Proof.
  intros Hk. unfold issued, applyCurrentView, legacy, bind, getTarget; simpl.
  destruct (m_defaultShader (target w)); destruct k; try congruence; reflexivity.
Qed.

Lemma final_applyBlendMode mode w :
  final (applyBlendMode env mode) w = withCache (set_lastBlendMode mode) w.
Proof.
  unfold final, applyBlendMode, bind; simpl.
  destruct mode, (GLEW_EXT_blend_func_separate env); reflexivity.
Qed.

Lemma count_applyBlendMode k mode w :
  count k (issued (applyBlendMode env mode) w) = one_of BlendModeApply k.
Proof.
  unfold issued, applyBlendMode, bind; simpl.
  destruct mode, (GLEW_EXT_blend_func_separate env), k; reflexivity.
Qed.

Lemma issued_applyShader s w : issued (applyShader s) w = [Shader_bind s].
Proof. reflexivity. Qed.
Lemma final_applyShader s w : final (applyShader s) w = w.
Proof. reflexivity. Qed.


Lemma final_applyVertexBuffer b w :
  final (applyVertexBuffer b) w = withCache (set_lastVertexBufferId (idOfBuffer b)) w.
Proof. reflexivity. Qed.
Lemma issued_applyVertexBuffer b w :
  issued (applyVertexBuffer b) w = [VertexBuffer_bind b].
Proof. reflexivity. Qed.

Lemma final_setView v w :
  final (setView v) w = withCache (set_viewChanged true) (set_target (set_m_view v (target w)) w).
Proof. reflexivity. Qed.
Lemma issued_setView v w : issued (setView v) w = [].
Proof. reflexivity. Qed.

Lemma final_applyResolvedShader st w : final (applyResolvedShader st) w = w.
Proof.
  unfold final, applyResolvedShader, bind, getTarget; simpl.
  destruct (RenderStates.shader st); [|destruct (m_defaultShader (target w))]; reflexivity.
Qed.
Lemma issued_applyResolvedShader st w :
  issued (applyResolvedShader st) w =
  match resolvedShader (target w) st with
  | Some s => [Shader_bind (Some s)]
  | None => []
  end.
Proof.
  unfold issued, applyResolvedShader, resolvedShader, bind, getTarget; simpl.
  destruct (RenderStates.shader st); [|destruct (m_defaultShader (target w))]; reflexivity.
Qed.

Lemma final_setVertexPointers d w : final (setVertexPointers d) w = w.
Proof. reflexivity. Qed.
Lemma count_setVertexPointers k d w :
  k <> OtherCall -> count k (issued (setVertexPointers d) w) = 0.
Proof. intros Hk. destruct k; try congruence; reflexivity. Qed.

Lemma forEach_emit {A} (f : A -> Call) (l : list A) w :
  forEach l (fun a => emit (f a)) w = (tt, w, map f l).
Proof.
  revert w. induction l as [|a l IH]; intros w; [reflexivity|].
  simpl. unfold bind. simpl. rewrite IH. reflexivity.
Qed.

Lemma count_other_map k {A} (f : A -> Call) (l : list A) :
  (forall a, kind (f a) = OtherCall) -> k <> OtherCall -> count k (map f l) = 0.
Proof.
  intros Hf Hk. induction l as [|a l IH]; [reflexivity|].
  simpl. rewrite Hf, IH. destruct k; try congruence; reflexivity.
Qed.

Lemma final_setLightParameters s w : final (setLightParameters env s) w = w.
Proof.
  unfold final, setLightParameters.
  destruct (Light_isLightingEnabled env); [|reflexivity].
  unfold bind. simpl. rewrite forEach_emit. reflexivity.
Qed.
Lemma count_setLightParameters k s w :
  k <> OtherCall -> count k (issued (setLightParameters env s) w) = 0.
Proof.
  intros Hk. unfold issued, setLightParameters.
  destruct (Light_isLightingEnabled env).
  - unfold bind. simpl. rewrite forEach_emit. simpl.
    rewrite count_app, count_other_map by (auto). destruct k; try congruence; reflexivity.
  - destruct k; try congruence; reflexivity.
Qed.

Lemma final_drawWithAttributes s d mode n w :
  final (drawWithAttributes env s d mode n) w = w.
Proof.
  unfold final, drawWithAttributes, when, bind.
  destruct (0 <=? _)%Z, (0 <=? _)%Z, (0 <=? _)%Z, (0 <=? _)%Z; reflexivity.
Qed.
Lemma count_drawWithAttributes k s d mode n w :
  k <> OtherCall ->
  count k (issued (drawWithAttributes env s d mode n) w) = one_of DrawArrays k.
Proof.
  intros Hk. unfold issued, drawWithAttributes, when, bind.
  destruct (0 <=? _)%Z, (0 <=? _)%Z, (0 <=? _)%Z, (0 <=? _)%Z;
    destruct k; try congruence; reflexivity.
Qed.

Lemma final_drawNonLegacy d mode n w :
  final (drawNonLegacy env d mode n) w = w.
Proof.
  unfold drawNonLegacy. rewrite final_bind, result_getTarget, final_getTarget.
  destruct (m_currentNonLegacyShader (target w)); [|reflexivity].
  rewrite final_bind, final_setLightParameters. apply final_drawWithAttributes.
Qed.
Lemma count_drawNonLegacy k d mode n w :
  k <> OtherCall ->
  count k (issued (drawNonLegacy env d mode n) w) =
  if isNull (m_currentNonLegacyShader (target w)) then 0 else one_of DrawArrays k.
Proof.
  intros Hk. unfold drawNonLegacy.
  rewrite issued_bind, result_getTarget, final_getTarget, issued_getTarget.
  destruct (m_currentNonLegacyShader (target w)); [|reflexivity].
  simpl. rewrite issued_bind, count_app, count_setLightParameters by assumption.
  rewrite count_drawWithAttributes by assumption. reflexivity.
Qed.

Lemma final_unbindLegacyShader st w : final (unbindLegacyShader st) w = w.
Proof.
  unfold final, unbindLegacyShader, bind, getTarget, when; simpl.
  destruct (_ && _); reflexivity.
Qed.
Lemma issued_unbindLegacyShader st w :
  issued (unbindLegacyShader st) w =
  if negb (isNull (RenderStates.shader st)) && legacy w
  then [Shader_bind None] else [].
Proof.
  unfold issued, unbindLegacyShader, legacy, bind, getTarget, when; simpl.
  destruct (_ && _); reflexivity.
Qed.

Lemma result_trackNonLegacyShader st w :
  result (trackNonLegacyShader st) w =
  (shaderChanges (target w) st, previousWarnSetting st w).
Proof.
  unfold result, trackNonLegacyShader, shaderChanges, previousWarnSetting,
    resolvedShader, bind, getTarget; simpl.
  destruct (m_defaultShader (target w)); [destruct (RenderStates.shader st)|];
    reflexivity.
Qed.
Lemma final_trackNonLegacyShader st w :
  final (trackNonLegacyShader st) w = afterTrack st w.
Proof.
  unfold final, trackNonLegacyShader, afterTrack, bind, getTarget; simpl.
  destruct (m_defaultShader (target w)); [destruct (RenderStates.shader st)|];
    reflexivity.
Qed.
Lemma issued_trackNonLegacyShader st w :
  issued (trackNonLegacyShader st) w = [].
Proof.
  unfold issued, trackNonLegacyShader, bind, getTarget; simpl.
  destruct (m_defaultShader (target w)); [destruct (RenderStates.shader st)|];
    reflexivity.
Qed.

Lemma final_recordNonLegacyShader st p w :
  final (recordNonLegacyShader st p) w = afterRecord st p w.
Proof.
  unfold final, recordNonLegacyShader, afterRecord, bind, getTarget; simpl.
  destruct (m_defaultShader (target w)); [destruct (RenderStates.shader st)|];
    reflexivity.
Qed.
Lemma issued_recordNonLegacyShader st p w :
  issued (recordNonLegacyShader st p) w = [].
Proof.
  unfold issued, recordNonLegacyShader, bind, getTarget; simpl.
  destruct (m_defaultShader (target w)); [destruct (RenderStates.shader st)|];
    reflexivity.
Qed.

Lemma frame_applyTransform t w w' :
  sameContext w w' ->
  issued (applyTransform env t) w = issued (applyTransform env t) w'.
Proof.
  intros (H1 & H2 & H3).
  unfold issued, applyTransform, bind, getTarget, uniformShader; simpl.
  rewrite H1, H2, H3.
  destruct (m_defaultShader (target w')); [destruct (Light_isLightingEnabled env)|];
    reflexivity.
Qed.

Lemma frame_applyCurrentView w w' :
  sameContext w w' ->
  issued (applyCurrentView env) w = issued (applyCurrentView env) w'.
Proof.
  intros (H1 & H2 & H3).
  unfold issued, applyCurrentView, bind, getTarget, uniformShader; simpl.
  rewrite H1, H2, H3.
  destruct (m_defaultShader (target w')); reflexivity.
Qed.

Lemma frame_applyBlendMode mode w w' :
  issued (applyBlendMode env mode) w = issued (applyBlendMode env mode) w'.
Proof.
  unfold issued, applyBlendMode, bind; simpl.
  destruct mode, (GLEW_EXT_blend_func_separate env); reflexivity.
Qed.

Lemma frame_applyTexture t w w' :
  sameContext w w' ->
  issued (applyTexture env t) w = issued (applyTexture env t) w'.
Proof.
  intros (H1 & H2 & H3).
  unfold issued, applyTexture, bind, getTarget, uniformShader; simpl.
  rewrite H1, H2.
  destruct (m_defaultShader (target w')); [destruct t|]; reflexivity.
Qed.

Lemma frame_setLightParameters s w w' :
  sameContext w w' ->
  issued (setLightParameters env s) w = issued (setLightParameters env s) w'.
Proof.
  intros (H1 & H2 & H3). unfold issued, setLightParameters.
  destruct (Light_isLightingEnabled env); [|reflexivity].
  unfold bind. simpl. rewrite !forEach_emit. simpl. rewrite H3. reflexivity.
Qed.

Lemma frame_drawWithAttributes s d mode n w w' :
  issued (drawWithAttributes env s d mode n) w
  = issued (drawWithAttributes env s d mode n) w'.
Proof.
  unfold issued, drawWithAttributes, when, bind.
  destruct (0 <=? _)%Z, (0 <=? _)%Z, (0 <=? _)%Z, (0 <=? _)%Z; reflexivity.
Qed.

Lemma issued_drawNonLegacy d mode n w :
  issued (drawNonLegacy env d mode n) w =
  match m_currentNonLegacyShader (target w) with
  | Some current =>
      issued (setLightParameters env current) w
      ++ issued (drawWithAttributes env current d mode n) w
  | None => []
  end.
Proof.
  unfold drawNonLegacy.
  rewrite issued_bind, result_getTarget, final_getTarget, issued_getTarget.
  destruct (m_currentNonLegacyShader (target w)); [|reflexivity].
  simpl. rewrite issued_bind, final_setLightParameters. reflexivity.
Qed.

Lemma frame_drawNonLegacy d mode n w w' :
  sameContext w w' ->
  issued (drawNonLegacy env d mode n) w = issued (drawNonLegacy env d mode n) w'.
Proof.
  intros H. pose proof H as (H1 & H2 & H3).
  rewrite !issued_drawNonLegacy, H2.
  destruct (m_currentNonLegacyShader (target w')); [|reflexivity].
  rewrite (frame_setLightParameters _ _ _ H).
  rewrite (frame_drawWithAttributes _ _ _ _ w w'). reflexivity.
Qed.

Lemma final_ensureGLStates w :
  final (ensureGLStates env) w =
  if glStatesSet (m_cache (target w)) then w else final (resetGLStates env) w.
Proof.
  unfold ensureGLStates. rewrite final_bind, result_getTarget, final_getTarget.
  destruct (glStatesSet (m_cache (target w))); reflexivity.
Qed.
Lemma issued_ensureGLStates w :
  issued (ensureGLStates env) w =
  if glStatesSet (m_cache (target w)) then [] else issued (resetGLStates env) w.
Proof.
  unfold ensureGLStates.
  rewrite issued_bind, result_getTarget, final_getTarget, issued_getTarget.
  destruct (glStatesSet (m_cache (target w))); reflexivity.
Qed.

End Blocks.

Section Draws.

Variable env : Env.

Lemma wp_activate b (Q : bool -> World -> list Call -> Prop) w :
  Q (activate_result env (activations w))
    (Build_World (target w) (S (activations w)) (warnMissingSetting w)) [] ->
  wp (activate env b) Q w.
Proof. auto. Qed.

Lemma wp_track st (Q : bool * bool -> World -> list Call -> Prop) w :
  Q (shaderChanges (target w) st, previousWarnSetting st w) (afterTrack st w) [] ->
  wp (trackNonLegacyShader st) Q w.
Proof.
  unfold wp. rewrite result_trackNonLegacyShader, final_trackNonLegacyShader,
    issued_trackNonLegacyShader. auto.
Qed.

End Draws.

(** One step of symbolic execution: a primitive of the monad is run, an
    applier is replaced by the world it leaves and the calls it issues, a
    test is split. *)
Ltac wp_step :=
  lazymatch goal with
  | |- wp (bind _ _) _ _ => apply wp_bind
  | |- wp (ret _) _ _ => apply wp_ret
  | |- wp (emit _) _ _ => apply wp_emit
  | |- wp getTarget _ _ => apply wp_getTarget
  | |- wp (modifyTarget _) _ _ => apply wp_modifyTarget
  | |- wp (modifyCache _) _ _ => apply wp_modifyCache
  | |- wp (activate _ _) _ _ => apply wp_activate
  | |- wp (trackNonLegacyShader _) _ _ => apply wp_track
  | |- wp (ensureGLStates _) _ _ =>
      apply wp_block with (1 := final_ensureGLStates _ _)
  | |- wp (applyTransform _ _) _ _ =>
      apply wp_block with (1 := final_applyTransform _ _ _)
  | |- wp (applyCurrentView _) _ _ =>
      apply wp_block with (1 := final_applyCurrentView _ _)
  | |- wp (applyBlendMode _ _) _ _ =>
      apply wp_block with (1 := final_applyBlendMode _ _ _)
  | |- wp (applyTexture _ _) _ _ =>
      apply wp_block with (1 := final_applyTexture _ _ _)
  | |- wp (applyVertexBuffer _) _ _ =>
      apply wp_exact with (1 := final_applyVertexBuffer _ _)
                          (2 := issued_applyVertexBuffer _ _)
  | |- wp (applyShader _) _ _ =>
      apply wp_exact with (1 := final_applyShader _ _)
                          (2 := issued_applyShader _ _)
  | |- wp (applyResolvedShader _) _ _ =>
      apply wp_exact with (1 := final_applyResolvedShader _ _)
                          (2 := issued_applyResolvedShader _ _)
  | |- wp (setVertexPointers _) _ _ =>
      apply wp_block with (1 := final_setVertexPointers _ _)
  | |- wp (drawNonLegacy _ _ _ _) _ _ =>
      apply wp_block with (1 := final_drawNonLegacy _ _ _ _ _)
  | |- wp (unbindLegacyShader _) _ _ =>
      apply wp_exact with (1 := final_unbindLegacyShader _ _)
                          (2 := issued_unbindLegacyShader _ _)
  | |- wp (recordNonLegacyShader _ _) _ _ =>
      apply wp_exact with (1 := final_recordNonLegacyShader _ _ _)
                          (2 := issued_recordNonLegacyShader _ _ _)
  | |- wp (when _ _) _ _ => unfold when at 1
  | |- wp (if ?b then _ else _) _ _ => destruct b eqn:?
  end.

Ltac tidy :=
  cbn [fst snd target m_cache activations warnMissingSetting
       m_defaultView m_view m_depthTest m_clearDepth m_defaultShader
       m_currentNonLegacyShader m_lastNonLegacyShader
       glStatesSet viewChanged lastBlendMode lastTextureId lastVertexBufferId
       useVertexCache vertexCache
       RenderStates.transform RenderStates.blendMode RenderStates.texture
       RenderStates.shader RenderStates.useVertexCache
       withCache set_target set_m_cache set_m_view set_m_defaultView
       set_m_depthTest set_m_defaultShader set_m_currentNonLegacyShader
       set_m_lastNonLegacyShader set_glStatesSet set_viewChanged
       set_lastBlendMode set_lastTextureId set_lastVertexBufferId
       set_useVertexCache set_vertexCache isNull negb andb orb legacy
       afterTrack afterRecord previousWarnSetting idOfBuffer activated
       shaderChanges resolvedShader usesVertexCache statesOf textureIdOf
       vertexBufferIdOf vertexCountOf modeOf vertexData
       protocolCalls protocolTarget protocolCache transformStep viewStep
       blendModeStep textureStep shaderStep vertexSourceStep pointerStep
       drawStep unbindStep app].

Ltac wp_run := repeat (cbv beta; tidy; wp_step).

Lemma BlendMode_eqb_eq a b : BlendMode_eqb a b = true -> a = b.
Proof. destruct a, b; simpl; congruence. Qed.

Ltac rewrite_tests :=
  repeat match goal with
    | H : ?c = _ |- context [?c] => rewrite H
    end.

Ltac split_tests :=
  repeat match goal with
    | H : negb _ = false |- _ => apply negb_false_iff in H
    | H : negb _ = true |- _ => apply negb_true_iff in H
    | H : orb _ _ = false |- _ => apply orb_false_iff in H; destruct H
    | H : andb _ _ = true |- _ => apply andb_true_iff in H; destruct H
    end.

Ltac eq_tests :=
  repeat match goal with
    | H : BlendMode_eqb _ _ = true |- _ => apply BlendMode_eqb_eq in H
    | H : N.eqb _ _ = true |- _ => apply N.eqb_eq in H
    end;
  subst.

Ltac unfold_protocol :=
  unfold protocolCalls, protocolTarget, protocolCache, transformStep, viewStep,
    blendModeStep, textureStep, shaderStep, vertexSourceStep, pointerStep,
    drawStep, unbindStep, vertexData, shaderChanges, resolvedShader, legacy,
    textureIdOf, vertexBufferIdOf, statesOf, vertexCountOf, modeOf.

Ltac same_segment :=
  first
    [ reflexivity
    | apply frame_applyTransform; repeat split; reflexivity
    | apply frame_applyCurrentView; repeat split; reflexivity
    | apply frame_applyBlendMode
    | apply frame_applyTexture; repeat split; reflexivity
    | apply frame_drawNonLegacy; repeat split; reflexivity ].

Ltac same_calls :=
  repeat first
    [ same_segment
    | apply (f_equal2 (@app Call)); [same_segment|]
    | apply (f_equal2 (@cons Call)); [reflexivity|] ].

Ltac absurd_test :=
  split_tests;
  match goal with
  | H : ?u = _, H' : context [?u] |- _ =>
      is_var u; rewrite H in H'; discriminate H'
  end.

Ltac finish_protocol :=
  first
    [ solve [absurd_test]
    | unfold_protocol; tidy; rewrite_tests; split_tests; rewrite_tests;
      tidy; rewrite <- ?app_assoc, ?app_nil_r;
      (split; [same_calls | split; [eq_tests; tidy; reflexivity | reflexivity]]) ].

(** ** Shader bindings in a sequence of calls *)

Lemma readAll_app {A} (f : Call -> option A) l1 l2 :
  readAll f (l1 ++ l2) = readAll f l1 ++ readAll f l2.
Proof.
  induction l1 as [|c l1 IH]; [reflexivity|]. simpl. rewrite IH.
  destruct (f c); reflexivity.
Qed.

Lemma shaderBound_quiet l : count ShaderApply l = 0 -> readAll shaderBound l = [].
Proof.
  induction l as [|c l IH]; [reflexivity|]. simpl. intros Hn.
  destruct c; simpl in Hn; try discriminate; simpl; try (apply IH; exact Hn).
  destruct (String.eqb _ _); apply IH; exact Hn.
Qed.

(** ** [resetGLStates] *)

Section Reset.

Variable env : Env.

Lemma final_resetGLStates w : final (resetGLStates env) w = afterReset env w.
Proof.
  change (wp (resetGLStates env) (fun _ w' _ => w' = afterReset env w) w).
  unfold resetGLStates, afterReset, getDefaultView, setView.
  destruct w as [[dv v [gs vc lb lt lv uvc cache] dt cd ds cur last] acts warn].
  destruct ds; wp_run; tidy; rewrite_tests; reflexivity.
Qed.

Lemma count_resetGLStates k w :
  k <> OtherCall ->
  count k (issued (resetGLStates env) w) =
  if activate_result env (activations w) then
    one_of BlendModeApply k + one_of TextureApply k
    + (if Shader_isAvailable env then one_of ShaderApply k else 0)
    + (if VertexBuffer_isAvailable env then one_of VertexBufferApply k else 0)
    + (if legacy w then 2 * one_of MatrixCall k else 0)
  else 0.
Proof.
  intros Hk.
  change (wp (resetGLStates env)
            (fun _ _ c =>
               count k c =
               if activate_result env (activations w) then
                 one_of BlendModeApply k + one_of TextureApply k
                 + (if Shader_isAvailable env then one_of ShaderApply k else 0)
                 + (if VertexBuffer_isAvailable env
                    then one_of VertexBufferApply k else 0)
                 + (if legacy w then 2 * one_of MatrixCall k else 0)
               else 0) w).
  unfold resetGLStates, getDefaultView, setView.
  destruct w as [[dv v [gs vc lb lt lv uvc cache] dt cd ds cur last] acts warn].
  destruct ds; wp_run; tidy; rewrite_tests; try reflexivity;
    repeat first
      [ rewrite count_app | rewrite count_cons | rewrite count_applyBlendMode
      | rewrite count_applyTexture by assumption
      | rewrite count_applyTransform by assumption ];
    destruct k; try congruence; reflexivity.
Qed.

Lemma issued_resetGLStates w :
  issued (resetGLStates env) w
  = if activate_result env (activations w) then resetCalls env w else [].
Proof.
  change (wp (resetGLStates env)
            (fun _ _ c =>
               c = if activate_result env (activations w)
                   then resetCalls env w else []) w).
  unfold resetGLStates, resetCalls, persistentStateCalls, defaultBinds,
    getDefaultView, setView.
  destruct w as [[dv v [gs vc lb lt lv uvc cache] dt cd ds cur last] acts warn].
  destruct ds, dt; wp_run; tidy; rewrite_tests; try reflexivity;
    rewrite <- ?app_assoc, ?app_nil_r; cbn [app];
    repeat (apply (f_equal2 (@cons Call)); [reflexivity|]);
    same_calls.
Qed.

(** What [resetGLStates] binds as a shader: the default shader of the
    target (null in the legacy pipeline), once, where shaders are
    available. *)
Lemma shaderBound_resetGLStates w :
  readAll shaderBound (issued (resetGLStates env) w)
  = if activate_result env (activations w) && Shader_isAvailable env
    then [m_defaultShader (target w)] else [].
Proof.
  rewrite issued_resetGLStates.
  destruct (activate_result env (activations w)); [|reflexivity].
  unfold resetCalls. rewrite !readAll_app.
  rewrite (shaderBound_quiet (persistentStateCalls _)).
  2:{ unfold persistentStateCalls.
      destruct (m_depthTest _), (isNull _); reflexivity. }
  rewrite (shaderBound_quiet (issued (applyBlendMode _ _) _))
    by (rewrite count_applyBlendMode; reflexivity).
  rewrite (shaderBound_quiet (issued (applyTransform _ _) _))
    by (rewrite count_applyTransform by discriminate;
        destruct (legacy w); reflexivity).
  rewrite (shaderBound_quiet (issued (applyTexture _ _) _))
    by (rewrite count_applyTexture by discriminate; reflexivity).
  unfold defaultBinds.
  destruct (Shader_isAvailable env), (VertexBuffer_isAvailable env); reflexivity.
Qed.

End Reset.

(** ** The two overloads follow the draw protocol

    An executed draw issues the calls of [ensureGLStates] followed by
    [protocolCalls], and leaves the target [protocolTarget]. *)

Section Protocols.

Variable env : Env.

Lemma drawVertexBuffer_protocol b st w :
  VertexBuffer.getVertexCount b <> 0 ->
  activate_result env (activations w) = true ->
  let w1 := final (ensureGLStates env) (activated w) in
  issued (drawVertexBuffer env b st) w =
    issued (ensureGLStates env) (activated w) ++ protocolCalls env (Buffer b st) w1
  /\ target (final (drawVertexBuffer env b st) w) = protocolTarget env (Buffer b st) w1
  /\ activations (final (drawVertexBuffer env b st) w) = activations w1.
Proof.
  intros Hn Hact w1.
  change (wp (drawVertexBuffer env b st)
            (fun _ w' c =>
               c = issued (ensureGLStates env) (activated w)
                   ++ protocolCalls env (Buffer b st) w1
               /\ target w' = protocolTarget env (Buffer b st) w1
               /\ activations w' = activations w1) w).
  unfold drawVertexBuffer.
  destruct (Nat.eqb_spec (VertexBuffer.getVertexCount b) 0) as [|_]; [contradiction|].
  wp_step. wp_step. rewrite Hact. wp_step.
  apply wp_block with (w' := w1); [reflexivity|].
  fold (activated w).
  generalize (issued (ensureGLStates env) (activated w)) as c0.
  clearbody w1. clear Hact. intros c0.
  destruct w1 as [[dv v [gs vc lb lt lv uvc cache] dt cd ds cur last] acts warn].
  destruct st as [tr bm tx sh uv].
  destruct ds, sh; wp_run; finish_protocol.
Qed.

Lemma drawVertices_protocol array n type st w :
  n <> 0 ->
  activate_result env (activations w) = true ->
  let s := VertexArray (Some array) n type st in
  let w1 := final (ensureGLStates env) (activated w) in
  issued (drawVertices env (Some array) n type st) w =
    issued (ensureGLStates env) (activated w) ++ protocolCalls env s w1
  /\ target (final (drawVertices env (Some array) n type st) w) = protocolTarget env s w1
  /\ activations (final (drawVertices env (Some array) n type st) w) = activations w1.
Proof.
  intros Hn Hact s w1.
  change (wp (drawVertices env (Some array) n type st)
            (fun _ w' c =>
               c = issued (ensureGLStates env) (activated w)
                   ++ protocolCalls env s w1
               /\ target w' = protocolTarget env s w1
               /\ activations w' = activations w1) w).
  unfold drawVertices, s.
  destruct (Nat.eqb_spec n 0) as [|_]; [contradiction|].
  wp_step. wp_step. rewrite Hact. wp_step.
  apply wp_block with (w' := w1); [reflexivity|].
  fold (activated w).
  generalize (issued (ensureGLStates env) (activated w)) as c0.
  clearbody w1. clear Hact s. intros c0.
  destruct w1 as [[dv v [gs vc lb lt lv uvc cache] dt cd ds cur last] acts warn].
  destruct st as [tr bm tx sh uv].
  destruct ds, sh; wp_run; finish_protocol.
Qed.

End Protocols.

(** ** The claims *)

Section Claims.

Variable env : Env.

Lemma draw_protocol s w :
  nothingToDraw s = false ->
  activate_result env (activations w) = true ->
  issued (draw env s) w =
    issued (ensureGLStates env) (activated w) ++ protocolCalls env s (prepared env w)
  /\ target (final (draw env s) w) = protocolTarget env s (prepared env w)
  /\ activations (final (draw env s) w) = activations (prepared env w).
Proof.
  intros Hs Hact. destruct s as [[array|] n type st | b st]; simpl in Hs.
  - apply drawVertices_protocol; [|assumption].
    intros ->. discriminate.
  - discriminate.
  - apply drawVertexBuffer_protocol; [|assumption].
    intros E. rewrite E in Hs. discriminate.
Qed.

Lemma prepared_set w :
  glStatesSet (m_cache (target w)) = true -> prepared env w = activated w.
Proof.
  intros H. unfold prepared. rewrite final_ensureGLStates. simpl. rewrite H.
  reflexivity.
Qed.

Lemma prepared_unset w :
  glStatesSet (m_cache (target w)) = false ->
  prepared env w = afterReset env (activated w).
Proof.
  intros H. unfold prepared. rewrite final_ensureGLStates. simpl. rewrite H.
  apply final_resetGLStates.
Qed.

Lemma prepared_defaultShader w :
  m_defaultShader (target (prepared env w)) = m_defaultShader (target w).
Proof.
  destruct (glStatesSet (m_cache (target w))) eqn:E.
  - rewrite prepared_set by assumption. reflexivity.
  - rewrite prepared_unset by assumption. unfold afterReset. simpl.
    destruct (activate_result env _); reflexivity.
Qed.

Lemma one_of_same k : one_of k k = 1.
Proof. destruct k; reflexivity. Qed.

Lemma count_transformStep k s w1 :
  k <> OtherCall -> k <> MatrixCall -> count k (transformStep env s w1) = 0.
Proof.
  intros Hk Hm.
  assert (H : forall t w, count k (issued (applyTransform env t) w) = 0).
  { intros t w. rewrite count_applyTransform by assumption.
    destruct (legacy w); [|reflexivity]. destruct k; try congruence; reflexivity. }
  unfold transformStep. destruct s as [vs n ty st | b st]; [|apply H].
  destruct (usesVertexCache _ _ _ _); [|apply H].
  destruct (useVertexCache _); [reflexivity|apply H].
Qed.

Lemma count_viewStep k s w1 :
  k <> OtherCall -> k <> MatrixCall ->
  count k (viewStep env s w1) =
  if shaderChanges (target w1) (statesOf s) || viewChanged (m_cache (target w1))
  then one_of ViewApply k else 0.
Proof.
  intros Hk Hm. unfold viewStep.
  destruct (shaderChanges _ _ || viewChanged _); [|reflexivity].
  rewrite count_applyCurrentView by assumption.
  destruct (legacy _); [|lia]. destruct k; try congruence; reflexivity.
Qed.

Lemma count_blendModeStep k s w1 :
  count k (blendModeStep env s w1) =
  if negb (BlendMode_eqb (RenderStates.blendMode (statesOf s))
             (lastBlendMode (m_cache (target w1))))
  then one_of BlendModeApply k else 0.
Proof.
  unfold blendModeStep. destruct (negb _); [|reflexivity].
  apply count_applyBlendMode.
Qed.

Lemma count_textureStep k s w1 :
  k <> OtherCall ->
  count k (textureStep env s w1) =
  if shaderChanges (target w1) (statesOf s)
     || negb (N.eqb (textureIdOf s) (lastTextureId (m_cache (target w1))))
  then one_of TextureApply k else 0.
Proof.
  intros Hk. unfold textureStep. destruct (_ || _); [|reflexivity].
  apply count_applyTexture; assumption.
Qed.

Lemma count_shaderStep k s w1 :
  count k (shaderStep s w1) =
  if isNull (resolvedShader (target w1) (statesOf s)) then 0
  else one_of ShaderApply k.
Proof.
  unfold shaderStep. destruct (resolvedShader _ _); simpl; [|reflexivity].
  destruct k; reflexivity.
Qed.

Lemma count_vertexSourceStep k s w1 :
  count k (vertexSourceStep s w1) =
  if negb (N.eqb (vertexBufferIdOf s) (lastVertexBufferId (m_cache (target w1))))
  then one_of VertexBufferApply k else 0.
Proof.
  unfold vertexSourceStep, vertexBufferIdOf. destruct s as [vs n ty st | b st].
  - rewrite (N.eqb_sym 0). destruct (negb _); [|reflexivity].
    destruct k; reflexivity.
  - destruct (negb _); [|reflexivity]. destruct k; reflexivity.
Qed.

Lemma count_pointerStep k s w1 :
  k <> OtherCall -> count k (pointerStep env s w1) = 0.
Proof.
  intros Hk. unfold pointerStep. destruct s as [vs n ty st | b st].
  - destruct (vertexData _ _ _); [|reflexivity].
    apply count_setVertexPointers; assumption.
  - apply count_setVertexPointers; assumption.
Qed.

Lemma count_drawStep k s w1 :
  k <> OtherCall -> count k (drawStep env s w1) = one_of DrawArrays k.
Proof.
  intros Hk. unfold drawStep. destruct (legacy w1) eqn:El.
  - rewrite count_app, count_pointerStep by assumption. destruct k; reflexivity.
  - rewrite count_drawNonLegacy by assumption.
    unfold legacy in El. unfold afterTrack.
    destruct (m_defaultShader (target w1)); [|discriminate].
    destruct (RenderStates.shader (statesOf s)); reflexivity.
Qed.

Lemma count_unbindStep k s w1 :
  count k (unbindStep s w1) =
  if negb (isNull (RenderStates.shader (statesOf s))) && legacy w1
  then one_of ShaderApply k else 0.
Proof.
  unfold unbindStep. destruct (_ && _); [|reflexivity]. destruct k; reflexivity.
Qed.

(** How often a draw runs each applier: read off the protocol. *)
Lemma count_protocolCalls k s w1 :
  k <> OtherCall -> k <> MatrixCall ->
  count k (protocolCalls env s w1) =
    (if shaderChanges (target w1) (statesOf s) || viewChanged (m_cache (target w1))
     then one_of ViewApply k else 0)
    + (if negb (BlendMode_eqb (RenderStates.blendMode (statesOf s))
                  (lastBlendMode (m_cache (target w1))))
       then one_of BlendModeApply k else 0)
    + (if shaderChanges (target w1) (statesOf s)
          || negb (N.eqb (textureIdOf s) (lastTextureId (m_cache (target w1))))
       then one_of TextureApply k else 0)
    + (if isNull (resolvedShader (target w1) (statesOf s)) then 0
       else one_of ShaderApply k)
    + (if negb (N.eqb (vertexBufferIdOf s)
                  (lastVertexBufferId (m_cache (target w1))))
       then one_of VertexBufferApply k else 0)
    + one_of DrawArrays k
    + (if negb (isNull (RenderStates.shader (statesOf s))) && legacy w1
       then one_of ShaderApply k else 0).
Proof.
  intros Hk Hm. unfold protocolCalls. rewrite !count_app.
  rewrite count_transformStep, count_viewStep, count_blendModeStep,
    count_textureStep, count_shaderStep, count_vertexSourceStep,
    count_drawStep, count_unbindStep by assumption.
  lia.
Qed.

Lemma if_same {A} (b : bool) (x : A) : (if b then x else x) = x.
Proof. destruct b; reflexivity. Qed.

Ltac count_arith := unfold one_of; simpl; rewrite ?if_same; simpl; lia.

Lemma issued_ensureGLStates_set w :
  glStatesSet (m_cache (target w)) = true -> issued (ensureGLStates env) w = [].
Proof. intros H. rewrite issued_ensureGLStates, H. reflexivity. Qed.



Lemma resolvedShader_prepared w st :
  resolvedShader (target (prepared env w)) st = resolvedShader (target w) st.
Proof. unfold resolvedShader. rewrite prepared_defaultShader. reflexivity. Qed.

(** A draw that finds nothing to draw returns at once. *)
Lemma draw_nothing s w : nothingToDraw s = true -> draw env s w = (tt, w, []).
Proof.
  destruct s as [[array|] n type st | b st]; simpl; intros H.
  - unfold drawVertices. rewrite H. reflexivity.
  - reflexivity.
  - unfold drawVertexBuffer. rewrite H. reflexivity.
Qed.

(** A draw whose activation fails only counts the request. *)
Lemma draw_inactive s w :
  nothingToDraw s = false ->
  activate_result env (activations w) = false ->
  draw env s w = (tt, activated w, []).
Proof.
  destruct s as [[array|] n type st | b st]; simpl; intros H Hact.
  - unfold drawVertices. rewrite H. unfold bind, activate. rewrite Hact. reflexivity.
  - discriminate.
  - unfold drawVertexBuffer. rewrite H. unfold bind, activate. rewrite Hact.
    reflexivity.
Qed.

(** The cache an executed draw leaves. *)
Lemma draw_cache s w :
  nothingToDraw s = false ->
  activate_result env (activations w) = true ->
  m_cache (target (final (draw env s) w)) = protocolCache env s (prepared env w).
Proof.
  intros Hs Hact. destruct (draw_protocol s w Hs Hact) as (_ & Ht & _).
  rewrite Ht. reflexivity.
Qed.

Lemma count_draw_set k s w :
  k <> OtherCall -> k <> MatrixCall ->
  nothingToDraw s = false ->
  activate_result env (activations w) = true ->
  glStatesSet (m_cache (target w)) = true ->
  count k (issued (draw env s) w) = count k (protocolCalls env s (activated w)).
Proof.
  intros Hk Hm Hs Hact Hgl. destruct (draw_protocol s w Hs Hact) as (Hc & _).
  rewrite Hc, prepared_set, issued_ensureGLStates_set by assumption. reflexivity.
Qed.

Lemma count_draw_ge k s w :
  nothingToDraw s = false ->
  activate_result env (activations w) = true ->
  count k (protocolCalls env s (prepared env w)) <= count k (issued (draw env s) w).
Proof.
  intros Hs Hact. destruct (draw_protocol s w Hs Hact) as (Hc & _).
  rewrite Hc, count_app. lia.
Qed.

Lemma count_reset_ge k s w :
  nothingToDraw s = false ->
  activate_result env (activations w) = true ->
  glStatesSet (m_cache (target w)) = false ->
  count k (issued (resetGLStates env) (activated w))
  <= count k (issued (draw env s) w).
Proof.
  intros Hs Hact Hgl. destruct (draw_protocol s w Hs Hact) as (Hc & _).
  rewrite Hc, count_app, issued_ensureGLStates. simpl. rewrite Hgl. lia.
Qed.

(** C1. Texture and vertex-buffer cache comparisons look at the 64-bit
    cache identity only.  After any draw [s1], a second executed draw [s2]
    (either overload) whose texture identity differs from the cached
    last-applied identity runs the texture applier again, whatever the
    addresses of the two textures; likewise for the vertex buffer.  Once the
    persistent states are set, how often the two appliers run is a function
    of the identities alone, and an executed first draw leaves its own
    identities in the cache. *)
Theorem C1_cache_identity_decides (s1 s2 : Submission) (w0 : World) :
  let w1 := final (draw env s1) w0 in
  let calls := issued (draw env s2) w1 in
  nothingToDraw s2 = false ->
  activate_result env (activations w1) = true ->
  (textureIdOf s2 <> lastTextureId (m_cache (target w1)) ->
   1 <= count TextureApply calls)
  /\ (vertexBufferIdOf s2 <> lastVertexBufferId (m_cache (target w1)) ->
      1 <= count VertexBufferApply calls)
  /\ (glStatesSet (m_cache (target w1)) = true ->
      count TextureApply calls =
        (if shaderChanges (target w1) (statesOf s2)
            || negb (N.eqb (textureIdOf s2) (lastTextureId (m_cache (target w1))))
         then 1 else 0)
      /\ count VertexBufferApply calls =
           (if negb (N.eqb (vertexBufferIdOf s2)
                       (lastVertexBufferId (m_cache (target w1))))
            then 1 else 0))
  /\ (nothingToDraw s1 = false ->
      activate_result env (activations w0) = true ->
      lastTextureId (m_cache (target w1)) = textureIdOf s1
      /\ lastVertexBufferId (m_cache (target w1)) = vertexBufferIdOf s1).
Proof.
  intros w1 calls Hs Hact. subst calls.
  assert (Hlast : nothingToDraw s1 = false ->
            activate_result env (activations w0) = true ->
            lastTextureId (m_cache (target w1)) = textureIdOf s1
            /\ lastVertexBufferId (m_cache (target w1)) = vertexBufferIdOf s1).
  { intros Hs1 Hact1. subst w1. rewrite draw_cache by assumption.
    split; reflexivity. }
  clearbody w1.
  assert (Hset : forall k, k <> OtherCall -> k <> MatrixCall ->
            glStatesSet (m_cache (target w1)) = true ->
            count k (issued (draw env s2) w1)
            = count k (protocolCalls env s2 (activated w1))).
  { intros k Hk Hm Hgl. apply count_draw_set; assumption. }
  split; [|split; [|split]].
  - intros Hne. apply N.eqb_neq in Hne.
    destruct (glStatesSet (m_cache (target w1))) eqn:Hgl.
    + rewrite Hset by first [assumption | reflexivity | discriminate].
      rewrite count_protocolCalls by discriminate. simpl. rewrite Hne, orb_true_r.
      unfold one_of; count_arith.
    + destruct (activate_result env (S (activations w1))) eqn:Hact2.
      * etransitivity; [|apply count_reset_ge; assumption].
        rewrite count_resetGLStates by discriminate. simpl. rewrite Hact2.
        unfold one_of; count_arith.
      * etransitivity; [|apply count_draw_ge; assumption].
        rewrite prepared_unset by assumption. unfold afterReset. simpl.
        rewrite Hact2, count_protocolCalls by discriminate. simpl.
        rewrite Hne, orb_true_r. unfold one_of; count_arith.
  - intros Hne. apply N.eqb_neq in Hne.
    destruct (glStatesSet (m_cache (target w1))) eqn:Hgl.
    + rewrite Hset by first [assumption | reflexivity | discriminate].
      rewrite count_protocolCalls by discriminate. simpl. rewrite Hne.
      unfold one_of; count_arith.
    + destruct (activate_result env (S (activations w1))) eqn:Hact2.
      * destruct (VertexBuffer_isAvailable env) eqn:Hav.
        -- etransitivity; [|apply count_reset_ge; assumption].
           rewrite count_resetGLStates by discriminate. simpl.
           rewrite Hact2, Hav. unfold one_of; count_arith.
        -- etransitivity; [|apply count_draw_ge; assumption].
           rewrite prepared_unset by assumption. unfold afterReset. simpl.
           rewrite Hact2, Hav, count_protocolCalls by discriminate. simpl.
           rewrite Hne. unfold one_of; count_arith.
      * etransitivity; [|apply count_draw_ge; assumption].
        rewrite prepared_unset by assumption. unfold afterReset. simpl.
        rewrite Hact2, count_protocolCalls by discriminate. simpl.
        rewrite Hne. unfold one_of; count_arith.
  - intros Hgl. split.
    + rewrite Hset by first [assumption | reflexivity | discriminate].
      rewrite count_protocolCalls by discriminate. simpl.
      destruct (_ || _); count_arith.
    + rewrite Hset by first [assumption | reflexivity | discriminate].
      rewrite count_protocolCalls by discriminate. simpl.
      destruct (negb (N.eqb (vertexBufferIdOf s2) _)); count_arith.
  - exact Hlast.
Qed.




Lemma count_ensureGLStates_DrawArrays w :
  count DrawArrays (issued (ensureGLStates env) w) = 0.
Proof.
  rewrite issued_ensureGLStates.
  destruct (glStatesSet _); [reflexivity|].
  rewrite count_resetGLStates by discriminate. count_arith.
Qed.

Lemma boundShader_app b l1 l2 :
  boundShader b (l1 ++ l2) = boundShader (boundShader b l1) l2.
Proof.
  revert b. induction l1 as [|c l1 IH]; intros b; [reflexivity|].
  destruct c; simpl; apply IH.
Qed.

(** C10. In the legacy pipeline, an executed draw (either overload) given a
    shader override binds that shader before the draw call and applies the
    null shader right after it: the calls of the draw end with the draw call
    followed by the unbinding, no other shader binding lies between the
    binding of the override and the draw call, and no shader is left bound
    when the draw returns. *)
Theorem C10_legacy_override_unbound (s : Submission) (sh : ShaderPtr)
  (w : World) :
  nothingToDraw s = false ->
  activate_result env (activations w) = true ->
  m_defaultShader (target w) = None ->
  RenderStates.shader (statesOf s) = Some sh ->
  (exists pre mid,
     issued (draw env s) w
     = pre ++ Shader_bind (Some sh)
           :: mid ++ [glDrawArrays (modeOf s) 0 (vertexCountOf s);
                      Shader_bind None]
     /\ count ShaderApply mid = 0
     /\ count DrawArrays pre = 0
     /\ count DrawArrays mid = 0)
  /\ forall before, boundShader before (issued (draw env s) w) = None.
Proof.
  intros Hs Hact Hds Hsh.
  destruct (draw_protocol s w Hs Hact) as (Hc & _).
  assert (Hleg : legacy (prepared env w) = true).
  { unfold legacy. rewrite prepared_defaultShader, Hds. reflexivity. }
  assert (Hshape :
    issued (draw env s) w
    = (issued (ensureGLStates env) (activated w)
       ++ transformStep env s (prepared env w) ++ viewStep env s (prepared env w)
       ++ blendModeStep env s (prepared env w) ++ textureStep env s (prepared env w))
      ++ Shader_bind (Some sh)
         :: (vertexSourceStep s (prepared env w) ++ pointerStep env s (prepared env w))
            ++ [glDrawArrays (modeOf s) 0 (vertexCountOf s); Shader_bind None]).
  { rewrite Hc. unfold protocolCalls, shaderStep, drawStep, unbindStep,
      resolvedShader.
    rewrite Hleg, Hsh. simpl. rewrite <- !app_assoc. reflexivity. }
  split.
  - eexists _, _. split; [exact Hshape|].
    rewrite !count_app, count_ensureGLStates_DrawArrays.
    rewrite !count_vertexSourceStep, !count_pointerStep by discriminate.
    rewrite count_transformStep, count_viewStep, count_blendModeStep,
      count_textureStep by discriminate.
    repeat split; count_arith.
  - intros before. rewrite Hshape.
    rewrite boundShader_app. simpl. rewrite boundShader_app. reflexivity.
Qed.

(** C7 (amended). On every executed draw, either overload, whatever the
    previous draw left bound: when the draw resolves to a shader (the
    override, else the default shader of the shader pipeline) that shader
    is bound before the one draw call of the draw.  When it resolves to none
    (legacy pipeline, no override) the draw binds no shader of its own: what
    follows the setting of the persistent states binds none and holds the
    one draw call.  The only shader binding such a draw can issue is that of
    the null shader by [resetGLStates], which the draw runs first when it
    finds the persistent states not set, and which binds it once when it
    gets the target active and shaders are available. *)
Theorem C7_resolved_shader_applied (s : Submission) (w : World) :
  nothingToDraw s = false ->
  activate_result env (activations w) = true ->
  match resolvedShader (target w) (statesOf s) with
  | Some sh =>
      exists pre post,
        issued (draw env s) w = pre ++ Shader_bind (Some sh) :: post
        /\ count DrawArrays pre = 0
        /\ count DrawArrays post = 1
  | None =>
      (exists rest,
         issued (draw env s) w
         = issued (ensureGLStates env) (activated w) ++ rest
         /\ readAll shaderBound rest = []
         /\ count DrawArrays rest = 1)
      /\ readAll shaderBound (issued (draw env s) w)
         = (if glStatesSet (m_cache (target w)) then []
            else if activate_result env (S (activations w))
                    && Shader_isAvailable env
                 then [None] else [])
      /\ count DrawArrays (issued (draw env s) w) = 1
  end.
Proof.
  intros Hs Hact.
  destruct (draw_protocol s w Hs Hact) as (Hc & _).
  pose proof (resolvedShader_prepared w (statesOf s)) as Hr.
  destruct (resolvedShader (target w) (statesOf s)) as [sh|] eqn:Hres.
  - exists (issued (ensureGLStates env) (activated w)
            ++ transformStep env s (prepared env w) ++ viewStep env s (prepared env w)
            ++ blendModeStep env s (prepared env w) ++ textureStep env s (prepared env w)),
      (vertexSourceStep s (prepared env w) ++ drawStep env s (prepared env w)
       ++ unbindStep s (prepared env w)).
    split; [|split].
    + rewrite Hc. unfold protocolCalls, shaderStep. rewrite Hr. simpl.
      rewrite <- !app_assoc. reflexivity.
    + rewrite !count_app, count_ensureGLStates_DrawArrays.
      rewrite count_transformStep, count_viewStep, count_blendModeStep,
        count_textureStep by discriminate.
      count_arith.
    + rewrite !count_app, count_vertexSourceStep, count_drawStep, count_unbindStep
        by discriminate.
      count_arith.
  - assert (Hnone : RenderStates.shader (statesOf s) = None).
    { unfold resolvedShader in Hres.
      destruct (RenderStates.shader (statesOf s)); [discriminate|reflexivity]. }
    assert (Hds : m_defaultShader (target w) = None).
    { unfold resolvedShader in Hres. rewrite Hnone in Hres. exact Hres. }
    assert (Hp : count ShaderApply (protocolCalls env s (prepared env w)) = 0
                 /\ count DrawArrays (protocolCalls env s (prepared env w)) = 1).
    { rewrite !count_protocolCalls by discriminate.
      rewrite Hr, Hnone. split; count_arith. }
    destruct Hp as (Hp0 & Hp1).
    assert (Hreset : readAll shaderBound (issued (ensureGLStates env) (activated w))
                     = if glStatesSet (m_cache (target w)) then []
                       else if activate_result env (S (activations w))
                               && Shader_isAvailable env
                            then [None] else []).
    { rewrite issued_ensureGLStates.
      change (target (activated w)) with (target w).
      destruct (glStatesSet (m_cache (target w))); [reflexivity|].
      rewrite shaderBound_resetGLStates.
      change (activations (activated w)) with (S (activations w)).
      change (target (activated w)) with (target w). rewrite Hds. reflexivity. }
    split; [|split].
    + exists (protocolCalls env s (prepared env w)).
      split; [exact Hc|]. split; [|exact Hp1].
      apply shaderBound_quiet, Hp0.
    + rewrite Hc, readAll_app, Hreset, (shaderBound_quiet _ Hp0), app_nil_r.
      reflexivity.
    + rewrite Hc, count_app, count_ensureGLStates_DrawArrays, Hp1. reflexivity.
Qed.

Lemma legacy_defaultShader w :
  legacy w = true <-> m_defaultShader (target w) = None.
Proof.
  unfold legacy. destruct (m_defaultShader (target w)); simpl; split;
    congruence.
Qed.

Lemma afterTrack_legacy st w : legacy w = true -> afterTrack st w = w.
Proof.
  intros H. apply legacy_defaultShader in H. unfold afterTrack. rewrite H.
  reflexivity.
Qed.

Lemma issued_applyTransform_legacy t w :
  m_defaultShader (target w) = None ->
  issued (applyTransform env t) w
  = [glLoadMatrixf (combine env (View.getViewTransform (m_view (target w))) t)].
Proof.
  intros H. unfold issued, applyTransform, bind, getTarget. simpl. rewrite H.
  reflexivity.
Qed.

Lemma In_applyTransform_shader t w defaultShader :
  m_defaultShader (target w) = Some defaultShader ->
  In (Shader_setParameter (uniformShader (target w) defaultShader)
        "sf_ModelMatrix" (UMatrix t))
    (issued (applyTransform env t) w).
Proof.
  intros H. unfold issued, applyTransform, bind, getTarget. simpl. rewrite H.
  destruct (Light_isLightingEnabled env); simpl; auto.
Qed.

Lemma issued_applyCurrentView_legacy w :
  m_defaultShader (target w) = None ->
  exists x y width height,
    issued (applyCurrentView env) w
    = [glViewport x y width height; glMatrixMode GL_PROJECTION;
       glLoadMatrixf (View.getTransform (m_view (target w)));
       glMatrixMode GL_MODELVIEW].
Proof.
  intros H. unfold issued, applyCurrentView, bind, getTarget. simpl. rewrite H.
  simpl. eauto.
Qed.

Lemma replay_app l1 l2 d : replay (l1 ++ l2) d = replay l2 (replay l1 d).
Proof. apply fold_left_app. Qed.

Lemma replay_quiet l d : count MatrixCall l = 0 -> replay l d = d.
Proof.
  revert d. induction l as [|c l IH]; intros d H; [reflexivity|].
  simpl in H. unfold replay. simpl. fold (replay l (matrixStep d c)).
  destruct c; simpl in *; try discriminate; try (apply IH; assumption).
  destruct (String.eqb _ _); apply IH; exact H.
Qed.

Lemma replay_load m d :
  matrixMode d = GL_MODELVIEW ->
  matrixMode (replay [glLoadMatrixf m] d) = GL_MODELVIEW
  /\ modelview (replay [glLoadMatrixf m] d) = Some m.
Proof.
  intros H. destruct d as [mode mv pr]. simpl in H. subst mode.
  unfold replay, modelview. simpl. split; [reflexivity|].
  destruct mv; reflexivity.
Qed.

Lemma replay_viewStep s w1 d :
  legacy w1 = true ->
  matrixMode d = GL_MODELVIEW ->
  matrixMode (replay (viewStep env s w1) d) = GL_MODELVIEW
  /\ modelview (replay (viewStep env s w1) d) = modelview d.
Proof.
  intros Hleg Hmode. unfold viewStep.
  destruct (_ || _); [|split; [assumption|reflexivity]].
  rewrite afterTrack_legacy by assumption.
  destruct (issued_applyCurrentView_legacy w1) as (x & y & wd & ht & ->).
  { apply legacy_defaultShader, Hleg. }
  destruct d as [mode mv pr]. simpl in Hmode. subst mode.
  unfold replay, modelview. simpl. split; reflexivity.
Qed.

(** In the legacy pipeline, what follows the transform step of a draw
    leaves the model-view matrix alone. *)
Lemma replay_after_transform s w1 d :
  legacy w1 = true ->
  matrixMode d = GL_MODELVIEW ->
  modelview
    (replay (viewStep env s w1 ++ blendModeStep env s w1 ++ textureStep env s w1
             ++ shaderStep s w1 ++ vertexSourceStep s w1 ++ drawStep env s w1
             ++ unbindStep s w1) d)
  = modelview d.
Proof.
  intros Hleg Hmode. rewrite replay_app.
  destruct (replay_viewStep s w1 d Hleg Hmode) as (_ & <-).
  f_equal. apply replay_quiet.
  rewrite !count_app, count_blendModeStep, count_textureStep, count_shaderStep,
    count_vertexSourceStep, count_drawStep, count_unbindStep by discriminate.
  count_arith.
Qed.

Lemma storePreTransformed_length t f first n cache :
  length (storePreTransformed env t f first n cache) = length cache.
Proof.
  revert first cache. induction n as [|n IH]; intros first cache; simpl;
    [reflexivity|].
  rewrite IH. apply length_insert.
Qed.

Lemma storePreTransformed_before t f first n cache i :
  i < first ->
  storePreTransformed env t f first n cache !! i = cache !! i.
Proof.
  revert first cache. induction n as [|n IH]; intros first cache Hi; simpl;
    [reflexivity|].
  rewrite IH by lia. apply list_lookup_insert_ne. lia.
Qed.

Lemma storePreTransformed_lookup t f first n cache i :
  first + n <= length cache ->
  first <= i < first + n ->
  storePreTransformed env t f first n cache !! i = Some (preTransformed env t (f i)).
Proof.
  revert first cache. induction n as [|n IH]; intros first cache Hlen Hi; simpl;
    [lia|].
  destruct (Nat.eq_dec i first) as [->|Hne].
  - rewrite storePreTransformed_before by lia.
    apply list_lookup_insert_eq. lia.
  - apply IH; [rewrite length_insert|]; lia.
Qed.

Lemma prepared_vertexCache w :
  vertexCache (m_cache (target (prepared env w))) = vertexCache (m_cache (target w)).
Proof.
  destruct (glStatesSet (m_cache (target w))) eqn:E.
  - rewrite prepared_set by assumption. reflexivity.
  - rewrite prepared_unset by assumption. unfold afterReset. simpl.
    destruct (activate_result env _); reflexivity.
Qed.

Lemma usesVertexCache_prepared w n st :
  usesVertexCache env (target (prepared env w)) n st
  = usesVertexCache env (target w) n st.
Proof. unfold usesVertexCache. rewrite prepared_defaultShader. reflexivity. Qed.

Lemma replay_cons c l d : replay (c :: l) d = replay l (matrixStep d c).
Proof. reflexivity. Qed.

(** A first draw in the legacy pipeline: when [resetGLStates] has run, the
    device is in model-view mode. *)
Lemma matrixMode_after_reset w d :
  legacy w = true ->
  activate_result env (activations w) = true ->
  matrixMode (replay (issued (resetGLStates env) w) d) = GL_MODELVIEW.
Proof.
  intros Hleg Hact.
  change (wp (resetGLStates env)
            (fun _ _ c => matrixMode (replay c d) = GL_MODELVIEW) w).
  unfold resetGLStates, getDefaultView, setView.
  destruct w as [[dv v [gs vc lb lt lv uvc cache] dt cd ds cur last] acts warn].
  destruct ds; [discriminate|]. simpl in Hact.
  wp_step. wp_step. tidy. rewrite Hact.
  wp_run;
    repeat first
      [ rewrite replay_cons | rewrite replay_app
      | rewrite (replay_quiet (issued (applyBlendMode _ _) _))
          by (rewrite count_applyBlendMode; reflexivity)
      | rewrite (replay_quiet (issued (applyTexture _ _) _))
          by (rewrite count_applyTexture by discriminate; reflexivity)
      | rewrite issued_applyTransform_legacy by reflexivity ];
    reflexivity.
Qed.

(** C3. A call of the array overload with a null vertex pointer or a
    vertex count of zero, and a call of the buffer overload with a buffer of
    zero vertices, return at once: no call is issued and the world, the
    whole state cache included, is the one the call started in (not even
    activation is requested). *)
Theorem C3_empty_submission_noop (vertices : option (nat -> Vertex))
  (vertexCount : nat) (type : PrimitiveType) (states : RenderStates)
  (buffer : VertexBuffer) (w : World) :
  (vertices = None \/ vertexCount = 0 ->
   drawVertices env vertices vertexCount type states w = (tt, w, [])
   /\ issued (drawVertices env vertices vertexCount type states) w = []
   /\ m_cache (target (final (drawVertices env vertices vertexCount type states) w))
      = m_cache (target w))
  /\ (VertexBuffer.getVertexCount buffer = 0 ->
      drawVertexBuffer env buffer states w = (tt, w, [])
      /\ issued (drawVertexBuffer env buffer states) w = []
      /\ m_cache (target (final (drawVertexBuffer env buffer states) w))
         = m_cache (target w)).
Proof.
  split.
  - intros H.
    assert (E : drawVertices env vertices vertexCount type states w = (tt, w, [])).
    { apply (draw_nothing (VertexArray vertices vertexCount type states)).
      simpl. destruct H as [-> | ->]; [reflexivity|apply orb_true_r]. }
    unfold issued, final. rewrite E. auto.
  - intros H.
    assert (E : drawVertexBuffer env buffer states w = (tt, w, [])).
    { apply (draw_nothing (Buffer buffer states)). simpl. rewrite H. reflexivity. }
    unfold issued, final. rewrite E. auto.
Qed.

(** *** Pipeline selection *)

Lemma initialize_defaultShader w :
  m_defaultShader (target (final (initialize env) w))
  = if shaderPipelineSupported env then Some (new_Shader env) else None.
Proof.
  unfold initialize, setupNonLegacyPipeline, shaderPipelineSupported.
  rewrite !final_bind, !final_modifyTarget, !final_modifyCache. cbv beta.
  destruct (Light_hasShaderLighting env); simpl; [|reflexivity].
  destruct (SFML_LEGACY_GL env); simpl; [reflexivity|].
  destruct (SFltb version_threshold (supportedVersionNumber env)); simpl;
    [|reflexivity].
  rewrite !final_bind, !final_modifyTarget.
  destruct (loadFromMemory_default env); reflexivity.
Qed.

Lemma draw_defaultShader s w :
  m_defaultShader (target (final (draw env s) w)) = m_defaultShader (target w).
Proof.
  destruct (nothingToDraw s) eqn:Hs.
  - unfold final. rewrite draw_nothing by assumption. reflexivity.
  - destruct (activate_result env (activations w)) eqn:Hact.
    + destruct (draw_protocol s w Hs Hact) as (_ & Ht & _). rewrite Ht.
      simpl. apply prepared_defaultShader.
    + unfold final. rewrite draw_inactive by assumption. reflexivity.
Qed.

Lemma perform_defaultShader op w :
  m_defaultShader (target (final (perform env op) w))
  = m_defaultShader (target w).
Proof.
  destruct op; simpl.
  - unfold clear. rewrite final_bind, result_activate, final_activate.
    destruct (activate_result env (activations w)); reflexivity.
  - unfold enableDepthTest. rewrite final_bind, final_modifyTarget.
    destruct enable; reflexivity.
  - reflexivity.
  - apply draw_defaultShader.
  - unfold pushGLStates. rewrite !final_bind, result_activate, final_activate.
    rewrite final_resetGLStates.
    destruct (activate_result env (activations w)); unfold afterReset; simpl;
      destruct (activate_result env _); reflexivity.
  - change (wp (popGLStates env)
              (fun _ w' _ => m_defaultShader (target w')
                             = m_defaultShader (target w)) w).
    unfold popGLStates. wp_run; reflexivity.
  - rewrite final_resetGLStates. unfold afterReset.
    destruct (activate_result env _); reflexivity.
Qed.

Lemma performAll_defaultShader ops w :
  m_defaultShader (target (final (performAll env ops) w))
  = m_defaultShader (target w).
Proof.
  revert w. induction ops as [|op ops IH]; intros w; [reflexivity|].
  unfold performAll. simpl. rewrite final_bind. fold (performAll env ops).
  rewrite IH. apply perform_defaultShader.
Qed.

(** C5 (amended). After [initialize] a default shader exists, and with it
    the shader pipeline, exactly when shader lighting is supported AND the
    build does not define SFML_LEGACY_GL AND the supported version number
    is greater than 1.29 AND the default program pair compiles; otherwise
    the default shader is null and the target uses the legacy pipeline.  No
    sequence of the other operations of the target (clear, depth test, view,
    draws, push, pop and reset of the GL states) revisits the decision. *)
Theorem C5_pipeline_selection (w : World) :
  let w' := final (initialize env) w in
  (m_defaultShader (target w') <> None <->
   Light_hasShaderLighting env = true
   /\ SFML_LEGACY_GL env = false
   /\ SFltb version_threshold (supportedVersionNumber env) = true
   /\ loadFromMemory_default env = true)
  /\ (m_defaultShader (target w') = None
      \/ m_defaultShader (target w') = Some (new_Shader env))
  /\ forall ops : list Operation,
       m_defaultShader (target (final (performAll env ops) w'))
       = m_defaultShader (target w').
Proof.
  intros w'. subst w'. rewrite initialize_defaultShader.
  unfold shaderPipelineSupported.
  split; [|split].
  - destruct (Light_hasShaderLighting env), (SFML_LEGACY_GL env),
      (SFltb version_threshold (supportedVersionNumber env)),
      (loadFromMemory_default env); simpl; intuition congruence.
  - destruct (_ && _); auto.
  - intros ops. rewrite performAll_defaultShader, initialize_defaultShader.
    reflexivity.
Qed.

(** C6. [getViewport] returns the integer rectangle of the formula, with
    width and height the size of the surface converted to [float] and every
    operation a binary32 operation; for the view rectangle (0,0,1,1) on an
    800x600 surface it returns (0,0,800,600). *)
Theorem C6_getViewport_formula (view : View) :
  getViewport env view
  = viewportFormula (Float32.of_int (Vector2u.x (getSize env)))
      (Float32.of_int (Vector2u.y (getSize env))) (View.getViewport view)
  /\ (getSize env = Vector2u.mk 800 600 ->
      View.getViewport view
      = FloatRect.mk Float32.zero Float32.zero Float32.one Float32.one ->
      getViewport env view = IntRect.mk 0 0 800 600).
Proof.
  split; [reflexivity|].
  intros Hsize Hview. unfold getViewport. rewrite Hsize, Hview.
  vm_compute. reflexivity.
Qed.

(** The array overload records whether it took the pre-transform path. *)
Lemma drawVertices_records_path array n type st w :
  n <> 0 ->
  activate_result env (activations w) = true ->
  useVertexCache
    (m_cache (target (final (drawVertices env (Some array) n type st) w)))
  = usesVertexCache env (target w) n st.
Proof.
  intros Hn Hact.
  assert (Hs : nothingToDraw (VertexArray (Some array) n type st) = false).
  { simpl. destruct n; [contradiction|reflexivity]. }
  destruct (draw_protocol _ w Hs Hact) as (_ & Ht & _).
  change (draw env (VertexArray (Some array) n type st))
    with (drawVertices env (Some array) n type st) in Ht.
  rewrite Ht. simpl. unfold usesVertexCache.
  rewrite prepared_defaultShader. reflexivity.
Qed.

(** The buffer overload never writes the flag: on a target whose states are
    set, the flag of the previous draw survives a buffer draw. *)
Lemma drawVertexBuffer_keeps_flag b st w :
  VertexBuffer.getVertexCount b <> 0 ->
  activate_result env (activations w) = true ->
  glStatesSet (m_cache (target w)) = true ->
  useVertexCache (m_cache (target (final (drawVertexBuffer env b st) w)))
  = useVertexCache (m_cache (target w)).
Proof.
  intros Hn Hact Hgl.
  assert (Hs : nothingToDraw (Buffer b st) = false).
  { simpl. apply Nat.eqb_neq. assumption. }
  destruct (draw_protocol _ w Hs Hact) as (_ & Ht & _).
  change (draw env (Buffer b st)) with (drawVertexBuffer env b st) in Ht.
  rewrite Ht, prepared_set by assumption. reflexivity.
Qed.

End Claims.

(** ** Instances *)

Lemma fullViewExactFrom_spec k n :
  fullViewExactFrom k n = true ->
  forall j, (k <= j <= k + Z.of_nat n)%Z -> fullViewExact j = true.
Proof.
  revert k. induction n as [|n IH]; intros k H j Hj; simpl in H;
    apply andb_true_iff in H; destruct H as [Hk H].
  - replace j with k by lia. exact Hk.
  - destruct (Z.eq_dec j k) as [->|Hne]; [exact Hk|].
    apply (IH (k + 1)%Z H). lia.
Qed.

(** The viewport of a full view is the surface itself, for every surface
    up to 16384 pixels a side. *)
Lemma full_view_viewport (env : Env) (view : View) (width height : Z) :
  (0 <= width <= 16384)%Z -> (0 <= height <= 16384)%Z ->
  getSize env = Vector2u.mk width height ->
  View.getViewport view
  = FloatRect.mk Float32.zero Float32.zero Float32.one Float32.one ->
  getViewport env view = IntRect.mk 0 0 width height.
Proof.
  intros Hw Hh Hsize Hview.
  assert (Hall : fullViewExactFrom 0 (N.to_nat 16384) = true)
    by (vm_compute; reflexivity).
  assert (Hx : fullViewExact width = true).
  { apply (fullViewExactFrom_spec _ _ Hall). lia. }
  assert (Hy : fullViewExact height = true).
  { apply (fullViewExactFrom_spec _ _ Hall). lia. }
  unfold fullViewExact in Hx, Hy.
  apply andb_true_iff in Hx, Hy. destruct Hx as [Hx1 Hx2], Hy as [Hy1 Hy2].
  apply Z.eqb_eq in Hx1, Hx2, Hy1, Hy2.
  unfold getViewport. rewrite Hsize, Hview.
  cbn [Vector2u.x Vector2u.y FloatRect.left FloatRect.top FloatRect.width
       FloatRect.height].
  rewrite Hx1, Hx2, Hy1, Hy2. reflexivity.
Qed.

Lemma C1_witness :
  nothingToDraw Scenario.secondTextured = false
  /\ activate_result Sample.legacyEnv (activations Scenario.afterFirstTextured)
     = true
  /\ textureIdOf Scenario.secondTextured
     <> lastTextureId (m_cache (target Scenario.afterFirstTextured))
  /\ Texture.address Sample.texture1 = Texture.address Sample.texture2
  /\ 1 <= count TextureApply
            (issued (draw Sample.legacyEnv Scenario.secondTextured)
               Scenario.afterFirstTextured).
Proof.
  assert (Hne : textureIdOf Scenario.secondTextured
                <> lastTextureId (m_cache (target Scenario.afterFirstTextured)))
    by (vm_compute; discriminate).
  split; [reflexivity|]. split; [reflexivity|]. split; [exact Hne|].
  split; [reflexivity|].
  exact (proj1 (C1_cache_identity_decides Sample.legacyEnv
                  Scenario.firstTextured Scenario.secondTextured
                  Sample.legacyWorld eq_refl eq_refl) Hne).
Defined.



Lemma C3_witness :
  VertexBuffer.getVertexCount Sample.emptyBuffer = 0
  /\ drawVertexBuffer Sample.legacyEnv Sample.emptyBuffer
       (Sample.states Sample.identity None None) Sample.freshWorld
     = (tt, Sample.freshWorld, [])
  /\ drawVertices Sample.legacyEnv (Some Sample.triangle) 0 Triangles
       (Sample.states Sample.identity None None) Sample.freshWorld
     = (tt, Sample.freshWorld, []).
Proof.
  split; [reflexivity|]. split.
  - exact (proj1 (proj2 (C3_empty_submission_noop Sample.legacyEnv None 0
                           Triangles (Sample.states Sample.identity None None)
                           Sample.emptyBuffer Sample.freshWorld) eq_refl)).
  - exact (proj1 (proj1 (C3_empty_submission_noop Sample.legacyEnv
                           (Some Sample.triangle) 0 Triangles
                           (Sample.states Sample.identity None None)
                           Sample.emptyBuffer Sample.freshWorld)
                    (or_intror eq_refl))).
Defined.

(** C5, as stated, fails in a build that defines SFML_LEGACY_GL: shader
    lighting is supported, the version number is 1.30 and the default
    program pair compiles, yet the target gets no default shader. *)
Lemma C5_counterexample :
  Light_hasShaderLighting Sample.legacyBuildEnv = true
  /\ SFltb version_threshold (supportedVersionNumber Sample.legacyBuildEnv) = true
  /\ loadFromMemory_default Sample.legacyBuildEnv = true
  /\ m_defaultShader
       (target (final (initialize Sample.legacyBuildEnv) Sample.freshWorld))
     = None.
Proof. repeat split; reflexivity. Qed.

Lemma C6_witness :
  getSize Sample.legacyEnv = Vector2u.mk 800 600
  /\ View.getViewport Sample.view
     = FloatRect.mk Float32.zero Float32.zero Float32.one Float32.one
  /\ getViewport Sample.legacyEnv Sample.view = IntRect.mk 0 0 800 600.
Proof.
  split; [reflexivity|]. split; [reflexivity|].
  exact (proj2 (C6_getViewport_formula Sample.legacyEnv Sample.view)
           eq_refl eq_refl).
Defined.

(** C7, as stated, fails in the legacy pipeline when no override is given:
    the draw is executed and issues its draw call, and no shader is applied
    anywhere in it. *)
Lemma C7_counterexample :
  nothingToDraw Scenario.cachedDraw = false
  /\ activate_result Sample.legacyEnv (activations Sample.legacyWorld) = true
  /\ count DrawArrays
       (issued (draw Sample.legacyEnv Scenario.cachedDraw) Sample.legacyWorld)
     = 1
  /\ count ShaderApply
       (issued (draw Sample.legacyEnv Scenario.cachedDraw) Sample.legacyWorld)
     = 0.
Proof. repeat split; reflexivity. Qed.

Lemma C7_witness :
  nothingToDraw Scenario.overridden = false
  /\ activate_result Sample.legacyEnv (activations Sample.legacyWorld) = true
  /\ exists pre post,
       issued (draw Sample.legacyEnv Scenario.overridden) Sample.legacyWorld
       = pre ++ Shader_bind (Some 5) :: post
       /\ count DrawArrays pre = 0
       /\ count DrawArrays post = 1.
Proof.
  split; [reflexivity|]. split; [reflexivity|].
  exact (C7_resolved_shader_applied Sample.legacyEnv Scenario.overridden
           Sample.legacyWorld eq_refl eq_refl).
Defined.

(** C4 fails after a buffer draw, through the slip of C8.  On the same
    legacy target an array draw goes through the vertex cache and loads the
    identity, as the claim says.  A vertex buffer is then drawn under
    another transform, and the array draw is repeated: the path is taken
    again and the vertices are stored in the cache moved by their own
    transform, but the cache flag, which the buffer draw has left set, makes
    the draw load no matrix at all, and the model-view matrix it draws with
    is the transform of the buffer draw, not the identity. *)
Theorem C4_identity_not_used_after_buffer_draw :
  let first := issued (draw Sample.legacyEnv Scenario.cachedDraw) Sample.legacyWorld in
  let second :=
    issued (draw Sample.legacyEnv Scenario.movedBufferDraw)
      Scenario.afterCachedDraw in
  let third :=
    issued (draw Sample.legacyEnv Scenario.cachedDraw) Scenario.afterBufferDraw in
  usesVertexCache Sample.legacyEnv (target Sample.legacyWorld) 3
    (statesOf Scenario.cachedDraw) = true
  /\ modelview (replay first Scenario.device) = Some Sample.identity
  /\ usesVertexCache Sample.legacyEnv (target Scenario.afterBufferDraw) 3
       (statesOf Scenario.cachedDraw) = true
  /\ firstn 3
       (vertexCache
          (m_cache
             (target
                (final (draw Sample.legacyEnv Scenario.cachedDraw)
                   Scenario.afterBufferDraw))))
     = Scenario.movedTriangle
  /\ count MatrixCall third = 0
  /\ modelview (replay (first ++ second ++ third) Scenario.device)
     = Some (Sample.translation 5 0 0)
  /\ combine Sample.legacyEnv
       (View.getViewTransform (m_view (target Scenario.afterBufferDraw)))
       (Identity Sample.legacyEnv)
     = Sample.identity
  /\ Sample.translation 5 0 0 <> Sample.identity.
Proof.
  cbv zeta. repeat split; try (vm_compute; reflexivity).
  vm_compute. discriminate.
Qed.

(** C8 fails on the buffer overload.  A legacy target draws three vertices
    through the vertex cache, then a vertex buffer under another transform:
    the flag is still set after the buffer draw, which did not use the
    path.  The array draw that follows trusts the flag: it loads no
    transform and sets no pointers, so its vertices, already moved by their
    own transform, are drawn under the model-view matrix of the buffer
    draw. *)
Theorem C8_flag_survives_buffer_draw :
  useVertexCache (m_cache (target Scenario.afterCachedDraw)) = true
  /\ useVertexCache (m_cache (target Scenario.afterBufferDraw)) = true
  /\ issued (draw Sample.legacyEnv Scenario.cachedDraw) Scenario.afterBufferDraw
     = [VertexBuffer_bind None; glDrawArrays GL_TRIANGLES 0 3]
  /\ modelview
       (replay
          (issued (draw Sample.legacyEnv Scenario.cachedDraw) Sample.legacyWorld
           ++ issued (draw Sample.legacyEnv Scenario.movedBufferDraw)
                Scenario.afterCachedDraw
           ++ issued (draw Sample.legacyEnv Scenario.cachedDraw)
                Scenario.afterBufferDraw)
          Scenario.device)
     = Some (Sample.translation 5 0 0).
Proof. repeat split; vm_compute; reflexivity. Qed.

Lemma C10_witness :
  nothingToDraw Scenario.overridden = false
  /\ activate_result Sample.legacyEnv (activations Sample.freshWorld) = true
  /\ m_defaultShader (target Sample.freshWorld) = None
  /\ RenderStates.shader (statesOf Scenario.overridden) = Some 5
  /\ boundShader (Some 9)
       (issued (draw Sample.legacyEnv Scenario.overridden) Sample.freshWorld)
     = None.
Proof.
  split; [reflexivity|]. split; [reflexivity|]. split; [reflexivity|].
  split; [reflexivity|].
  exact (proj2 (C10_legacy_override_unbound Sample.legacyEnv Scenario.overridden
                  5 Sample.freshWorld eq_refl eq_refl eq_refl eq_refl) (Some 9)).
Defined.

(** * Further properties

    Properties of the member functions beyond the claims: what the operations
    leave alone, what the cache says about the calls made, the attributes,
    lights and uniforms of the shader pipeline, the persistent states, and
    the mappings between pixels and coordinates. *)

(** *** Ranges and binary32 tests *)

Lemma In_zrange lo n z : (lo <= z < lo + Z.of_nat n)%Z -> In z (zrange lo n).
Proof.
  revert lo. induction n as [|n IH]; intros lo H; [lia|].
  simpl. destruct (Z.eq_dec lo z) as [E|E]; [left; exact E|].
  right. apply IH. lia.
Qed.

Lemma forallb_zrange (p : Z -> bool) lo n :
  forallb p (zrange lo n) = true ->
  forall z, (lo <= z < lo + Z.of_nat n)%Z -> p z = true.
Proof.
  intros H z Hz. rewrite forallb_forall in H. apply H, In_zrange, Hz.
Qed.

Lemma zrange_S lo n : zrange lo (S n) = lo :: zrange (lo + 1) n.
Proof. reflexivity. Qed.

Lemma pairwise_zrange {A} (R : A -> A -> bool) (f : Z -> A) lo n :
  pairwise R (map f (zrange lo n)) = true ->
  forall a b, (lo <= a < b)%Z -> (b < lo + Z.of_nat n)%Z -> R (f a) (f b) = true.
Proof.
  revert lo. induction n as [|n IH]; intros lo H a b Hab Hb; [lia|].
  rewrite zrange_S in H. simpl in H. apply andb_true_iff in H.
  destruct H as [Hhead Hrest].
  destruct (Z.eq_dec a lo) as [->|Hne].
  - rewrite forallb_forall in Hhead. apply Hhead. apply in_map.
    apply In_zrange. lia.
  - apply (IH (lo + 1)%Z Hrest); lia.
Qed.

Lemma same_float_eq a b : same_float a b = true -> a = b.
Proof.
  destruct a, b; simpl; try discriminate; try reflexivity.
  - intros H. apply Bool.eqb_prop in H. congruence.
  - intros H. apply Bool.eqb_prop in H. congruence.
  - intros H. apply andb_true_iff in H. destruct H as [H He].
    apply andb_true_iff in H. destruct H as [Hs Hm].
    apply Bool.eqb_prop in Hs. apply Pos.eqb_eq in Hm. apply Z.eqb_eq in He.
    congruence.
Qed.

Section Further.

Variable env : Env.

(** *** What the appliers and the protocol can issue *)

Lemma applierCall_applyBlendMode mode w b :
  Forall (fun c => applierCall b c = true) (issued (applyBlendMode env mode) w).
Proof.
  unfold issued, applyBlendMode, bind; simpl.
  destruct mode, (GLEW_EXT_blend_func_separate env); repeat constructor.
Qed.

Lemma applierCall_applyTransform t w :
  Forall (fun c => applierCall (legacy w) c = true)
    (issued (applyTransform env t) w).
Proof.
  unfold issued, applyTransform, legacy, bind, getTarget; simpl.
  destruct (m_defaultShader (target w)); [destruct (Light_isLightingEnabled env)|];
    repeat constructor.
Qed.

Lemma applierCall_applyTexture t w :
  Forall (fun c => applierCall (legacy w) c = true)
    (issued (applyTexture env t) w).
Proof.
  unfold issued, applyTexture, legacy, bind, getTarget; simpl.
  destruct (m_defaultShader (target w)); [destruct t|]; repeat constructor.
Qed.

Lemma applierCall_applyCurrentView w :
  Forall (fun c => applierCall (legacy w) c = true)
    (issued (applyCurrentView env) w).
Proof.
  unfold issued, applyCurrentView, legacy, bind, getTarget; simpl.
  destruct (m_defaultShader (target w)); repeat constructor.
Qed.

Lemma legacy_afterTrack st w : legacy (afterTrack st w) = legacy w.
Proof.
  unfold legacy, afterTrack.
  destruct (m_defaultShader (target w)) eqn:E;
    [|first [reflexivity | rewrite E; reflexivity]].
  destruct (RenderStates.shader st); simpl; first [reflexivity | rewrite E; reflexivity].
Qed.

Lemma protocolCall_applier b c : applierCall b c = true -> protocolCall b c = true.
Proof. intros H. unfold protocolCall. rewrite H. reflexivity. Qed.

Lemma protocolCall_drawNonLegacy d mode n w :
  legacy w = false ->
  Forall (fun c => protocolCall false c = true)
    (issued (drawNonLegacy env d mode n) w).
Proof.
  intros _. rewrite issued_drawNonLegacy.
  destruct (m_currentNonLegacyShader (target w)) as [current|]; [|constructor].
  apply Forall_app. split.
  - unfold issued, setLightParameters.
    destruct (Light_isLightingEnabled env); [|repeat constructor].
    unfold bind. simpl. rewrite forEach_emit. simpl.
    constructor; [reflexivity|]. apply Forall_app. split; [|repeat constructor].
    apply List.Forall_forall. intros c Hc. apply in_map_iff in Hc.
    destruct Hc as (l & <- & _). reflexivity.
  - unfold issued, drawWithAttributes, when, bind.
    destruct (0 <=? _)%Z, (0 <=? _)%Z, (0 <=? _)%Z, (0 <=? _)%Z;
      repeat constructor.
Qed.

Lemma protocolCall_protocolCalls s w1 :
  Forall (fun c => protocolCall (legacy w1) c = true) (protocolCalls env s w1).
Proof.
  assert (Ha : forall l, Forall (fun c => applierCall (legacy w1) c = true) l ->
                         Forall (fun c => protocolCall (legacy w1) c = true) l).
  { intros l. apply List.Forall_impl. intros c. apply protocolCall_applier. }
  assert (Htr : forall t, Forall (fun c => protocolCall (legacy w1) c = true)
                   (issued (applyTransform env t) (afterTrack (statesOf s) w1))).
  { intros t. apply Ha. rewrite <- (legacy_afterTrack (statesOf s) w1).
    apply applierCall_applyTransform. }
  unfold protocolCalls. repeat (apply Forall_app; split).
  - unfold transformStep. destruct s as [vs n ty st | b st]; [|apply Htr].
    destruct (usesVertexCache _ _ _ _); [|apply Htr].
    destruct (useVertexCache _); [constructor|apply Htr].
  - unfold viewStep. destruct (_ || _); [|constructor].
    apply Ha. rewrite <- (legacy_afterTrack (statesOf s) w1).
    apply applierCall_applyCurrentView.
  - unfold blendModeStep. destruct (negb _); [|constructor].
    apply Ha, applierCall_applyBlendMode.
  - unfold textureStep. destruct (_ || _); [|constructor].
    apply Ha. rewrite <- (legacy_afterTrack (statesOf s) w1).
    apply applierCall_applyTexture.
  - unfold shaderStep. destruct (resolvedShader _ _); repeat constructor.
  - unfold vertexSourceStep. destruct s as [vs n ty st | b st];
      destruct (negb _); repeat constructor.
  - unfold drawStep. destruct (legacy w1) eqn:El.
    + apply Forall_app. split; [|repeat constructor].
      unfold pointerStep. destruct s as [vs n ty st | b st].
      * destruct (vertexData _ _ _); repeat constructor.
      * repeat constructor.
    + apply protocolCall_drawNonLegacy. rewrite legacy_afterTrack. exact El.
  - unfold unbindStep. destruct (_ && _); repeat constructor.
Qed.

Lemma applierCall_defaultBinds b t :
  Forall (fun c => applierCall b c = true) (defaultBinds env t).
Proof.
  unfold defaultBinds.
  destruct (Shader_isAvailable env), (VertexBuffer_isAvailable env);
    repeat constructor.
Qed.

Lemma applierCall_resetCalls_tail w :
  Forall (fun c => applierCall (legacy w) c = true)
    (issued (applyBlendMode env BlendAlpha) w
     ++ issued (applyTransform env (Identity env)) w
     ++ issued (applyTexture env None) w
     ++ defaultBinds env (target w)).
Proof.
  apply Forall_app; split; [apply applierCall_applyBlendMode|].
  apply Forall_app; split; [apply applierCall_applyTransform|].
  apply Forall_app; split;
    [apply applierCall_applyTexture | apply applierCall_defaultBinds].
Qed.

Lemma issued_pushGLStates w :
  issued (pushGLStates env) w
  = (if activate_result env (activations w)
     then [glPushClientAttrib GL_CLIENT_ALL_ATTRIB_BITS;
           glPushAttrib GL_ALL_ATTRIB_BITS;
           glMatrixMode GL_MODELVIEW; glPushMatrix;
           glMatrixMode GL_PROJECTION; glPushMatrix;
           glMatrixMode GL_TEXTURE; glPushMatrix]
     else [])
    ++ issued (resetGLStates env) (activated w).
Proof.
  unfold pushGLStates.
  rewrite !issued_bind, result_activate, final_activate, issued_activate.
  fold (activated w). cbn [app].
  destruct (activate_result env (activations w)); reflexivity.
Qed.

Lemma final_pushGLStates w :
  final (pushGLStates env) w = final (resetGLStates env) (activated w).
Proof.
  unfold pushGLStates.
  rewrite !final_bind, result_activate, final_activate.
  fold (activated w).
  destruct (activate_result env (activations w)); reflexivity.
Qed.

Lemma run_popGLStates w :
  issued (popGLStates env) w
  = (if activate_result env (activations w)
     then (if isNull (m_defaultShader (target w)) then [] else [Shader_bind None])
          ++ [glMatrixMode GL_PROJECTION; glPopMatrix;
              glMatrixMode GL_MODELVIEW; glPopMatrix;
              glMatrixMode GL_TEXTURE; glPopMatrix;
              glPopClientAttrib; glPopAttrib]
     else [])
  /\ final (popGLStates env) w = activated w.
Proof.
  change (wp (popGLStates env)
            (fun _ w' c =>
               c = (if activate_result env (activations w)
                    then (if isNull (m_defaultShader (target w)) then []
                          else [Shader_bind None])
                         ++ [glMatrixMode GL_PROJECTION; glPopMatrix;
                             glMatrixMode GL_MODELVIEW; glPopMatrix;
                             glMatrixMode GL_TEXTURE; glPopMatrix;
                             glPopClientAttrib; glPopAttrib]
                    else [])
               /\ w' = activated w) w).
  unfold popGLStates.
  destruct w as [[dv v c dt cd ds cur last] acts warn].
  destruct ds; wp_run; tidy; rewrite_tests; split; reflexivity.
Qed.

Lemma issued_popGLStates w :
  issued (popGLStates env) w
  = if activate_result env (activations w)
    then (if isNull (m_defaultShader (target w)) then [] else [Shader_bind None])
         ++ [glMatrixMode GL_PROJECTION; glPopMatrix;
             glMatrixMode GL_MODELVIEW; glPopMatrix;
             glMatrixMode GL_TEXTURE; glPopMatrix;
             glPopClientAttrib; glPopAttrib]
    else [].
Proof. apply run_popGLStates. Qed.

Lemma final_popGLStates w : final (popGLStates env) w = activated w.
Proof. apply run_popGLStates. Qed.

Lemma issued_clear color w :
  issued (clear env color) w
  = if activate_result env (activations w)
    then [glClearColor (clearComponent (Color.r color))
            (clearComponent (Color.g color)) (clearComponent (Color.b color))
            (clearComponent (Color.a color));
          glClear (Z.lor GL_COLOR_BUFFER_BIT
                     (if m_clearDepth (target w) then GL_DEPTH_BUFFER_BIT
                      else 0%Z))]
    else [].
Proof.
  unfold clear. rewrite issued_bind, result_activate, final_activate.
  destruct (activate_result env (activations w)); reflexivity.
Qed.

Lemma final_clear color w : final (clear env color) w = activated w.
Proof.
  unfold clear. rewrite final_bind, result_activate, final_activate.
  destruct (activate_result env (activations w)); reflexivity.
Qed.

Lemma final_draw_idle s w :
  nothingToDraw s = true -> final (draw env s) w = w.
Proof. intros H. unfold final. rewrite draw_nothing by assumption. reflexivity. Qed.

(** X1. An operation whose activation request is refused leaves the device
    and the target alone: [clear], both [draw] overloads, [popGLStates] and
    [resetGLStates] issue no call and change nothing but the count of
    requests.  [pushGLStates] then saves nothing, yet still runs
    [resetGLStates], which asks for activation again. *)
Theorem refused_activation_is_noop (w : World) :
  activate_result env (activations w) = false ->
  (forall color, clear env color w = (tt, activated w, []))
  /\ (forall s, issued (draw env s) w = []
                /\ target (final (draw env s) w) = target w)
  /\ popGLStates env w = (tt, activated w, [])
  /\ resetGLStates env w = (tt, activated w, [])
  /\ issued (pushGLStates env) w = issued (resetGLStates env) (activated w)
  /\ final (pushGLStates env) w = final (resetGLStates env) (activated w).
Proof.
  intros Hact. split; [|split; [|split; [|split; [|split]]]].
  - intros color. unfold clear, bind, activate. rewrite Hact. reflexivity.
  - intros s. destruct (nothingToDraw s) eqn:Hs.
    + unfold issued, final. rewrite draw_nothing by assumption.
      split; reflexivity.
    + unfold issued, final. rewrite draw_inactive by assumption.
      split; reflexivity.
  - unfold popGLStates, bind, activate. rewrite Hact. reflexivity.
  - unfold resetGLStates, bind, activate. rewrite Hact. reflexivity.
  - rewrite issued_pushGLStates, Hact. reflexivity.
  - apply final_pushGLStates.
Qed.


(** *** Fields no operation writes *)

Lemma draw_target_fields s w :
  let t' := target (final (draw env s) w) in
  m_defaultView t' = m_defaultView (target w)
  /\ m_depthTest t' = m_depthTest (target w)
  /\ m_clearDepth t' = m_clearDepth (target w).
Proof.
  destruct (nothingToDraw s) eqn:Hs.
  - rewrite final_draw_idle by assumption. auto.
  - destruct (activate_result env (activations w)) eqn:Hact.
    + destruct (draw_protocol env s w Hs Hact) as (_ & Ht & _).
      cbv zeta. rewrite Ht. cbn [protocolTarget m_defaultView m_depthTest m_clearDepth].
      destruct (glStatesSet (m_cache (target w))) eqn:E.
      * rewrite prepared_set by assumption. auto.
      * rewrite prepared_unset by assumption. unfold afterReset.
        cbn [activated activations target].
        destruct (activate_result env (S (activations w))); auto.
    + unfold final. rewrite draw_inactive by assumption. auto.
Qed.

Lemma perform_target_fields op w :
  let t' := target (final (perform env op) w) in
  m_defaultView t' = m_defaultView (target w)
  /\ m_clearDepth t' = m_clearDepth (target w)
  /\ (isEnableDepthTest op = false -> m_depthTest t' = m_depthTest (target w)).
Proof.
  destruct op; cbn [perform isEnableDepthTest].
  - rewrite final_clear. auto.
  - unfold enableDepthTest. rewrite final_bind, final_modifyTarget.
    destruct enable; (split; [reflexivity|split; [reflexivity|discriminate]]).
  - auto.
  - destruct (draw_target_fields s w) as (H1 & H2 & H3). auto.
  - rewrite final_pushGLStates, final_resetGLStates. unfold afterReset.
    destruct (activate_result env _); auto.
  - rewrite final_popGLStates. auto.
  - rewrite final_resetGLStates. unfold afterReset.
    destruct (activate_result env _); auto.
Qed.

Lemma final_performAll_cons op ops w :
  final (performAll env (op :: ops)) w
  = final (performAll env ops) (final (perform env op) w).
Proof. unfold performAll. simpl. rewrite final_bind. reflexivity. Qed.

Lemma issued_performAll_cons op ops w :
  issued (performAll env (op :: ops)) w
  = issued (perform env op) w
    ++ issued (performAll env ops) (final (perform env op) w).
Proof. unfold performAll. simpl. rewrite issued_bind. reflexivity. Qed.

Lemma performAll_target_fields ops w :
  let t' := target (final (performAll env ops) w) in
  m_defaultView t' = m_defaultView (target w)
  /\ m_clearDepth t' = m_clearDepth (target w)
  /\ (forallb (fun op => negb (isEnableDepthTest op)) ops = true ->
      m_depthTest t' = m_depthTest (target w)).
Proof.
  revert w. induction ops as [|op ops IH]; intros w; [cbv zeta; auto|].
  cbv zeta. rewrite final_performAll_cons.
  destruct (IH (final (perform env op) w)) as (H1 & H2 & H3).
  destruct (perform_target_fields op w) as (G1 & G2 & G3).
  split; [congruence|]. split; [congruence|].
  intros H. simpl in H. apply andb_true_iff in H. destruct H as [Ha Hb].
  apply negb_true_iff in Ha. rewrite H3, G3 by assumption. reflexivity.
Qed.

(** X2. [enableDepthTest] never asks for activation: it records the
    setting and issues its calls to whatever context is current.  The
    setting survives every later operation other than [enableDepthTest]
    itself, and a later [resetGLStates] that gets the target active turns
    depth testing off exactly when the setting is off. *)
Theorem depth_test_setting_persists (enable : bool) (ops : list Operation)
  (w : World) :
  forallb (fun op => negb (isEnableDepthTest op)) ops = true ->
  let w1 := final (enableDepthTest enable) w in
  let w2 := final (performAll env ops) w1 in
  activations w1 = activations w
  /\ issued (enableDepthTest enable) w <> []
  /\ m_depthTest (target w2) = enable
  /\ (activate_result env (activations w2) = true ->
      (In (glDisable GL_DEPTH_TEST) (issued (resetGLStates env) w2)
       <-> enable = false)).
Proof.
  intros Hops w1 w2.
  assert (H1 : m_depthTest (target w1) = enable).
  { unfold w1, enableDepthTest. rewrite final_bind, final_modifyTarget.
    destruct enable; reflexivity. }
  assert (H2 : m_depthTest (target w2) = enable).
  { unfold w2. destruct (performAll_target_fields ops w1) as (_ & _ & H).
    rewrite H by assumption. exact H1. }
  split; [|split; [|split; [exact H2|]]].
  - unfold w1, enableDepthTest. rewrite final_bind, final_modifyTarget.
    destruct enable; reflexivity.
  - unfold enableDepthTest. rewrite issued_bind, issued_modifyTarget.
    destruct enable; discriminate.
  - intros Hact. rewrite issued_resetGLStates, Hact. unfold resetCalls.
    rewrite in_app_iff. unfold persistentStateCalls. rewrite H2. split.
    + intros [Hin|Hin].
      * destruct enable; [|reflexivity]. exfalso. cbn [app] in Hin.
        repeat (destruct Hin as [Hin|Hin]; [discriminate Hin|]).
        apply in_app_iff in Hin. destruct Hin as [Hin|Hin].
        { destruct (isNull _); [|destruct Hin].
          repeat (destruct Hin as [Hin|Hin]; [discriminate Hin|]). destruct Hin. }
        destruct Hin as [Hin|[]]. discriminate Hin.
      * exfalso. pose proof (applierCall_resetCalls_tail w2) as Hf.
        rewrite List.Forall_forall in Hf. specialize (Hf _ Hin). discriminate Hf.
    + intros ->. left. simpl. auto.
Qed.


(** X3. [clear], once the target is active, sets the clear colour to the
    four components divided by 255 in binary32 and clears the colour
    buffer, and the depth buffer too exactly when [m_clearDepth] is set; it
    leaves the target as it was.  The conversion sends 0 to 0.0 and 255 to
    1.0 exactly, and keeps the 256 levels apart and in order. *)
Theorem clear_colour_levels (color : Color) (w : World) :
  activate_result env (activations w) = true ->
  issued (clear env color) w
  = [glClearColor (clearComponent (Color.r color))
       (clearComponent (Color.g color)) (clearComponent (Color.b color))
       (clearComponent (Color.a color));
     glClear (if m_clearDepth (target w) then 16640 else 16384)%Z]
  /\ target (final (clear env color) w) = target w
  /\ clearComponent 0 = Float32.zero
  /\ clearComponent 255 = Float32.one
  /\ forall a b, (0 <= a < b)%Z -> (b <= 255)%Z ->
       SFltb (clearComponent a) (clearComponent b) = true.
Proof.
  intros Hact. split; [|split; [|split; [|split]]].
  - rewrite issued_clear, Hact. destruct (m_clearDepth (target w)); reflexivity.
  - rewrite final_clear. reflexivity.
  - vm_compute. reflexivity.
  - vm_compute. reflexivity.
  - intros a b Hab Hb.
    assert (Hall : pairwise SFltb (map clearComponent (zrange 0 256)) = true)
      by (vm_compute; reflexivity).
    apply (pairwise_zrange _ _ _ _ Hall); simpl; lia.
Qed.

(** X4. [resetGLStates], once the target is active, brings the cache to
    its defaults: states set, view to be applied, alpha blending, no
    texture, vertex cache not in use; the identity of the last vertex buffer
    is cleared only when vertex buffers are available.  It replaces the
    current view by the default view, whatever view was current.  Running
    it again changes nothing more. *)
Theorem reset_establishes_defaults (w : World) :
  activate_result env (activations w) = true ->
  let w' := final (resetGLStates env) w in
  m_view (target w') = m_defaultView (target w)
  /\ m_cache (target w')
     = {| glStatesSet := true;
          viewChanged := true;
          lastBlendMode := BlendAlpha;
          lastTextureId := 0%N;
          lastVertexBufferId :=
            if VertexBuffer_isAvailable env then 0%N
            else lastVertexBufferId (m_cache (target w));
          useVertexCache := false;
          vertexCache := vertexCache (m_cache (target w)) |}
  /\ (activate_result env (activations w') = true ->
      target (final (resetGLStates env) w') = target w').
Proof.
  intros Hact w'. unfold w'. rewrite !final_resetGLStates.
  unfold afterReset at 1 2 3. rewrite Hact. cbn [target activations].
  split; [reflexivity|]. split; [reflexivity|].
  intros Hact2. unfold afterReset. rewrite Hact.
  cbn [target activations]. rewrite Hact2.
  cbn [target m_defaultView m_cache vertexCache lastVertexBufferId
       m_depthTest m_clearDepth m_defaultShader m_currentNonLegacyShader
       m_lastNonLegacyShader].
  destruct (VertexBuffer_isAvailable env); reflexivity.
Qed.

Lemma filter_quiet l : count DrawArrays l = 0 -> List.filter isDrawCall l = [].
Proof.
  induction l as [|c l IH]; [reflexivity|]. simpl.
  destruct c; simpl; try discriminate; try exact IH.
  destruct (String.eqb _ _); exact IH.
Qed.

Lemma legacy_prepared w : legacy (prepared env w) = legacy w.
Proof. unfold legacy. rewrite prepared_defaultShader. reflexivity. Qed.

Lemma filter_drawStep s w1 :
  List.filter isDrawCall (drawStep env s w1)
  = [glDrawArrays (modeOf s) 0 (vertexCountOf s)].
Proof.
  unfold drawStep. destruct (legacy w1) eqn:El.
  - rewrite List.filter_app, filter_quiet; [reflexivity|].
    apply count_pointerStep. discriminate.
  - rewrite issued_drawNonLegacy.
    assert (Hc : exists current,
               m_currentNonLegacyShader (target (afterTrack (statesOf s) w1))
               = Some current).
    { unfold legacy in El. unfold afterTrack.
      destruct (m_defaultShader (target w1)); [|discriminate].
      destruct (RenderStates.shader (statesOf s)); simpl; eauto. }
    destruct Hc as (current & ->).
    rewrite List.filter_app, filter_quiet
      by (apply count_setLightParameters; discriminate).
    unfold issued, drawWithAttributes, when, bind.
    destruct (0 <=? _)%Z, (0 <=? _)%Z, (0 <=? _)%Z, (0 <=? _)%Z; reflexivity.
Qed.

Lemma filter_protocolCalls s w1 :
  List.filter isDrawCall (protocolCalls env s w1)
  = [glDrawArrays (modeOf s) 0 (vertexCountOf s)].
Proof.
  unfold protocolCalls. rewrite !List.filter_app, filter_drawStep.
  rewrite (filter_quiet (transformStep _ _ _))
    by (apply count_transformStep; discriminate).
  rewrite (filter_quiet (viewStep _ _ _)).
  2:{ rewrite count_viewStep by discriminate. destruct (_ || _); reflexivity. }
  rewrite (filter_quiet (blendModeStep _ _ _)).
  2:{ rewrite count_blendModeStep. destruct (negb _); reflexivity. }
  rewrite (filter_quiet (textureStep _ _ _)).
  2:{ rewrite count_textureStep by discriminate. destruct (_ || _); reflexivity. }
  rewrite (filter_quiet (shaderStep _ _)).
  2:{ rewrite count_shaderStep. destruct (isNull _); reflexivity. }
  rewrite (filter_quiet (vertexSourceStep _ _)).
  2:{ rewrite count_vertexSourceStep. destruct (negb _); reflexivity. }
  rewrite (filter_quiet (unbindStep _ _)).
  2:{ rewrite count_unbindStep. destruct (_ && _); reflexivity. }
  reflexivity.
Qed.

Lemma count_resetGLStates_DrawArrays w :
  count DrawArrays (issued (resetGLStates env) w) = 0.
Proof.
  rewrite count_resetGLStates by discriminate.
  destruct (activate_result env _); [|reflexivity].
  destruct (Shader_isAvailable env), (VertexBuffer_isAvailable env), (legacy w);
    reflexivity.
Qed.

(** X5. One draw, one draw call: a draw that finds something to draw and
    gets the target active issues exactly one [glDrawArrays], with the mode
    and the vertex count of the submission, also when it has to set the
    persistent states first; any other draw, and every other operation,
    issues none. *)
Theorem one_draw_call_per_draw (op : Operation) (w : World) :
  List.filter isDrawCall (issued (perform env op) w)
  = match op with
    | OpDraw s =>
        if nothingToDraw s || negb (activate_result env (activations w))
        then []
        else [glDrawArrays (modeOf s) 0 (vertexCountOf s)]
    | _ => []
    end.
Proof.
  destruct op; cbn [perform].
  - rewrite issued_clear. destruct (activate_result env _); reflexivity.
  - unfold enableDepthTest. rewrite issued_bind, issued_modifyTarget.
    destruct enable; reflexivity.
  - reflexivity.
  - destruct (nothingToDraw s) eqn:Hs; cbn [orb].
    + unfold issued. rewrite draw_nothing by assumption. reflexivity.
    + destruct (activate_result env (activations w)) eqn:Hact; cbn [negb].
      * destruct (draw_protocol env s w Hs Hact) as (Hc & _).
        rewrite Hc, List.filter_app, filter_protocolCalls, filter_quiet;
          [reflexivity|].
        rewrite issued_ensureGLStates.
        destruct (glStatesSet _); [reflexivity|].
        apply count_resetGLStates_DrawArrays.
      * unfold issued. rewrite draw_inactive by assumption. reflexivity.
  - rewrite issued_pushGLStates, List.filter_app,
      (filter_quiet (issued (resetGLStates env) _))
      by apply count_resetGLStates_DrawArrays.
    destruct (activate_result env _); reflexivity.
  - rewrite issued_popGLStates. destruct (activate_result env _); [|reflexivity].
    destruct (isNull _); reflexivity.
  - apply filter_quiet, count_resetGLStates_DrawArrays.
Qed.


(** *** The two pipelines *)

Lemma foreignCall_protocolCall b c :
  protocolCall b c = true -> foreignCall b c = false.
Proof.
  destruct b, c; simpl; try discriminate; try reflexivity.
Qed.

Lemma foreignCall_applierCall b c :
  applierCall b c = true -> foreignCall b c = false.
Proof. intros H. apply foreignCall_protocolCall, protocolCall_applier, H. Qed.

Lemma foreignCall_resetGLStates w :
  Forall (fun c => foreignCall (legacy w) c = false)
    (issued (resetGLStates env) w).
Proof.
  rewrite issued_resetGLStates.
  destruct (activate_result env _); [|constructor].
  unfold resetCalls. apply Forall_app. split.
  - unfold persistentStateCalls. fold (legacy w).
    repeat (apply Forall_app; split);
      try destruct (m_depthTest _); destruct (legacy w); repeat constructor.
  - apply (List.Forall_impl _ (foreignCall_applierCall (legacy w))).
    apply applierCall_resetCalls_tail.
Qed.

Lemma foreignCall_perform op w :
  Forall (fun c => foreignCall (legacy w) c = false) (issued (perform env op) w).
Proof.
  destruct op; cbn [perform].
  - rewrite issued_clear. destruct (activate_result env _), (legacy w);
      repeat constructor.
  - unfold enableDepthTest. rewrite issued_bind, issued_modifyTarget.
    destruct enable, (legacy w); repeat constructor.
  - constructor.
  - destruct (nothingToDraw s) eqn:Hs.
    { unfold issued. rewrite draw_nothing by assumption. constructor. }
    destruct (activate_result env (activations w)) eqn:Hact.
    2:{ unfold issued. rewrite draw_inactive by assumption. constructor. }
    destruct (draw_protocol env s w Hs Hact) as (Hc & _). rewrite Hc.
    apply Forall_app. split.
    + rewrite issued_ensureGLStates. destruct (glStatesSet _); [constructor|].
      apply (foreignCall_resetGLStates (activated w)).
    + rewrite <- legacy_prepared.
      apply (List.Forall_impl _ (foreignCall_protocolCall (legacy (prepared env w)))).
      apply protocolCall_protocolCalls.
  - rewrite issued_pushGLStates. apply Forall_app. split.
    + destruct (activate_result env _), (legacy w); repeat constructor.
    + apply (foreignCall_resetGLStates (activated w)).
  - rewrite issued_popGLStates. destruct (activate_result env _); [|constructor].
    unfold legacy. destruct (m_defaultShader (target w)); repeat constructor.
  - apply foreignCall_resetGLStates.
Qed.

(** X6. The two pipelines never mix.  On a target without a default
    shader no operation sets a uniform, uploads a light or touches a generic
    vertex attribute; on a target with one, no operation loads a matrix,
    binds a texture to the fixed-function unit, sets a fixed-function vertex
    pointer or enables a client-side array. *)
Theorem pipelines_never_mix (ops : list Operation) (w : World) :
  Forall (fun c => foreignCall (legacy w) c = false)
    (issued (performAll env ops) w).
Proof.
  revert w. induction ops as [|op ops IH]; intros w; [constructor|].
  rewrite issued_performAll_cons. apply Forall_app. split.
  - apply foreignCall_perform.
  - replace (legacy w) with (legacy (final (perform env op) w)); [apply IH|].
    unfold legacy. rewrite perform_defaultShader. reflexivity.
Qed.


(** *** The cache and the calls *)

Lemma lastWhere_app {A} (f : Call -> option A) l1 l2 :
  lastWhere f (l1 ++ l2)
  = match lastWhere f l2 with
    | Some a => Some a
    | None => lastWhere f l1
    end.
Proof.
  induction l1 as [|c l1 IH]; simpl.
  - destruct (lastWhere f l2); reflexivity.
  - rewrite IH. destruct (lastWhere f l2); reflexivity.
Qed.

Lemma lastWhere_quiet {A} (f : Call -> option A) k l :
  (forall c, kind c <> k -> f c = None) ->
  count k l = 0 -> lastWhere f l = None.
Proof.
  intros Hf. induction l as [|c l IH]; [reflexivity|].
  simpl. intros H.
  destruct (CallKind_eqb (kind c) k) eqn:E; [discriminate|].
  rewrite IH by exact H. apply Hf. intros <-.
  destruct (kind c); discriminate.
Qed.

Lemma blendFunction_kind c : kind c <> BlendModeApply -> blendFunction c = None.
Proof. destruct c; simpl; try reflexivity; congruence. Qed.

Lemma textureBound_kind c : kind c <> TextureApply -> textureBound c = None.
Proof. destruct c; simpl; try reflexivity; congruence. Qed.

Lemma bufferBound_kind c : kind c <> VertexBufferApply -> bufferBound c = None.
Proof. destruct c; simpl; try reflexivity; congruence. Qed.

Lemma lastWhere_applyBlendMode mode w :
  lastWhere blendFunction (issued (applyBlendMode env mode) w) = Some mode.
Proof.
  unfold issued, applyBlendMode, bind; simpl.
  destruct mode, (GLEW_EXT_blend_func_separate env); reflexivity.
Qed.

(** What a draw reads back from its own calls, step by step: a step that
    issues no call of kind [k] is skipped. *)
Lemma lastWhere_protocolCalls {A} (f : Call -> option A) k s w1 :
  (forall c, kind c <> k -> f c = None) ->
  k = BlendModeApply \/ k = TextureApply \/ k = VertexBufferApply ->
  lastWhere f (protocolCalls env s w1)
  = lastWhere f
      (match k with
       | BlendModeApply => blendModeStep env s w1
       | TextureApply => textureStep env s w1
       | _ => vertexSourceStep s w1
       end).
Proof.
  intros Hf Hk. unfold protocolCalls. rewrite !lastWhere_app.
  assert (Hne : k <> OtherCall /\ k <> MatrixCall /\ k <> DrawArrays
                /\ k <> ViewApply /\ k <> ShaderApply).
  { destruct Hk as [Hk|[Hk|Hk]]; subst k; repeat split; discriminate. }
  destruct Hne as (H1 & H2 & H3 & H4 & H5).
  rewrite (lastWhere_quiet f k (unbindStep s w1) Hf).
  2:{ rewrite count_unbindStep. destruct (_ && _); [|reflexivity].
      destruct k; try reflexivity; congruence. }
  rewrite (lastWhere_quiet f k (drawStep env s w1) Hf).
  2:{ rewrite count_drawStep by assumption.
      destruct k; try reflexivity; congruence. }
  rewrite (lastWhere_quiet f k (shaderStep s w1) Hf).
  2:{ rewrite count_shaderStep. destruct (isNull _); [reflexivity|].
      destruct k; try reflexivity; congruence. }
  rewrite (lastWhere_quiet f k (viewStep env s w1) Hf).
  2:{ rewrite count_viewStep by assumption. destruct (_ || _); [|reflexivity].
      destruct k; try reflexivity; congruence. }
  rewrite (lastWhere_quiet f k (transformStep env s w1) Hf).
  2:{ apply count_transformStep; assumption. }
  destruct Hk as [Hk|[Hk|Hk]]; subst k.
  - rewrite (lastWhere_quiet f _ (vertexSourceStep s w1) Hf).
    2:{ rewrite count_vertexSourceStep. destruct (negb _); reflexivity. }
    rewrite (lastWhere_quiet f _ (textureStep env s w1) Hf).
    2:{ rewrite count_textureStep by discriminate. destruct (_ || _); reflexivity. }
    destruct (lastWhere f (blendModeStep env s w1)); reflexivity.
  - rewrite (lastWhere_quiet f _ (vertexSourceStep s w1) Hf).
    2:{ rewrite count_vertexSourceStep. destruct (negb _); reflexivity. }
    rewrite (lastWhere_quiet f _ (blendModeStep env s w1) Hf).
    2:{ rewrite count_blendModeStep. destruct (negb _); reflexivity. }
    destruct (lastWhere f (textureStep env s w1)); reflexivity.
  - rewrite (lastWhere_quiet f _ (textureStep env s w1) Hf).
    2:{ rewrite count_textureStep by discriminate. destruct (_ || _); reflexivity. }
    rewrite (lastWhere_quiet f _ (blendModeStep env s w1) Hf).
    2:{ rewrite count_blendModeStep. destruct (negb _); reflexivity. }
    destruct (lastWhere f (vertexSourceStep s w1)); reflexivity.
Qed.


Lemma k_count_literal k l :
  k = BlendModeApply \/ k = TextureApply \/ k = VertexBufferApply ->
  Forall (fun c => match kind c with
                   | BlendModeApply | TextureApply | VertexBufferApply => False
                   | _ => True
                   end) l ->
  count k l = 0.
Proof.
  intros Hk. induction 1 as [|c l Hc _ IH]; [reflexivity|]. simpl. rewrite IH.
  destruct Hk as [Hk|[Hk|Hk]]; subst k; destruct (kind c);
    try reflexivity; contradiction.
Qed.

Section Coherence.

Context {A B : Type}.
Variable f : Call -> option A.
Variable dec : A -> B.
Variable proj : StatesCache -> B.
Variable k : CallKind.

Hypothesis f_kind : forall c, kind c <> k -> f c = None.
Hypothesis k_cached :
  k = BlendModeApply \/ k = TextureApply \/ k = VertexBufferApply.

Lemma coherent_app l1 l2 w w1 w2 :
  coherent f dec proj l1 w w1 -> coherent f dec proj l2 w1 w2 ->
  coherent f dec proj (l1 ++ l2) w w2.
Proof.
  unfold coherent. rewrite lastWhere_app. intros H1 H2.
  destruct (lastWhere f l2); [exact H2|].
  destruct (lastWhere f l1); congruence.
Qed.

Lemma coherent_quiet l w w' :
  count k l = 0 -> m_cache (target w') = m_cache (target w) ->
  coherent f dec proj l w w'.
Proof.
  intros Hc Hw. unfold coherent. rewrite (lastWhere_quiet f k l f_kind Hc).
  rewrite Hw. reflexivity.
Qed.

Variable legacyOnly : bool.

Hypothesis proj_viewChanged :
  forall v c, proj (set_viewChanged v c) = proj c.
Hypothesis coherent_reset :
  forall w, implb legacyOnly (legacy w) = true ->
            coherent f dec proj (issued (resetGLStates env) w) w
              (final (resetGLStates env) w).
Hypothesis coherent_protocol :
  forall s w1 w', implb legacyOnly (legacy w1) = true ->
                  target w' = protocolTarget env s w1 ->
                  coherent f dec proj (protocolCalls env s w1) w1 w'.

Lemma coherent_draw s w :
  implb legacyOnly (legacy w) = true ->
  coherent f dec proj (issued (draw env s) w) w (final (draw env s) w).
Proof.
  intros Hleg.
  destruct (nothingToDraw s) eqn:Hs.
  { unfold issued, final. rewrite draw_nothing by assumption.
    apply coherent_quiet; reflexivity. }
  destruct (activate_result env (activations w)) eqn:Hact.
  2:{ unfold issued, final. rewrite draw_inactive by assumption.
      apply coherent_quiet; reflexivity. }
  destruct (draw_protocol env s w Hs Hact) as (Hc & Ht & _). rewrite Hc.
  apply coherent_app with (w1 := prepared env w).
  - unfold prepared. rewrite issued_ensureGLStates, final_ensureGLStates.
    destruct (glStatesSet (m_cache (target (activated w)))) eqn:E.
    + apply coherent_quiet; reflexivity.
    + pose proof (coherent_reset (activated w) Hleg) as H.
      unfold coherent in *. exact H.
  - apply coherent_protocol; [|exact Ht]. rewrite legacy_prepared. exact Hleg.
Qed.

Lemma coherent_perform op w :
  implb legacyOnly (legacy w) = true ->
  coherent f dec proj (issued (perform env op) w) w (final (perform env op) w).
Proof.
  intros Hleg. destruct op; cbn [perform].
  - apply coherent_quiet; [|rewrite final_clear; reflexivity].
    rewrite issued_clear. apply (k_count_literal k _ k_cached).
    destruct (activate_result env _); repeat constructor.
  - unfold enableDepthTest. rewrite issued_bind, issued_modifyTarget, final_bind,
      final_modifyTarget. apply coherent_quiet.
    + apply (k_count_literal k _ k_cached). destruct enable; repeat constructor.
    + destruct enable; reflexivity.
  - unfold coherent. rewrite issued_setView, final_setView.
    cbn [lastWhere withCache set_target target set_m_cache set_m_view m_cache].
    apply proj_viewChanged.
  - apply coherent_draw, Hleg.
  - rewrite issued_pushGLStates, final_pushGLStates.
    apply coherent_app with (w1 := activated w);
      [|apply (coherent_reset (activated w) Hleg)].
    apply coherent_quiet; [|reflexivity].
    apply (k_count_literal k _ k_cached). destruct (activate_result env _); repeat constructor.
  - rewrite issued_popGLStates, final_popGLStates.
    apply coherent_quiet; [|reflexivity]. apply (k_count_literal k _ k_cached).
    destruct (activate_result env _); [|constructor].
    destruct (isNull _); repeat constructor.
  - apply coherent_reset, Hleg.
Qed.

Lemma coherent_performAll ops w :
  implb legacyOnly (legacy w) = true ->
  coherent f dec proj (issued (performAll env ops) w) w
    (final (performAll env ops) w).
Proof.
  revert w. induction ops as [|op ops IH]; intros w Hleg.
  - unfold coherent. reflexivity.
  - rewrite issued_performAll_cons, final_performAll_cons.
    apply coherent_app with (w1 := final (perform env op) w);
      [apply coherent_perform, Hleg | apply IH].
    unfold legacy. rewrite perform_defaultShader. exact Hleg.
Qed.

End Coherence.

Lemma k_quiet_persistentStateCalls k t :
  k = BlendModeApply \/ k = TextureApply \/ k = VertexBufferApply ->
  count k (persistentStateCalls t) = 0.
Proof.
  intros Hk. apply (k_count_literal k _ Hk). unfold persistentStateCalls.
  repeat (apply Forall_app; split);
    try destruct (m_depthTest _); try destruct (isNull _); repeat constructor.
Qed.

(** X7. The cached blend mode is the blend function the target set last:
    over any sequence of operations, if the target issued a blend-function
    call the cache holds the mode the last such call stands for, and if it
    issued none the cached mode is what it was. *)
Theorem cached_blend_mode_is_coherent (ops : list Operation) (w : World) :
  match lastWhere blendFunction (issued (performAll env ops) w) with
  | Some mode =>
      lastBlendMode (m_cache (target (final (performAll env ops) w))) = mode
  | None =>
      lastBlendMode (m_cache (target (final (performAll env ops) w)))
      = lastBlendMode (m_cache (target w))
  end.
Proof.
  apply (coherent_performAll blendFunction (fun m => m) lastBlendMode
           BlendModeApply blendFunction_kind (or_introl eq_refl) false).
  - reflexivity.
  - intros w0 _. unfold coherent.
    rewrite issued_resetGLStates, final_resetGLStates. unfold afterReset.
    destruct (activate_result env (activations w0)); [|reflexivity].
    unfold resetCalls. rewrite !lastWhere_app.
    rewrite (lastWhere_quiet blendFunction BlendModeApply
               (defaultBinds _ _) blendFunction_kind).
    2:{ unfold defaultBinds.
        destruct (Shader_isAvailable env), (VertexBuffer_isAvailable env);
          reflexivity. }
    rewrite (lastWhere_quiet blendFunction BlendModeApply
               (issued (applyTexture _ _) _) blendFunction_kind)
      by (rewrite count_applyTexture by discriminate; reflexivity).
    rewrite (lastWhere_quiet blendFunction BlendModeApply
               (issued (applyTransform _ _) _) blendFunction_kind).
    2:{ rewrite count_applyTransform by discriminate.
        destruct (legacy w0); reflexivity. }
    rewrite lastWhere_applyBlendMode. reflexivity.
  - intros s w1 w' _ Ht. unfold coherent.
    rewrite (lastWhere_protocolCalls blendFunction BlendModeApply s w1
               blendFunction_kind (or_introl eq_refl)).
    rewrite Ht. cbn [protocolTarget m_cache protocolCache lastBlendMode].
    unfold blendModeStep.
    destruct (BlendMode_eqb _ _) eqn:E; cbn [negb].
    + apply BlendMode_eqb_eq in E. exact E.
    + rewrite lastWhere_applyBlendMode. reflexivity.
  - reflexivity.
Qed.



(** X8. The cached vertex-buffer identity is that of the buffer the
    target bound last: over any sequence of operations, if the target
    called [VertexBuffer::bind] the cache holds the identity of the buffer
    of the last such call (0 for the null buffer), and if it did not the
    cached identity is what it was. *)
Theorem cached_vertex_buffer_is_coherent (ops : list Operation) (w : World) :
  match lastWhere bufferBound (issued (performAll env ops) w) with
  | Some buffer =>
      lastVertexBufferId (m_cache (target (final (performAll env ops) w)))
      = idOfBuffer buffer
  | None =>
      lastVertexBufferId (m_cache (target (final (performAll env ops) w)))
      = lastVertexBufferId (m_cache (target w))
  end.
Proof.
  apply (coherent_performAll bufferBound idOfBuffer lastVertexBufferId
           VertexBufferApply bufferBound_kind (or_intror (or_intror eq_refl))
           false).
  - reflexivity.
  - intros w0 _. unfold coherent.
    rewrite issued_resetGLStates, final_resetGLStates. unfold afterReset.
    destruct (activate_result env (activations w0)); [|reflexivity].
    unfold resetCalls. rewrite !lastWhere_app. unfold defaultBinds.
    destruct (VertexBuffer_isAvailable env).
    + destruct (Shader_isAvailable env); reflexivity.
    + replace (lastWhere bufferBound (_ ++ []))
        with (@None (option VertexBuffer))
        by (destruct (Shader_isAvailable env); reflexivity).
      rewrite (lastWhere_quiet bufferBound VertexBufferApply
                 (issued (applyTexture _ _) _) bufferBound_kind)
        by (rewrite count_applyTexture by discriminate; reflexivity).
      rewrite (lastWhere_quiet bufferBound VertexBufferApply
                 (issued (applyTransform _ _) _) bufferBound_kind).
      2:{ rewrite count_applyTransform by discriminate.
          destruct (legacy w0); reflexivity. }
      rewrite (lastWhere_quiet bufferBound VertexBufferApply
                 (issued (applyBlendMode _ _) _) bufferBound_kind)
        by (rewrite count_applyBlendMode; reflexivity).
      rewrite (lastWhere_quiet bufferBound VertexBufferApply
                 (persistentStateCalls _) bufferBound_kind)
        by (apply k_quiet_persistentStateCalls; auto).
      reflexivity.
  - intros s w1 w' _ Ht. unfold coherent.
    rewrite (lastWhere_protocolCalls bufferBound VertexBufferApply s w1
               bufferBound_kind (or_intror (or_intror eq_refl))).
    rewrite Ht.
    cbn [protocolTarget m_cache protocolCache lastVertexBufferId].
    unfold vertexSourceStep, vertexBufferIdOf.
    destruct s as [vs n ty st | b st].
    + destruct (N.eqb_spec (lastVertexBufferId (m_cache (target w1))) 0)
        as [E|E]; cbn [negb lastWhere bufferBound idOfBuffer]; congruence.
    + destruct (N.eqb_spec (VertexBuffer.m_cacheId b)
                  (lastVertexBufferId (m_cache (target w1)))) as [E|E];
        cbn [negb lastWhere bufferBound idOfBuffer]; congruence.
  - reflexivity.
Qed.

Lemma issued_applyTexture_legacy t w :
  legacy w = true -> issued (applyTexture env t) w = [Texture_bind t Pixels].
Proof.
  intros H. apply legacy_defaultShader in H.
  unfold issued, applyTexture, bind, getTarget. simpl. rewrite H. reflexivity.
Qed.

(** X9. In the legacy pipeline the cached texture identity is that of the
    texture the target bound last: over any sequence of operations, if the
    target called [Texture::bind] the cache holds the cache identity of the
    texture of the last such call (0 for no texture), and if it did not the
    cached identity is what it was. *)
Theorem cached_texture_is_coherent (ops : list Operation) (w : World) :
  m_defaultShader (target w) = None ->
  match lastWhere textureBound (issued (performAll env ops) w) with
  | Some texture =>
      lastTextureId (m_cache (target (final (performAll env ops) w)))
      = cacheIdOf texture
  | None =>
      lastTextureId (m_cache (target (final (performAll env ops) w)))
      = lastTextureId (m_cache (target w))
  end.
Proof.
  intros Hleg. apply legacy_defaultShader in Hleg.
  apply (coherent_performAll textureBound cacheIdOf lastTextureId
           TextureApply textureBound_kind (or_intror (or_introl eq_refl))
           true).
  - reflexivity.
  - intros w0 H0. cbn [implb] in H0. unfold coherent.
    rewrite issued_resetGLStates, final_resetGLStates. unfold afterReset.
    destruct (activate_result env (activations w0)); [|reflexivity].
    unfold resetCalls. rewrite !lastWhere_app.
    rewrite (lastWhere_quiet textureBound TextureApply
               (defaultBinds _ _) textureBound_kind).
    2:{ unfold defaultBinds.
        destruct (Shader_isAvailable env), (VertexBuffer_isAvailable env);
          reflexivity. }
    rewrite issued_applyTexture_legacy by assumption. reflexivity.
  - intros s w1 w' H1 Ht. cbn [implb] in H1. unfold coherent.
    rewrite (lastWhere_protocolCalls textureBound TextureApply s w1
               textureBound_kind (or_intror (or_introl eq_refl))).
    rewrite Ht. cbn [protocolTarget m_cache protocolCache lastTextureId].
    unfold textureStep, shaderChanges. fold (legacy w1). rewrite H1.
    cbn [negb andb orb]. rewrite afterTrack_legacy by assumption.
    destruct (N.eqb_spec (textureIdOf s) (lastTextureId (m_cache (target w1))))
      as [E|E]; cbn [negb].
    + exact E.
    + rewrite issued_applyTexture_legacy by assumption. reflexivity.
  - exact Hleg.
Qed.


(** *** Reading the calls of a draw *)

Lemma readAll_quiet {A} (f : Call -> option A) (p : Call -> bool) l :
  (forall c, p c = true -> f c = None) ->
  Forall (fun c => p c = true) l -> readAll f l = [].
Proof.
  intros Hf. induction 1 as [|c l Hc _ IH]; [reflexivity|].
  simpl. rewrite (Hf c Hc). exact IH.
Qed.

Lemma beforeDraw_app l1 l2 :
  count DrawArrays l1 = 0 -> beforeDraw (l1 ++ l2) = l1 ++ beforeDraw l2.
Proof.
  induction l1 as [|c l1 IH]; [reflexivity|]. simpl. intros H.
  destruct c; simpl in H; try discriminate; rewrite IH; try reflexivity;
    try exact H.
  destruct (String.eqb _ _); exact H.
Qed.

Lemma afterDraw_app l1 l2 :
  count DrawArrays l1 = 0 -> afterDraw (l1 ++ l2) = afterDraw l2.
Proof.
  induction l1 as [|c l1 IH]; [reflexivity|]. simpl. intros H.
  destruct c; simpl in H; try discriminate; try (apply IH; exact H).
  destruct (String.eqb _ _); apply IH; exact H.
Qed.

Lemma resetCall_applier b l :
  Forall (fun c => applierCall b c = true) l ->
  Forall (fun c => resetCall b c = true) l.
Proof.
  apply List.Forall_impl. intros c H. unfold resetCall. rewrite H. reflexivity.
Qed.

Lemma resetCall_resetGLStates w :
  Forall (fun c => resetCall (legacy w) c = true) (issued (resetGLStates env) w).
Proof.
  rewrite issued_resetGLStates.
  destruct (activate_result env _); [|constructor].
  unfold resetCalls. apply Forall_app. split.
  - unfold persistentStateCalls. fold (legacy w).
    repeat (apply Forall_app; split);
      try destruct (m_depthTest _); destruct (legacy w); repeat constructor.
  - apply resetCall_applier, applierCall_resetCalls_tail.
Qed.

Lemma resetCall_ensureGLStates w :
  Forall (fun c => resetCall (legacy w) c = true)
    (issued (ensureGLStates env) (activated w)).
Proof.
  rewrite issued_ensureGLStates. destruct (glStatesSet _); [constructor|].
  apply (resetCall_resetGLStates (activated w)).
Qed.

(** The steps of a draw that come before its draw step. *)
Lemma applierCall_steps s w1 :
  Forall (fun c => applierCall (legacy w1) c = true)
    (transformStep env s w1 ++ viewStep env s w1 ++ blendModeStep env s w1
     ++ textureStep env s w1 ++ shaderStep s w1 ++ vertexSourceStep s w1).
Proof.
  assert (Htr : forall t, Forall (fun c => applierCall (legacy w1) c = true)
                   (issued (applyTransform env t) (afterTrack (statesOf s) w1))).
  { intros t. rewrite <- (legacy_afterTrack (statesOf s) w1).
    apply applierCall_applyTransform. }
  repeat (apply Forall_app; split).
  - unfold transformStep. destruct s as [vs n ty st | b st]; [|apply Htr].
    destruct (usesVertexCache _ _ _ _); [|apply Htr].
    destruct (useVertexCache _); [constructor|apply Htr].
  - unfold viewStep. destruct (_ || _); [|constructor].
    rewrite <- (legacy_afterTrack (statesOf s) w1).
    apply applierCall_applyCurrentView.
  - unfold blendModeStep. destruct (negb _); [|constructor].
    apply applierCall_applyBlendMode.
  - unfold textureStep. destruct (_ || _); [|constructor].
    rewrite <- (legacy_afterTrack (statesOf s) w1).
    apply applierCall_applyTexture.
  - unfold shaderStep. destruct (resolvedShader _ _); repeat constructor.
  - unfold vertexSourceStep. destruct s as [vs n ty st | b st];
      destruct (negb _); repeat constructor.
Qed.

Lemma count_steps_DrawArrays s w1 :
  count DrawArrays
    (transformStep env s w1 ++ viewStep env s w1 ++ blendModeStep env s w1
     ++ textureStep env s w1 ++ shaderStep s w1 ++ vertexSourceStep s w1) = 0.
Proof.
  rewrite !count_app, count_transformStep, count_viewStep, count_blendModeStep,
    count_textureStep, count_shaderStep, count_vertexSourceStep by discriminate.
  destruct (_ || _), (negb _), (_ || _), (isNull _), (negb _); reflexivity.
Qed.

Lemma issued_setLightParameters sh w :
  issued (setLightParameters env sh) w
  = if Light_isLightingEnabled env then
      Shader_setParameter sh "sf_LightCount"
        (UInt (Z.of_nat (length (Light_getEnabledLights env))))
      :: map (fun light => Light_addToShader light sh) (Light_getEnabledLights env)
      ++ [Shader_setParameter sh "sf_ViewerPosition"
            (UVector3 (View.getPosition (m_view (target w))))]
    else [Shader_setParameter sh "sf_LightCount" (UInt 0)].
Proof.
  unfold issued, setLightParameters.
  destruct (Light_isLightingEnabled env); [|reflexivity].
  unfold bind. simpl. rewrite forEach_emit. reflexivity.
Qed.

(** The calls of an executed draw in the shader pipeline: what comes
    before the draw step issues neither a draw call nor a call on lights or
    vertex attributes; then come the lights and the attribute arrays around
    the draw call. *)
Lemma draw_shader_pipeline s w ds :
  m_defaultShader (target w) = Some ds ->
  nothingToDraw s = false ->
  activate_result env (activations w) = true ->
  exists pre,
    issued (draw env s) w
    = pre
      ++ issued (setLightParameters env (shaderOfDraw ds s))
           (afterTrack (statesOf s) (prepared env w))
      ++ issued (drawWithAttributes env (shaderOfDraw ds s)
                   (attributeData s) (modeOf s) (vertexCountOf s))
           (afterTrack (statesOf s) (prepared env w))
    /\ count DrawArrays pre = 0
    /\ Forall (fun c => resetCall false c = true) pre.
Proof.
  intros Hds Hs Hact.
  destruct (draw_protocol env s w Hs Hact) as (Hc & _).
  assert (Hleg : legacy w = false) by (unfold legacy; rewrite Hds; reflexivity).
  assert (Hleg1 : legacy (prepared env w) = false)
    by (rewrite legacy_prepared; exact Hleg).
  assert (Hds1 : m_defaultShader (target (prepared env w)) = Some ds)
    by (rewrite prepared_defaultShader; exact Hds).
  exists (issued (ensureGLStates env) (activated w)
          ++ transformStep env s (prepared env w) ++ viewStep env s (prepared env w)
          ++ blendModeStep env s (prepared env w)
          ++ textureStep env s (prepared env w) ++ shaderStep s (prepared env w)
          ++ vertexSourceStep s (prepared env w)).
  split; [|split].
  - rewrite Hc. unfold protocolCalls, drawStep, unbindStep.
    rewrite Hleg1, andb_false_r, app_nil_r, issued_drawNonLegacy.
    replace (m_currentNonLegacyShader
               (target (afterTrack (statesOf s) (prepared env w))))
      with (Some (shaderOfDraw ds s)).
    2:{ unfold afterTrack, shaderOfDraw. rewrite Hds1.
        destruct (RenderStates.shader (statesOf s)); reflexivity. }
    replace (vertexData env s (prepared env w)) with (attributeData s).
    2:{ unfold vertexData, attributeData, usesVertexCache.
        destruct s as [vs n ty st | b st]; [|reflexivity].
        rewrite Hds1. reflexivity. }
    rewrite <- !app_assoc. reflexivity.
  - rewrite count_app, count_steps_DrawArrays, issued_ensureGLStates.
    destruct (glStatesSet _); [reflexivity|].
    rewrite count_resetGLStates_DrawArrays. reflexivity.
  - apply Forall_app. split.
    + rewrite <- Hleg. apply resetCall_ensureGLStates.
    + rewrite <- Hleg1. apply resetCall_applier, applierCall_steps.
Qed.


Lemma readAll_map_quiet {A B} (f : Call -> option A) (g : B -> Call) l :
  (forall b, f (g b) = None) -> readAll f (map g l) = [].
Proof.
  intros H. induction l as [|b l IH]; [reflexivity|]. simpl. rewrite H. exact IH.
Qed.

Lemma readAll_map_all {A B} (f : Call -> option A) (g : B -> Call) (h : B -> A) l :
  (forall b, f (g b) = Some (h b)) -> readAll f (map g l) = map h l.
Proof.
  intros H. induction l as [|b l IH]; [reflexivity|]. simpl. rewrite H, IH.
  reflexivity.
Qed.

Lemma drawWithAttributes_attributes sh d mode n w :
  let calls := issued (drawWithAttributes env sh d mode n) w in
  readAll attributeEnabled (beforeDraw calls) = attributeLocations env sh
  /\ readAll attributeDisabled (beforeDraw calls) = []
  /\ afterDraw calls = map glDisableVertexAttribArrayARB (attributeLocations env sh)
  /\ readAll attributePointer calls = attributeLayout env sh d
  /\ readAll lightUploaded calls = []
  /\ readAll lightCountSet calls = []
  /\ readAll viewerPositionSet calls = [].
Proof.
  unfold issued, drawWithAttributes, attributeLocations, attributesLookedUp,
    attributeLayout, when, bind.
  cbn [map List.filter].
  destruct (0 <=? _)%Z, (0 <=? _)%Z, (0 <=? _)%Z, (0 <=? _)%Z;
    repeat split; reflexivity.
Qed.

Lemma applier_uniform_names name :
  existsb (String.eqb name)
    ["sf_ProjectionMatrix"; "sf_ViewMatrix"; "sf_ModelMatrix";
     "sf_NormalMatrix"; "sf_TextureMatrix"; "sf_Texture0"; "sf_TextureEnabled"]
  = true ->
  String.eqb name "sf_LightCount" = false
  /\ String.eqb name "sf_ViewerPosition" = false.
Proof.
  intros H. simpl in H.
  repeat (apply orb_true_iff in H; destruct H as [H|H]);
    try discriminate; apply String.eqb_eq in H; subst; split; reflexivity.
Qed.

Lemma resetCall_reads_nothing c :
  resetCall false c = true ->
  attributeEnabled c = None /\ attributeDisabled c = None
  /\ attributePointer c = None /\ lightUploaded c = None
  /\ lightCountSet c = None /\ viewerPositionSet c = None.
Proof.
  destruct c; simpl; try discriminate; intros H; repeat split; try reflexivity.
  - unfold resetCall in H.
    cbn [applierCall persistentStateCall negb andb] in H.
    rewrite orb_false_r in H. destruct (applier_uniform_names _ H) as (-> & _).
    destruct value; reflexivity.
  - unfold resetCall in H.
    cbn [applierCall persistentStateCall negb andb] in H.
    rewrite orb_false_r in H. destruct (applier_uniform_names _ H) as (_ & ->).
    destruct value; reflexivity.
Qed.

Lemma setLightParameters_reads sh w :
  let calls := issued (setLightParameters env sh) w in
  readAll attributeEnabled calls = [] /\ readAll attributeDisabled calls = []
  /\ readAll attributePointer calls = []
  /\ readAll lightUploaded calls
     = (if Light_isLightingEnabled env
        then map (fun light => (light, sh)) (Light_getEnabledLights env)
        else [])
  /\ readAll lightCountSet calls
     = [(sh, if Light_isLightingEnabled env
             then Z.of_nat (length (Light_getEnabledLights env)) else 0%Z)]
  /\ readAll viewerPositionSet calls
     = (if Light_isLightingEnabled env
        then [(sh, View.getPosition (m_view (target w)))] else []).
Proof.
  cbv zeta. rewrite issued_setLightParameters.
  destruct (Light_isLightingEnabled env); [|repeat split; reflexivity].
  cbn [readAll attributeEnabled attributeDisabled attributePointer lightUploaded
       lightCountSet viewerPositionSet String.eqb].
  rewrite !readAll_app.
  rewrite (readAll_map_quiet attributeEnabled), (readAll_map_quiet attributeDisabled),
    (readAll_map_quiet attributePointer), (readAll_map_quiet lightCountSet),
    (readAll_map_quiet viewerPositionSet) by reflexivity.
  rewrite (readAll_map_all lightUploaded _ (fun light => (light, sh)))
    by reflexivity.
  simpl. rewrite ?app_nil_r. repeat split; reflexivity.
Qed.

(** X10. In the shader pipeline an executed draw enables, before its draw
    call, the generic attribute arrays of exactly the attributes the shader
    of the draw has (position, colour, texture coordinates, normal: those
    with a location of 0 or more), disables none before the draw call, and
    after the draw call does nothing but disable the same arrays in the
    same order: no attribute array is left enabled. *)
Theorem attribute_arrays_released (s : Submission) (w : World)
  (defaultShader : ShaderPtr) :
  m_defaultShader (target w) = Some defaultShader ->
  nothingToDraw s = false ->
  activate_result env (activations w) = true ->
  let calls := issued (draw env s) w in
  let locations := attributeLocations env (shaderOfDraw defaultShader s) in
  readAll attributeEnabled (beforeDraw calls) = locations
  /\ readAll attributeDisabled (beforeDraw calls) = []
  /\ afterDraw calls = map glDisableVertexAttribArrayARB locations.
Proof.
  intros Hds Hs Hact calls locations.
  destruct (draw_shader_pipeline s w defaultShader Hds Hs Hact)
    as (pre & Hc & Hn & Hpre).
  unfold calls. rewrite Hc.
  set (w1 := afterTrack (statesOf s) (prepared env w)).
  set (sh := shaderOfDraw defaultShader s).
  destruct (setLightParameters_reads sh w1) as (L1 & L2 & _).
  destruct (drawWithAttributes_attributes sh (attributeData s) (modeOf s)
              (vertexCountOf s) w1) as (D1 & D2 & D3 & _).
  assert (Hl : count DrawArrays (issued (setLightParameters env sh) w1) = 0)
    by (apply count_setLightParameters; discriminate).
  rewrite !beforeDraw_app, !afterDraw_app, !readAll_app by assumption.
  rewrite L1, L2, D1, D2, D3.
  rewrite (readAll_quiet attributeEnabled (resetCall false) pre)
    by (try assumption; intros c H; apply resetCall_reads_nothing, H).
  rewrite (readAll_quiet attributeDisabled (resetCall false) pre)
    by (try assumption; intros c H; apply resetCall_reads_nothing, H).
  repeat split; reflexivity.
Qed.

(** X11. In the shader pipeline an executed draw declares every attribute
    the shader has with a stride of 36 bytes: colour, texture coordinates
    and normal at offsets 12, 16 and 24 of the vertex data (the caller's
    array for the array overload, the bound buffer for the buffer overload),
    and the position at a null pointer in both overloads, the caller's array
    notwithstanding. *)
Theorem attribute_pointer_layout (s : Submission) (w : World)
  (defaultShader : ShaderPtr) :
  m_defaultShader (target w) = Some defaultShader ->
  nothingToDraw s = false ->
  activate_result env (activations w) = true ->
  readAll attributePointer (issued (draw env s) w)
  = attributeLayout env (shaderOfDraw defaultShader s) (attributeData s).
Proof.
  intros Hds Hs Hact.
  destruct (draw_shader_pipeline s w defaultShader Hds Hs Hact)
    as (pre & Hc & Hn & Hpre).
  rewrite Hc.
  set (w1 := afterTrack (statesOf s) (prepared env w)).
  set (sh := shaderOfDraw defaultShader s).
  destruct (setLightParameters_reads sh w1) as (_ & _ & L3 & _).
  destruct (drawWithAttributes_attributes sh (attributeData s) (modeOf s)
              (vertexCountOf s) w1) as (_ & _ & _ & D4 & _).
  rewrite !readAll_app, L3, D4.
  rewrite (readAll_quiet attributePointer (resetCall false) pre)
    by (try assumption; intros c H; apply resetCall_reads_nothing, H).
  reflexivity.
Qed.

Lemma lightCall_resetCall c : resetCall false c = true -> lightCall c = None.
Proof.
  destruct c; simpl; try discriminate; intros H; try reflexivity.
  unfold resetCall in H.
  cbn [applierCall persistentStateCall negb andb] in H.
  rewrite orb_false_r in H. destruct (applier_uniform_names _ H) as (-> & ->).
  reflexivity.
Qed.

Lemma lightCall_setLightParameters sh w :
  readAll lightCall (issued (setLightParameters env sh) w)
  = issued (setLightParameters env sh) w.
Proof.
  rewrite issued_setLightParameters.
  destruct (Light_isLightingEnabled env); [|reflexivity].
  cbn [readAll lightCall String.eqb orb]. rewrite readAll_app.
  rewrite (readAll_map_all lightCall _
             (fun light => Light_addToShader light sh)) by reflexivity.
  reflexivity.
Qed.

Lemma lightCall_drawWithAttributes sh d mode n w :
  readAll lightCall (issued (drawWithAttributes env sh d mode n) w) = [].
Proof.
  unfold issued, drawWithAttributes, when, bind.
  destruct (0 <=? _)%Z, (0 <=? _)%Z, (0 <=? _)%Z, (0 <=? _)%Z; reflexivity.
Qed.

(** X12. In the shader pipeline an executed draw sets the light parameters
    of its shader before the draw call, in this order: with lighting
    enabled, [sf_LightCount] to the number of enabled lights, then every
    enabled light once, in order, then [sf_ViewerPosition] to the position
    of the current view; with lighting disabled, [sf_LightCount] to 0 and
    nothing else.  So the light count is always the number of lights
    uploaded, and nothing about lights follows the draw call. *)
Theorem light_count_matches_uploads (s : Submission) (w : World)
  (defaultShader : ShaderPtr) :
  m_defaultShader (target w) = Some defaultShader ->
  nothingToDraw s = false ->
  activate_result env (activations w) = true ->
  let calls := issued (draw env s) w in
  let shader := shaderOfDraw defaultShader s in
  readAll lightCall calls
  = (if Light_isLightingEnabled env then
       Shader_setParameter shader "sf_LightCount"
         (UInt (Z.of_nat (length (Light_getEnabledLights env))))
       :: map (fun light => Light_addToShader light shader)
            (Light_getEnabledLights env)
       ++ [Shader_setParameter shader "sf_ViewerPosition"
             (UVector3
                (View.getPosition (m_view (target (final (draw env s) w)))))]
     else [Shader_setParameter shader "sf_LightCount" (UInt 0)])
  /\ readAll lightCall (afterDraw calls) = []
  /\ readAll lightUploaded calls
     = (if Light_isLightingEnabled env
        then map (fun light => (light, shader)) (Light_getEnabledLights env)
        else [])
  /\ readAll lightCountSet calls
     = [(shader, Z.of_nat (length (readAll lightUploaded calls)))]
  /\ readAll viewerPositionSet calls
     = (if Light_isLightingEnabled env
        then [(shader,
               View.getPosition (m_view (target (final (draw env s) w))))]
        else []).
Proof.
  intros Hds Hs Hact calls shader.
  destruct (draw_shader_pipeline s w defaultShader Hds Hs Hact)
    as (pre & Hc & Hn & Hpre).
  destruct (draw_protocol env s w Hs Hact) as (_ & Ht & _).
  unfold calls. rewrite Hc, Ht.
  set (w1 := afterTrack (statesOf s) (prepared env w)).
  fold shader.
  destruct (setLightParameters_reads shader w1) as (_ & _ & _ & L4 & L5 & L6).
  destruct (drawWithAttributes_attributes shader (attributeData s) (modeOf s)
              (vertexCountOf s) w1) as (_ & _ & D3 & _ & D5 & D6 & D7).
  assert (Hl : count DrawArrays (issued (setLightParameters env shader) w1) = 0)
    by (apply count_setLightParameters; discriminate).
  rewrite !afterDraw_app by assumption.
  rewrite !readAll_app, L4, L5, L6, D3, D5, D6, D7.
  rewrite lightCall_setLightParameters, lightCall_drawWithAttributes.
  rewrite (readAll_map_quiet lightCall) by reflexivity.
  rewrite (readAll_quiet lightCall (resetCall false) pre)
    by (try assumption; intros c H; apply lightCall_resetCall, H).
  rewrite (readAll_quiet lightUploaded (resetCall false) pre)
    by (try assumption; intros c H; apply resetCall_reads_nothing, H).
  rewrite (readAll_quiet lightCountSet (resetCall false) pre)
    by (try assumption; intros c H; apply resetCall_reads_nothing, H).
  rewrite (readAll_quiet viewerPositionSet (resetCall false) pre)
    by (try assumption; intros c H; apply resetCall_reads_nothing, H).
  rewrite issued_setLightParameters.
  cbn [app protocolTarget m_view]. rewrite !app_nil_r.
  assert (Hv : m_view (target w1) = m_view (target (prepared env w))).
  { unfold w1, afterTrack.
    destruct (m_defaultShader (target (prepared env w))); [|reflexivity].
    destruct (RenderStates.shader (statesOf s)); reflexivity. }
  rewrite Hv.
  destruct (Light_isLightingEnabled env);
    [rewrite length_map|]; repeat split; reflexivity.
Qed.


(** *** Setting the persistent states *)

Lemma persistent_protocolCall b c :
  protocolCall b c = true -> persistentStateCall c = false.
Proof. destruct b, c; simpl; try discriminate; reflexivity. Qed.

Lemma perform_states_set op w :
  glStatesSet (m_cache (target w)) = true ->
  leavesStatesAlone op = true ->
  glStatesSet (m_cache (target (final (perform env op) w))) = true
  /\ Forall (fun c => persistentStateCall c = false) (issued (perform env op) w).
Proof.
  intros Hgl Hop. destruct op; try discriminate Hop; cbn [perform].
  - rewrite final_clear, issued_clear. split; [exact Hgl|].
    destruct (activate_result env _); repeat constructor.
  - rewrite final_setView, issued_setView. split; [exact Hgl|constructor].
  - destruct (nothingToDraw s) eqn:Hs.
    { unfold issued, final. rewrite draw_nothing by assumption.
      split; [exact Hgl|constructor]. }
    destruct (activate_result env (activations w)) eqn:Hact.
    2:{ unfold issued, final. rewrite draw_inactive by assumption.
        split; [exact Hgl|constructor]. }
    destruct (draw_protocol env s w Hs Hact) as (Hc & Ht & _).
    rewrite Hc, Ht, prepared_set, issued_ensureGLStates_set by assumption.
    split; [exact Hgl|]. cbn [app].
    apply (List.Forall_impl _ (persistent_protocolCall (legacy (activated w)))).
    apply protocolCall_protocolCalls.
  - rewrite final_popGLStates, issued_popGLStates. split; [exact Hgl|].
    destruct (activate_result env _); [|constructor].
    destruct (isNull _); repeat constructor.
Qed.

(** X13. Once the persistent states are set they stay set: no sequence of
    draws, clears, view changes and [popGLStates] clears the flag, and none
    of these operations issues any of the calls that set the persistent
    states again. *)
Theorem persistent_states_stay_set (ops : list Operation) (w : World) :
  glStatesSet (m_cache (target w)) = true ->
  forallb leavesStatesAlone ops = true ->
  glStatesSet (m_cache (target (final (performAll env ops) w))) = true
  /\ Forall (fun c => persistentStateCall c = false)
       (issued (performAll env ops) w).
Proof.
  revert w. induction ops as [|op ops IH]; intros w Hgl Hops.
  - split; [exact Hgl|constructor].
  - simpl in Hops. apply andb_true_iff in Hops. destruct Hops as [Hop Hops].
    destruct (perform_states_set op w Hgl Hop) as (H1 & H2).
    destruct (IH _ H1 Hops) as (H3 & H4).
    rewrite final_performAll_cons, issued_performAll_cons.
    split; [exact H3|]. apply Forall_app. split; assumption.
Qed.

(** X14. The first executed draw of a target whose persistent states are
    not set runs [resetGLStates] before anything else: its calls start with
    those of the reset, and then the view is applied once.  The reset
    replaces the current view by the default view, so a view set before that
    draw is not the one the draw is made with.  Afterwards the states are
    set. *)
Theorem first_draw_sets_states (s : Submission) (w : World) :
  glStatesSet (m_cache (target w)) = false ->
  nothingToDraw s = false ->
  activate_result env (activations w) = true ->
  activate_result env (S (activations w)) = true ->
  let w' := final (draw env s) w in
  (exists rest,
     issued (draw env s) w = resetCalls env (activated w) ++ rest
     /\ count ViewApply rest = 1)
  /\ hd_error (issued (draw env s) w) = Some ensureGlewInit
  /\ glStatesSet (m_cache (target w')) = true
  /\ m_view (target w') = m_defaultView (target w).
Proof.
  intros Hgl Hs Hact Hact2 w'.
  destruct (draw_protocol env s w Hs Hact) as (Hc & Ht & _).
  assert (Hp : prepared env w = afterReset env (activated w))
    by (apply prepared_unset; exact Hgl).
  assert (He : issued (ensureGLStates env) (activated w)
               = resetCalls env (activated w)).
  { rewrite issued_ensureGLStates. cbn [activated target]. rewrite Hgl.
    rewrite issued_resetGLStates. cbn [activated activations].
    rewrite Hact2. reflexivity. }
  split; [|split; [|split]].
  - exists (protocolCalls env s (prepared env w)). split.
    + rewrite Hc, He. reflexivity.
    + rewrite count_protocolCalls by discriminate. rewrite Hp.
      unfold afterReset. cbn [activated activations target]. rewrite Hact2.
      cbn [target m_cache viewChanged]. rewrite orb_true_r.
      destruct (negb _), (_ || _), (isNull _), (negb _), (_ && _); reflexivity.
  - rewrite Hc, He. reflexivity.
  - unfold w'. rewrite Ht, Hp. unfold afterReset.
    cbn [activated activations target]. rewrite Hact2. reflexivity.
  - unfold w'. rewrite Ht, Hp. unfold afterReset.
    cbn [activated activations target]. rewrite Hact2. reflexivity.
Qed.


(** *** Saving and restoring the matrices *)

Lemma matrix_protocolCall b c :
  protocolCall b c = true -> savesOrRestoresMatrix c = false.
Proof. destruct b, c; simpl; try discriminate; reflexivity. Qed.

Lemma matrix_resetCall b c :
  resetCall b c = true -> savesOrRestoresMatrix c = false.
Proof. destruct b, c; simpl; try discriminate; reflexivity. Qed.

Lemma matrix_perform op w :
  betweenPushAndPop op = true ->
  Forall (fun c => savesOrRestoresMatrix c = false) (issued (perform env op) w).
Proof.
  intros Hop. destruct op; try discriminate Hop; cbn [perform].
  - rewrite issued_clear. destruct (activate_result env _); repeat constructor.
  - unfold enableDepthTest. rewrite issued_bind, issued_modifyTarget.
    destruct enable; repeat constructor.
  - constructor.
  - destruct (nothingToDraw s) eqn:Hs.
    { unfold issued. rewrite draw_nothing by assumption. constructor. }
    destruct (activate_result env (activations w)) eqn:Hact.
    2:{ unfold issued. rewrite draw_inactive by assumption. constructor. }
    destruct (draw_protocol env s w Hs Hact) as (Hc & _). rewrite Hc.
    apply Forall_app. split.
    + apply (List.Forall_impl _ (matrix_resetCall (legacy w))).
      apply resetCall_ensureGLStates.
    + apply (List.Forall_impl _ (matrix_protocolCall (legacy (prepared env w)))).
      apply protocolCall_protocolCalls.
  - apply (List.Forall_impl _ (matrix_resetCall (legacy w))).
    apply resetCall_resetGLStates.
Qed.

Lemma matrix_performAll ops w :
  forallb betweenPushAndPop ops = true ->
  Forall (fun c => savesOrRestoresMatrix c = false)
    (issued (performAll env ops) w).
Proof.
  revert w. induction ops as [|op ops IH]; intros w H; [constructor|].
  simpl in H. apply andb_true_iff in H. destruct H as [Hop Hops].
  rewrite issued_performAll_cons. apply Forall_app. split.
  - apply matrix_perform, Hop.
  - apply IH, Hops.
Qed.

(** Calls that neither save nor restore a matrix leave what lies under the
    top of the two stacks alone. *)
Lemma replay_keeps_saved l x y mv pr mode :
  Forall (fun c => savesOrRestoresMatrix c = false) l ->
  exists x' y' mode',
    replay l (Build_Matrices mode (x :: mv) (y :: pr))
    = Build_Matrices mode' (x' :: mv) (y' :: pr).
Proof.
  intros H. revert x y mode.
  induction H as [|c l Hc _ IH]; intros x y mode; [simpl; eauto|].
  rewrite replay_cons.
  assert (Hstep : exists x' y' mode',
             matrixStep (Build_Matrices mode (x :: mv) (y :: pr)) c
             = Build_Matrices mode' (x' :: mv) (y' :: pr)).
  { destruct c; simpl in Hc; try discriminate; simpl; eauto.
    unfold onStack. simpl. destruct mode; simpl; eauto. }
  destruct Hstep as (x' & y' & mode' & ->). apply IH.
Qed.

(** X15. [pushGLStates] and [popGLStates] bracket the matrices of the
    caller: whatever was on top of the model-view and projection stacks when
    the states were pushed is on top again after the pop, whatever draws,
    clears, view changes, depth-test changes and resets came in between
    (the push itself resets the states and loads matrices of its own). *)
Theorem push_pop_restores_matrices (ops : list Operation) (w : World)
  (d : Matrices) :
  forallb betweenPushAndPop ops = true ->
  modelviewStack d <> [] ->
  projectionStack d <> [] ->
  let w1 := final (pushGLStates env) w in
  let w2 := final (performAll env ops) w1 in
  activate_result env (activations w) = true ->
  activate_result env (activations w2) = true ->
  let d' := replay (issued (pushGLStates env) w
                    ++ issued (performAll env ops) w1
                    ++ issued (popGLStates env) w2) d in
  modelviewStack d' = modelviewStack d
  /\ projectionStack d' = projectionStack d.
Proof.
  intros Hops Hmv Hpr w1 w2 Hact Hact2 d'.
  destruct d as [mode mv pr]. cbn [modelviewStack projectionStack] in *.
  destruct mv as [|m mv]; [contradiction|].
  destruct pr as [|p pr]; [contradiction|].
  unfold d'. rewrite issued_pushGLStates, Hact, issued_popGLStates, Hact2.
  rewrite <- !app_assoc, !replay_app.
  match goal with
  | |- context [replay ?l (Build_Matrices mode (m :: mv) (p :: pr))] =>
      replace (replay l (Build_Matrices mode (m :: mv) (p :: pr)))
        with (Build_Matrices GL_TEXTURE (m :: m :: mv) (p :: p :: pr))
        by reflexivity
  end.
  destruct (replay_keeps_saved (issued (resetGLStates env) (activated w))
              m p (m :: mv) (p :: pr) GL_TEXTURE) as (x1 & y1 & mode1 & ->).
  { apply (List.Forall_impl _ (matrix_resetCall (legacy (activated w)))).
    apply resetCall_resetGLStates. }
  destruct (replay_keeps_saved (issued (performAll env ops) w1)
              x1 y1 (m :: mv) (p :: pr) mode1) as (x2 & y2 & mode2 & ->).
  { apply matrix_performAll, Hops. }
  destruct (isNull _); split; reflexivity.
Qed.


(** *** The vertex cache *)

Lemma storePreTransformed_after t f first n cache i :
  first + n <= i ->
  storePreTransformed env t f first n cache !! i = cache !! i.
Proof.
  revert first cache. induction n as [|n IH]; intros first cache Hi; simpl;
    [reflexivity|].
  rewrite IH by lia. apply list_lookup_insert_ne. lia.
Qed.

Lemma draw_vertexCache s w :
  vertexCache (m_cache (target (final (draw env s) w)))
  = match s with
    | VertexArray (Some array) n _ st =>
        if negb (Nat.eqb n 0) && activate_result env (activations w)
           && usesVertexCache env (target w) n st
        then storePreTransformed env (RenderStates.transform st) array 0 n
               (vertexCache (m_cache (target w)))
        else vertexCache (m_cache (target w))
    | _ => vertexCache (m_cache (target w))
    end.
Proof.
  destruct (nothingToDraw s) eqn:Hs.
  { rewrite final_draw_idle by assumption.
    destruct s as [[array|] n ty st | b st]; try reflexivity.
    simpl in Hs. rewrite Hs. reflexivity. }
  destruct (activate_result env (activations w)) eqn:Hact.
  2:{ unfold final. rewrite draw_inactive by assumption.
      destruct s as [[array|] n ty st | b st]; try reflexivity.
      rewrite andb_false_r. reflexivity. }
  destruct (draw_protocol env s w Hs Hact) as (_ & Ht & _). rewrite Ht.
  cbn [protocolTarget m_cache protocolCache vertexCache].
  destruct s as [[array|] n ty st | b st]; try apply prepared_vertexCache.
  simpl in Hs. rewrite Hs, usesVertexCache_prepared, prepared_vertexCache.
  reflexivity.
Qed.

Lemma perform_vertexCache op w :
  (forall array n ty st, op <> OpDraw (VertexArray (Some array) n ty st)) ->
  vertexCache (m_cache (target (final (perform env op) w)))
  = vertexCache (m_cache (target w)).
Proof.
  intros Hop. destruct op; cbn [perform].
  - rewrite final_clear. reflexivity.
  - unfold enableDepthTest. rewrite final_bind, final_modifyTarget.
    destruct enable; reflexivity.
  - reflexivity.
  - rewrite draw_vertexCache.
    destruct s as [[array|] n ty st | b st]; try reflexivity.
    exfalso. apply (Hop array n ty st). reflexivity.
  - rewrite final_pushGLStates, final_resetGLStates. unfold afterReset.
    destruct (activate_result env _); reflexivity.
  - rewrite final_popGLStates. reflexivity.
  - rewrite final_resetGLStates. unfold afterReset.
    destruct (activate_result env _); reflexivity.
Qed.

(** X16. The vertex cache is only ever written by an array draw, and only
    in its first [vertexCount] entries: every other operation, an array draw
    that does not pre-transform included, leaves it as it is; an array draw
    of [n] vertices leaves every entry from index [n] on as it was; and no
    sequence of operations changes the number of entries. *)
Theorem vertex_cache_writes_are_bounded (ops : list Operation) (op : Operation)
  (w : World) :
  length (vertexCache (m_cache (target (final (performAll env ops) w))))
  = length (vertexCache (m_cache (target w)))
  /\ match op with
     | OpDraw (VertexArray (Some array) n _ st) =>
         forall i, n <= i ->
           vertexCache (m_cache (target (final (perform env op) w))) !! i
           = vertexCache (m_cache (target w)) !! i
     | _ =>
         vertexCache (m_cache (target (final (perform env op) w)))
         = vertexCache (m_cache (target w))
     end.
Proof.
  split.
  - revert w. induction ops as [|o ops IH]; intros w; [reflexivity|].
    rewrite final_performAll_cons, IH.
    destruct o; try (rewrite perform_vertexCache; [reflexivity|discriminate]).
    cbn [perform]. rewrite draw_vertexCache.
    destruct s as [[array|] n ty st | b st]; try reflexivity.
    destruct (_ && _); [apply storePreTransformed_length|reflexivity].
  - destruct op; try (apply perform_vertexCache; discriminate).
    destruct s as [[array|] n ty st | b st];
      try (apply perform_vertexCache; discriminate).
    intros i Hi. cbn [perform]. rewrite draw_vertexCache.
    destruct (_ && _); [|reflexivity].
    apply storePreTransformed_after. lia.
Qed.


(** X26. The array overload, on an executed draw.  [w1] is the world and
    [d1] the matrix state of the device once the draw has made sure the
    persistent states are set: [w] and [d] themselves when they were set,
    else what [resetGLStates] makes of them.  The pre-transform path is taken
    exactly when the legacy pipeline is active, the vertex count is at most
    the cache capacity and the render states permit it; it is never taken in
    the shader pipeline.  When taken, each of the vertices is stored in the
    vertex cache with its position multiplied by the transform of the
    submission and its colour, texture coordinates and normal copied; and
    the draw loads the view transform times the identity as the model-view
    matrix only when the cache flag is clear: when the flag is set it loads
    nothing, and the vertices are drawn under the model-view matrix the
    device holds.  When not taken, the vertex cache is untouched and the
    transform of the submission is applied: loaded with the view transform
    as the model-view matrix, or set as the model matrix of the shader of
    the draw.  The device is in model-view mode, and the cache flag is
    clear, whenever the states have just been reset by the draw. *)
Theorem array_draw_pre_transform_path (array : nat -> Vertex) (n : nat)
  (type : PrimitiveType) (st : RenderStates) (w : World) (d : Matrices) :
  n <> 0 ->
  activate_result env (activations w) = true ->
  length (vertexCache (m_cache (target w))) = VertexCacheSize env ->
  let taken := usesVertexCache env (target w) n st in
  let w' := final (drawVertices env (Some array) n type st) w in
  let calls := issued (drawVertices env (Some array) n type st) w in
  let w1 := prepared env w in
  let d1 := replay (issued (ensureGLStates env) (activated w)) d in
  let V := View.getViewTransform (m_view (target w1)) in
  (taken = true <->
   m_defaultShader (target w) = None /\ n <= VertexCacheSize env
   /\ RenderStates.useVertexCache st = true)
  /\ (taken = true ->
      (forall i, i < n ->
         vertexCache (m_cache (target w')) !! i
         = Some (Vertex.mk
                   (transformPoint env (RenderStates.transform st)
                      (Vertex.position (array i)))
                   (Vertex.color (array i)) (Vertex.texCoords (array i))
                   (Vertex.normal (array i))))
      /\ (matrixMode d1 = GL_MODELVIEW ->
          modelview (replay calls d)
          = if useVertexCache (m_cache (target w1)) then modelview d1
            else Some (combine env V (Identity env))))
  /\ (taken = false ->
      vertexCache (m_cache (target w')) = vertexCache (m_cache (target w))
      /\ match m_defaultShader (target w) with
         | None =>
             matrixMode d1 = GL_MODELVIEW ->
             modelview (replay calls d)
             = Some (combine env V (RenderStates.transform st))
         | Some defaultShader =>
             In (Shader_setParameter
                   (match RenderStates.shader st with
                    | Some s => s
                    | None => defaultShader
                    end)
                   "sf_ModelMatrix" (UMatrix (RenderStates.transform st)))
               calls
         end)
  /\ (m_defaultShader (target w) <> None -> taken = false)
  /\ (glStatesSet (m_cache (target w)) = true -> w1 = activated w /\ d1 = d)
  /\ (glStatesSet (m_cache (target w)) = false ->
      activate_result env (S (activations w)) = true ->
      m_defaultShader (target w) = None ->
      matrixMode d1 = GL_MODELVIEW
      /\ useVertexCache (m_cache (target w1)) = false).
Proof.
  intros Hn Hact Hlen taken w' calls w1 d1 V.
  pose (s := VertexArray (Some array) n type st).
  assert (Hs : nothingToDraw s = false).
  { simpl. destruct n; [contradiction|reflexivity]. }
  destruct (draw_protocol env s w Hs Hact) as (Hc & Ht & _).
  change (draw env s) with (drawVertices env (Some array) n type st) in Hc, Ht.
  fold calls in Hc. fold w' in Ht. fold w1 in Hc, Ht.
  assert (Hreplay : forall rest,
            replay (issued (ensureGLStates env) (activated w) ++ rest) d
            = replay rest d1).
  { intros rest. apply replay_app. }
  assert (Htk : usesVertexCache env (target w1) n st = taken).
  { apply usesVertexCache_prepared. }
  assert (Hcache : vertexCache (m_cache (target w'))
                   = if taken
                     then storePreTransformed env (RenderStates.transform st)
                            array 0 n (vertexCache (m_cache (target w)))
                     else vertexCache (m_cache (target w))).
  { rewrite Ht. simpl. fold w1. rewrite Htk. unfold w1.
    rewrite prepared_vertexCache. reflexivity. }
  assert (Hstep : transformStep env s w1
                  = if taken then
                      if useVertexCache (m_cache (target w1)) then []
                      else issued (applyTransform env (Identity env))
                             (afterTrack st w1)
                    else issued (applyTransform env (RenderStates.transform st))
                           (afterTrack st w1)).
  { unfold transformStep. simpl. rewrite Htk. reflexivity. }
  assert (Hlegacy : legacy w1 = legacy w).
  { unfold legacy, w1. rewrite prepared_defaultShader. reflexivity. }
  split; [|split; [|split; [|split; [|split]]]].
  - unfold taken, usesVertexCache.
    rewrite !andb_true_iff, Nat.leb_le.
    destruct (m_defaultShader (target w)); simpl; intuition congruence.
  - intros Htaken. split.
    + intros i Hi. rewrite Hcache, Htaken.
      rewrite storePreTransformed_lookup; [reflexivity| |lia].
      unfold taken, usesVertexCache in Htaken.
      rewrite !andb_true_iff, Nat.leb_le in Htaken. simpl. lia.
    + intros Hmode. rewrite Hc, Hreplay. unfold protocolCalls.
      assert (Hleg : legacy w1 = true).
      { rewrite Hlegacy. unfold taken, usesVertexCache in Htaken.
        rewrite !andb_true_iff in Htaken. apply Htaken. }
      rewrite replay_app, Hstep, Htaken.
      destruct (useVertexCache (m_cache (target w1))) eqn:Hprev.
      * rewrite replay_after_transform by assumption. reflexivity.
      * rewrite afterTrack_legacy by assumption.
        rewrite issued_applyTransform_legacy
          by (apply legacy_defaultShader, Hleg).
        destruct (replay_load (combine env V (Identity env)) d1 Hmode)
          as (Hm' & Hmv).
        rewrite replay_after_transform by assumption. exact Hmv.
  - intros Htaken. split.
    + rewrite Hcache, Htaken. reflexivity.
    + destruct (m_defaultShader (target w)) as [ds|] eqn:Hds.
      * assert (Hds1 : m_defaultShader (target w1) = Some ds).
        { unfold w1. rewrite prepared_defaultShader. exact Hds. }
        rewrite Hc. unfold protocolCalls. rewrite Hstep, Htaken.
        apply in_or_app. right. apply in_or_app. left.
        replace (match RenderStates.shader st with
                 | Some s0 => s0
                 | None => ds
                 end)
          with (uniformShader (target (afterTrack st w1)) ds).
        2:{ unfold afterTrack, uniformShader. rewrite Hds1.
            destruct (RenderStates.shader st); reflexivity. }
        apply In_applyTransform_shader.
        unfold afterTrack. rewrite Hds1.
        destruct (RenderStates.shader st); simpl; exact Hds1.
      * intros Hmode. rewrite Hc, Hreplay. unfold protocolCalls.
        assert (Hleg : legacy w1 = true).
        { rewrite Hlegacy. apply legacy_defaultShader, Hds. }
        rewrite replay_app, Hstep, Htaken.
        rewrite afterTrack_legacy by assumption.
        rewrite issued_applyTransform_legacy
          by (apply legacy_defaultShader, Hleg).
        destruct (replay_load (combine env V (RenderStates.transform st)) d1
                    Hmode) as (Hm' & Hmv).
        rewrite replay_after_transform by assumption. exact Hmv.
  - intros Hds. unfold taken, usesVertexCache.
    destruct (m_defaultShader (target w)); [reflexivity|contradiction].
  - intros Hgl. split.
    + apply prepared_set, Hgl.
    + unfold d1. rewrite issued_ensureGLStates_set by assumption. reflexivity.
  - intros Hgl Hact2 Hds. split.
    + unfold d1. rewrite issued_ensureGLStates. simpl. rewrite Hgl.
      apply matrixMode_after_reset; [|exact Hact2].
      apply legacy_defaultShader. exact Hds.
    + unfold w1. rewrite prepared_unset by assumption. unfold afterReset.
      simpl. rewrite Hact2. reflexivity.
Qed.


(** *** Which shader the uniforms go to *)

Lemma addressee_appliers w ds :
  m_defaultShader (target w) = Some ds ->
  forall c,
    In c (issued (applyTransform env (Identity env)) w
          ++ issued (applyCurrentView env) w)
    \/ (exists t, In c (issued (applyTransform env t) w))
    \/ (exists t, In c (issued (applyTexture env t) w))
    \/ (exists m, In c (issued (applyBlendMode env m) w)) ->
    forall sh, addressee c = Some sh -> sh = uniformShader (target w) ds.
Proof.
  intros Hds c Hc sh Hsh.
  assert (Htr : forall t, In c (issued (applyTransform env t) w) ->
                          sh = uniformShader (target w) ds).
  { intros t H. unfold issued, applyTransform, bind, getTarget in H.
    simpl in H. rewrite Hds in H.
    destruct (Light_isLightingEnabled env); simpl in H;
      repeat (destruct H as [H|H]; [subst c; simpl in Hsh; congruence|]);
      destruct H. }
  destruct Hc as [Hc|[(t & Hc)|[(t & Hc)|(m & Hc)]]].
  - apply in_app_iff in Hc. destruct Hc as [Hc|Hc]; [apply (Htr _ Hc)|].
    unfold issued, applyCurrentView, bind, getTarget in Hc. simpl in Hc.
    rewrite Hds in Hc. simpl in Hc.
    repeat (destruct Hc as [Hc|Hc]; [subst c; simpl in Hsh; congruence|]).
    destruct Hc.
  - apply (Htr _ Hc).
  - unfold issued, applyTexture, bind, getTarget in Hc. simpl in Hc.
    rewrite Hds in Hc. destruct t; simpl in Hc;
      repeat (destruct Hc as [Hc|Hc]; [subst c; simpl in Hsh; congruence|]);
      destruct Hc.
  - unfold issued, applyBlendMode, bind in Hc. simpl in Hc.
    destruct m, (GLEW_EXT_blend_func_separate env); simpl in Hc;
      repeat (destruct Hc as [Hc|Hc]; [subst c; simpl in Hsh; congruence|]);
      destruct Hc.
Qed.

Lemma addressee_drawNonLegacy d mode n w sh0 :
  m_currentNonLegacyShader (target w) = Some sh0 ->
  forall c, In c (issued (drawNonLegacy env d mode n) w) ->
  forall sh, addressee c = Some sh -> sh = sh0.
Proof.
  intros Hcur c Hc sh Hsh. rewrite issued_drawNonLegacy, Hcur in Hc.
  apply in_app_iff in Hc. destruct Hc as [Hc|Hc].
  - rewrite issued_setLightParameters in Hc.
    destruct (Light_isLightingEnabled env).
    + destruct Hc as [Hc|Hc]; [subst c; simpl in Hsh; congruence|].
      apply in_app_iff in Hc. destruct Hc as [Hc|Hc].
      * apply in_map_iff in Hc. destruct Hc as (l & <- & _).
        simpl in Hsh. congruence.
      * destruct Hc as [Hc|[]]. subst c. simpl in Hsh. congruence.
    + destruct Hc as [Hc|[]]. subst c. simpl in Hsh. congruence.
  - unfold issued, drawWithAttributes, when, bind in Hc.
    destruct (0 <=? _)%Z, (0 <=? _)%Z, (0 <=? _)%Z, (0 <=? _)%Z; simpl in Hc;
      repeat (destruct Hc as [Hc|Hc]; [subst c; discriminate Hsh|]);
      destruct Hc.
Qed.

(** X17. In the shader pipeline, an executed draw on a target whose
    persistent states are set sends every uniform and every light to the
    shader of the draw (the override if the states carry one, else the
    default shader), which is also the one shader it binds; when the draw
    returns no draw is in progress any more and the shader of the draw is
    recorded as the last one used. *)
Theorem uniforms_go_to_the_shader_of_the_draw (s : Submission) (w : World)
  (defaultShader : ShaderPtr) :
  m_defaultShader (target w) = Some defaultShader ->
  glStatesSet (m_cache (target w)) = true ->
  nothingToDraw s = false ->
  activate_result env (activations w) = true ->
  let shader := shaderOfDraw defaultShader s in
  let w' := final (draw env s) w in
  Forall (fun sh => sh = shader) (readAll addressee (issued (draw env s) w))
  /\ readAll shaderBound (issued (draw env s) w) = [Some shader]
  /\ m_currentNonLegacyShader (target w') = None
  /\ m_lastNonLegacyShader (target w') = Some shader.
Proof.
  intros Hds Hgl Hs Hact shader w'.
  destruct (draw_protocol env s w Hs Hact) as (Hc & Ht & _).
  rewrite prepared_set in Hc, Ht by assumption.
  rewrite issued_ensureGLStates_set in Hc by assumption. cbn [app] in Hc.
  set (w1 := activated w) in *.
  assert (Hds1 : m_defaultShader (target w1) = Some defaultShader) by exact Hds.
  assert (Hleg : legacy w1 = false) by (unfold legacy; rewrite Hds1; reflexivity).
  set (w2 := afterTrack (statesOf s) w1).
  assert (Hds2 : m_defaultShader (target w2) = Some defaultShader).
  { unfold w2, afterTrack. rewrite Hds1.
    destruct (RenderStates.shader (statesOf s)); exact Hds1. }
  assert (Hcur : m_currentNonLegacyShader (target w2) = Some shader).
  { unfold w2, afterTrack, shader, shaderOfDraw. rewrite Hds1.
    destruct (RenderStates.shader (statesOf s)); reflexivity. }
  assert (Hu : uniformShader (target w2) defaultShader = shader).
  { unfold uniformShader. rewrite Hcur. reflexivity. }
  assert (Hres : resolvedShader (target w1) (statesOf s) = Some shader).
  { unfold resolvedShader, shader, shaderOfDraw. rewrite Hds1.
    destruct (RenderStates.shader (statesOf s)); reflexivity. }
  split; [|split; [|split]].
  - assert (Hall : forall c, In c (issued (draw env s) w) ->
                     forall sh, addressee c = Some sh -> sh = shader).
    { rewrite Hc. unfold protocolCalls. intros c Hin sh Hsh.
      pose proof (addressee_appliers w2 defaultShader Hds2 c) as Happ.
      rewrite Hu in Happ.
      repeat (apply in_app_iff in Hin; destruct Hin as [Hin|Hin]).
      - apply Happ; [|exact Hsh]. right. left. fold w2 in Hin.
        unfold transformStep in Hin. fold w2 in Hin.
        destruct s as [vs n ty st | b st]; [|eauto].
        destruct (usesVertexCache _ _ _ _); [|eauto].
        destruct (useVertexCache _); [destruct Hin|eauto].
      - apply Happ; [|exact Hsh]. left. apply in_app_iff. right.
        unfold viewStep in Hin. fold w2 in Hin.
        destruct (_ || _); [exact Hin|destruct Hin].
      - apply Happ; [|exact Hsh]. right. right. right.
        unfold blendModeStep in Hin. fold w2 in Hin.
        destruct (negb _); [eauto|destruct Hin].
      - apply Happ; [|exact Hsh]. right. right. left.
        unfold textureStep in Hin. fold w2 in Hin.
        destruct (_ || _); [eauto|destruct Hin].
      - unfold shaderStep in Hin. destruct (resolvedShader _ _);
          [destruct Hin as [Hin|[]]; subst c; discriminate Hsh|destruct Hin].
      - unfold vertexSourceStep in Hin. destruct s as [vs n ty st | b st];
          destruct (negb _);
          try (destruct Hin as [Hin|[]]; subst c; discriminate Hsh);
          destruct Hin.
      - unfold drawStep in Hin. rewrite Hleg in Hin. fold w2 in Hin.
        apply (addressee_drawNonLegacy _ _ _ w2 shader Hcur c Hin sh Hsh).
      - unfold unbindStep in Hin. rewrite Hleg, andb_false_r in Hin.
        destruct Hin. }
    clear Hc. induction (issued (draw env s) w) as [|c l IH]; [constructor|].
    simpl. destruct (addressee c) as [sh|] eqn:E.
    + constructor; [apply (Hall c (or_introl eq_refl) sh E)|].
      apply IH. intros c' Hc'. apply Hall. right. exact Hc'.
    + apply IH. intros c' Hc'. apply Hall. right. exact Hc'.
  - rewrite Hc. unfold protocolCalls. rewrite !readAll_app.
    assert (Hq' : forall l, count ShaderApply l = 0 -> readAll shaderBound l = []).
    { induction l as [|c l IH]; [reflexivity|]. simpl. intros Hn.
      destruct c; simpl in Hn; try discriminate; simpl; try (apply IH; exact Hn).
      destruct (String.eqb _ _); apply IH; exact Hn. }
    rewrite (Hq' (transformStep _ _ _))
      by (apply count_transformStep; discriminate).
    rewrite (Hq' (viewStep _ _ _)).
    2:{ rewrite count_viewStep by discriminate. destruct (_ || _); reflexivity. }
    rewrite (Hq' (blendModeStep _ _ _)).
    2:{ rewrite count_blendModeStep. destruct (negb _); reflexivity. }
    rewrite (Hq' (textureStep _ _ _)).
    2:{ rewrite count_textureStep by discriminate. destruct (_ || _); reflexivity. }
    rewrite (Hq' (vertexSourceStep _ _)).
    2:{ rewrite count_vertexSourceStep. destruct (negb _); reflexivity. }
    rewrite (Hq' (drawStep _ _ _)) by (rewrite count_drawStep by discriminate; reflexivity).
    rewrite (Hq' (unbindStep _ _)).
    2:{ rewrite count_unbindStep, Hleg, andb_false_r. reflexivity. }
    unfold shaderStep. rewrite Hres. reflexivity.
  - unfold w'. rewrite Ht. cbn [protocolTarget m_currentNonLegacyShader].
    rewrite Hleg. reflexivity.
  - unfold w'. rewrite Ht. cbn [protocolTarget m_lastNonLegacyShader].
    rewrite Hleg. exact Hres.
Qed.


(** *** The warning setting of the shaders *)

Lemma prepared_warnMissingSetting w :
  warnMissingSetting (prepared env w) = warnMissingSetting w.
Proof.
  destruct (glStatesSet (m_cache (target w))) eqn:E.
  - rewrite prepared_set by assumption. reflexivity.
  - rewrite prepared_unset by assumption. unfold afterReset.
    cbn [activated activations target warnMissingSetting].
    destruct (activate_result env (S (activations w))); reflexivity.
Qed.

Ltac restore_warning :=
  first
    [ solve [absurd_test]
    | tidy; intros x; try reflexivity;
      match goal with
      | |- context [Nat.eqb x ?s] => destruct (Nat.eqb_spec x s); subst; reflexivity
      end ].

Lemma drawVertexBuffer_warnMissingSetting b st w x :
  warnMissingSetting (final (drawVertexBuffer env b st) w) x
  = warnMissingSetting w x.
Proof.
  revert x.
  change (wp (drawVertexBuffer env b st)
            (fun _ w' _ => forall x, warnMissingSetting w' x = warnMissingSetting w x)
            w).
  unfold drawVertexBuffer.
  destruct (Nat.eqb (VertexBuffer.getVertexCount b) 0); [intros x; reflexivity|].
  wp_step. wp_step. destruct (activate_result env (activations w));
    [|intros x; reflexivity].
  wp_step. apply wp_block with (w' := prepared env w); [reflexivity|].
  rewrite <- (prepared_warnMissingSetting w).
  generalize (issued (ensureGLStates env) (activated w)) as c0.
  generalize (prepared env w) as w1. intros w1 c0.
  destruct w1 as [[dv v [gs vc lb lt lv uvc cache] dt cd ds cur last] acts warn].
  destruct st as [tr bm tx sh uv].
  destruct ds, sh; wp_run; restore_warning.
Qed.

Lemma drawVertices_warnMissingSetting vs n type st w x :
  warnMissingSetting (final (drawVertices env vs n type st) w) x
  = warnMissingSetting w x.
Proof.
  revert x.
  change (wp (drawVertices env vs n type st)
            (fun _ w' _ => forall x, warnMissingSetting w' x = warnMissingSetting w x)
            w).
  unfold drawVertices. destruct vs as [array|]; [|intros x; reflexivity].
  destruct (Nat.eqb n 0); [intros x; reflexivity|].
  wp_step. wp_step. destruct (activate_result env (activations w));
    [|intros x; reflexivity].
  wp_step. apply wp_block with (w' := prepared env w); [reflexivity|].
  rewrite <- (prepared_warnMissingSetting w).
  generalize (issued (ensureGLStates env) (activated w)) as c0.
  generalize (prepared env w) as w1. intros w1 c0.
  destruct w1 as [[dv v [gs vc lb lt lv uvc cache] dt cd ds cur last] acts warn].
  destruct st as [tr bm tx sh uv].
  destruct ds, sh; wp_run; restore_warning.
Qed.

Lemma perform_warnMissingSetting op w x :
  warnMissingSetting (final (perform env op) w) x = warnMissingSetting w x.
Proof.
  destruct op; cbn [perform].
  - rewrite final_clear. reflexivity.
  - unfold enableDepthTest. rewrite final_bind, final_modifyTarget.
    destruct enable; reflexivity.
  - reflexivity.
  - destruct s as [vs n ty st | b st]; cbn [draw].
    + apply drawVertices_warnMissingSetting.
    + apply drawVertexBuffer_warnMissingSetting.
  - rewrite final_pushGLStates, final_resetGLStates. unfold afterReset.
    destruct (activate_result env _); reflexivity.
  - rewrite final_popGLStates. reflexivity.
  - rewrite final_resetGLStates. unfold afterReset.
    destruct (activate_result env _); reflexivity.
Qed.

(** X18. After any sequence of operations every shader has the
    missing-parameter warning setting it had before: no operation leaves
    the warning of a shader switched off, or on, when it returns. *)
Theorem warning_setting_is_restored (ops : list Operation) (w : World)
  (shader : ShaderPtr) :
  warnMissingSetting (final (performAll env ops) w) shader
  = warnMissingSetting w shader.
Proof.
  revert w. induction ops as [|op ops IH]; intros w; [reflexivity|].
  rewrite final_performAll_cons, IH. apply perform_warnMissingSetting.
Qed.


(** *** Applying the view *)

Lemma readAll_viewport_quiet l :
  count ViewApply l = 0 -> readAll viewportSet l = [].
Proof.
  induction l as [|c l IH]; [reflexivity|]. simpl. intros H.
  destruct c; simpl in H; try discriminate; simpl; try (apply IH; exact H).
  destruct (String.eqb _ _); apply IH; exact H.
Qed.

Lemma viewport_applyCurrentView w :
  readAll viewportSet (issued (applyCurrentView env) w)
  = [deviceViewport env (m_view (target w))].
Proof.
  unfold issued, applyCurrentView, deviceViewport, bind, getTarget. simpl.
  destruct (m_defaultShader (target w)); reflexivity.
Qed.

Lemma shaderChanges_shaderOfDraw t s :
  shaderChanges t (statesOf s)
  = match m_defaultShader t with
    | Some defaultShader =>
        negb (samePointer (Some (shaderOfDraw defaultShader s))
                (m_lastNonLegacyShader t))
    | None => false
    end.
Proof.
  unfold shaderChanges, resolvedShader, shaderOfDraw.
  destruct (m_defaultShader t), (RenderStates.shader (statesOf s)); reflexivity.
Qed.

(** X19. On a target whose persistent states are set, an executed draw
    sets the viewport of the device exactly when a view change is pending
    or, in the shader pipeline, the shader of the draw (the override, else
    the default shader) is not the one the previous draw recorded; in the
    legacy pipeline only a pending view change does, whatever the shader
    overrides of the two draws.  It then sets it once: to the rectangle of
    the current view, with its vertical position counted from the bottom of
    the surface.  Either way no view change is pending afterwards.  For a
    view that covers a surface of up to 16384 pixels a side, that rectangle
    is the whole surface. *)
Theorem pending_view_is_applied_once (s : Submission) (w : World) :
  glStatesSet (m_cache (target w)) = true ->
  nothingToDraw s = false ->
  activate_result env (activations w) = true ->
  readAll viewportSet (issued (draw env s) w)
  = (if match m_defaultShader (target w) with
        | Some defaultShader =>
            negb (samePointer (Some (shaderOfDraw defaultShader s))
                    (m_lastNonLegacyShader (target w)))
        | None => false
        end
        || viewChanged (m_cache (target w))
     then [deviceViewport env (m_view (target w))] else [])
  /\ viewChanged (m_cache (target (final (draw env s) w))) = false
  /\ (forall width height,
        (0 <= width <= 16384)%Z -> (0 <= height <= 16384)%Z ->
        getSize env = Vector2u.mk width height ->
        View.getViewport (m_view (target w))
        = FloatRect.mk Float32.zero Float32.zero Float32.one Float32.one ->
        deviceViewport env (m_view (target w)) = (0, 0, width, height)%Z).
Proof.
  intros Hgl Hs Hact.
  destruct (draw_protocol env s w Hs Hact) as (Hc & Ht & _).
  rewrite prepared_set in Hc, Ht by assumption.
  rewrite issued_ensureGLStates_set in Hc by assumption. cbn [app] in Hc.
  rewrite <- shaderChanges_shaderOfDraw.
  split; [|split].
  - rewrite Hc. unfold protocolCalls. rewrite !readAll_app.
    rewrite (readAll_viewport_quiet (transformStep _ _ _))
      by (apply count_transformStep; discriminate).
    rewrite (readAll_viewport_quiet (blendModeStep _ _ _)).
    2:{ rewrite count_blendModeStep. destruct (negb _); reflexivity. }
    rewrite (readAll_viewport_quiet (textureStep _ _ _)).
    2:{ rewrite count_textureStep by discriminate. destruct (_ || _); reflexivity. }
    rewrite (readAll_viewport_quiet (shaderStep _ _)).
    2:{ rewrite count_shaderStep. destruct (isNull _); reflexivity. }
    rewrite (readAll_viewport_quiet (vertexSourceStep _ _)).
    2:{ rewrite count_vertexSourceStep. destruct (negb _); reflexivity. }
    rewrite (readAll_viewport_quiet (drawStep _ _ _))
      by (rewrite count_drawStep by discriminate; reflexivity).
    rewrite (readAll_viewport_quiet (unbindStep _ _)).
    2:{ rewrite count_unbindStep. destruct (_ && _); reflexivity. }
    cbn [app]. rewrite app_nil_r. unfold viewStep.
    cbn [activated target].
    destruct (_ || _); [|reflexivity].
    rewrite viewport_applyCurrentView. f_equal. f_equal.
    unfold afterTrack. cbn [activated target].
    destruct (m_defaultShader (target w)); [|reflexivity].
    destruct (RenderStates.shader (statesOf s)); reflexivity.
  - rewrite Ht. reflexivity.
  - intros width height Hw Hh Hsize Hview. unfold deviceViewport.
    rewrite (full_view_viewport env _ width height Hw Hh Hsize Hview).
    rewrite Hsize. cbn [IntRect.left IntRect.top IntRect.width IntRect.height
                        Vector2u.y].
    replace (height - (0 + height))%Z with 0%Z by lia. reflexivity.
Qed.


(** *** Pixels and coordinates *)

Lemma mapPixelToCoords_stages point view :
  mapPixelToCoords env point view
  = transformPoint2 env (View.getInverseTransform view)
      (Vector2f.mk
         (normalizedX (Vector2i.x point - IntRect.left (getViewport env view))
            (IntRect.width (getViewport env view)))
         (normalizedY (Vector2i.y point - IntRect.top (getViewport env view))
            (IntRect.height (getViewport env view)))).
Proof. reflexivity. Qed.

Lemma mapCoordsToPixel_stages point view :
  mapCoordsToPixel env point view
  = let normalized :=
      transformPoint env
        (combine env (View.getTransform view) (View.getViewTransform view))
        point in
    Vector2i.mk
      (pixelX (Vector3f.x normalized) (IntRect.width (getViewport env view))
         (IntRect.left (getViewport env view)))
      (pixelY (Vector3f.y normalized) (IntRect.height (getViewport env view))
         (IntRect.top (getViewport env view))).
Proof. reflexivity. Qed.

Lemma edges_exact size :
  (1 <= size <= 16384)%Z -> edgesExact size = true.
Proof.
  assert (Hall : forallb edgesExact (zrange 1 (N.to_nat 16384)) = true)
    by (vm_compute; reflexivity).
  intros H. apply (forallb_zrange _ _ _ Hall). rewrite N_nat_Z. lia.
Qed.

(** X20. [mapPixelToCoords] sends the corners of the viewport of the view
    to the corners of the normalized square before it applies the inverse
    transform of the view: the top-left pixel of the viewport to (-1, 1)
    and the pixel just past its bottom-right corner to (1, -1), exactly,
    for every viewport of 1 to 16384 pixels a side wherever it lies. *)
Theorem viewport_corners_are_normalized (view : View) :
  let viewport := getViewport env view in
  (1 <= IntRect.width viewport <= 16384)%Z ->
  (1 <= IntRect.height viewport <= 16384)%Z ->
  mapPixelToCoords env
    (Vector2i.mk (IntRect.left viewport) (IntRect.top viewport)) view
  = transformPoint2 env (View.getInverseTransform view)
      (Vector2f.mk (Float32.opp Float32.one) Float32.one)
  /\ mapPixelToCoords env
       (Vector2i.mk (IntRect.left viewport + IntRect.width viewport)
          (IntRect.top viewport + IntRect.height viewport)) view
     = transformPoint2 env (View.getInverseTransform view)
         (Vector2f.mk Float32.one (Float32.opp Float32.one)).
Proof.
  intros viewport Hw Hh.
  pose proof (edges_exact _ Hw) as Ew. pose proof (edges_exact _ Hh) as Eh.
  unfold edgesExact in Ew, Eh.
  repeat (apply andb_true_iff in Ew; destruct Ew as [Ew ?]).
  repeat (apply andb_true_iff in Eh; destruct Eh as [Eh ?]).
  rewrite !mapPixelToCoords_stages. fold viewport.
  cbn [Vector2i.x Vector2i.y].
  replace (IntRect.left viewport - IntRect.left viewport)%Z with 0%Z by lia.
  replace (IntRect.top viewport - IntRect.top viewport)%Z with 0%Z by lia.
  replace (IntRect.left viewport + IntRect.width viewport
           - IntRect.left viewport)%Z with (IntRect.width viewport) by lia.
  replace (IntRect.top viewport + IntRect.height viewport
           - IntRect.top viewport)%Z with (IntRect.height viewport) by lia.
  split; f_equal; f_equal; apply same_float_eq; assumption.
Qed.

(** X21. [mapPixelToCoords] does not guard against an empty viewport: when
    the viewport of the view is 0 pixels wide, the horizontal coordinate it
    hands to the inverse transform for a pixel on the left edge is not a
    number (0/0), and likewise vertically for a viewport 0 pixels high. *)
Theorem empty_viewport_is_not_guarded (view : View) (point : Vector2i) :
  let viewport := getViewport env view in
  (IntRect.width viewport = 0%Z ->
   Vector2i.x point = IntRect.left viewport ->
   exists y,
     mapPixelToCoords env point view
     = transformPoint2 env (View.getInverseTransform view)
         (Vector2f.mk S754_nan y))
  /\ (IntRect.height viewport = 0%Z ->
      Vector2i.y point = IntRect.top viewport ->
      exists x,
        mapPixelToCoords env point view
        = transformPoint2 env (View.getInverseTransform view)
            (Vector2f.mk x S754_nan)).
Proof.
  intros viewport. split; intros Hsize Hpoint;
    rewrite mapPixelToCoords_stages; fold viewport;
    rewrite Hsize, Hpoint, Z.sub_diag; eexists; reflexivity.
Qed.

(** X22. [mapCoordsToPixel] sends a point that the transforms of the view
    take to a corner of the normalized square to the matching corner of the
    viewport, exactly, for a viewport that starts at the origin of the
    surface and is 1 to 16384 pixels a side: (-1, 1) to the pixel (0, 0) and
    (1, -1) to the pixel (width, height). *)
Theorem normalized_corners_are_pixels (view : View) (point : Vector3f)
  (width height : Z) :
  (1 <= width <= 16384)%Z -> (1 <= height <= 16384)%Z ->
  getViewport env view = IntRect.mk 0 0 width height ->
  let normalized :=
    transformPoint env
      (combine env (View.getTransform view) (View.getViewTransform view))
      point in
  (Vector3f.x normalized = Float32.opp Float32.one ->
   Vector3f.y normalized = Float32.one ->
   mapCoordsToPixel env point view = Vector2i.mk 0 0)
  /\ (Vector3f.x normalized = Float32.one ->
      Vector3f.y normalized = Float32.opp Float32.one ->
      mapCoordsToPixel env point view = Vector2i.mk width height).
Proof.
  intros Hw Hh Hv normalized.
  pose proof (edges_exact _ Hw) as Ew. pose proof (edges_exact _ Hh) as Eh.
  unfold edgesExact in Ew, Eh.
  repeat (apply andb_true_iff in Ew; destruct Ew as [Ew ?]).
  repeat (apply andb_true_iff in Eh; destruct Eh as [Eh ?]).
  split; intros Hx Hy; rewrite mapCoordsToPixel_stages; cbv zeta;
    fold normalized; rewrite Hv, Hx, Hy;
    cbn [IntRect.left IntRect.top IntRect.width IntRect.height];
    f_equal; apply Z.eqb_eq; assumption.
Qed.




End Further.

Section Setup.

Variable env : Env.

(** *** [initialize] *)

(** X24. [initialize] makes the default view cover the surface, makes it
    the current view and marks the persistent states as not set, so that the
    next draw sets them; it asks for no activation and issues no call to the
    device.  The only thing it ever reports is the failure to compile the
    default shader: the other reasons for staying with the legacy pipeline
    are silent. *)
Theorem initialize_prepares_the_target (w : World) :
  let w' := final (initialize env) w in
  m_defaultView (target w')
  = View_reset env (m_defaultView (target w))
      (FloatRect.mk Float32.zero Float32.zero
         (Float32.of_int (Vector2u.x (getSize env)))
         (Float32.of_int (Vector2u.y (getSize env))))
  /\ m_view (target w') = m_defaultView (target w')
  /\ glStatesSet (m_cache (target w')) = false
  /\ activations w' = activations w
  /\ issued (initialize env) w
     = (if Light_hasShaderLighting env && negb (SFML_LEGACY_GL env)
           && SFltb version_threshold (supportedVersionNumber env)
           && negb (loadFromMemory_default env)
        then [err "Compiling default shader failed. Falling back to legacy pipeline..."]
        else []).
Proof.
  change (wp (initialize env)
            (fun _ w' c =>
               m_defaultView (target w')
               = View_reset env (m_defaultView (target w))
                   (FloatRect.mk Float32.zero Float32.zero
                      (Float32.of_int (Vector2u.x (getSize env)))
                      (Float32.of_int (Vector2u.y (getSize env))))
               /\ m_view (target w') = m_defaultView (target w')
               /\ glStatesSet (m_cache (target w')) = false
               /\ activations w' = activations w
               /\ c = (if Light_hasShaderLighting env && negb (SFML_LEGACY_GL env)
                          && SFltb version_threshold (supportedVersionNumber env)
                          && negb (loadFromMemory_default env)
                       then [err "Compiling default shader failed. Falling back to legacy pipeline..."]
                       else [])) w).
  unfold initialize, setupNonLegacyPipeline.
  destruct (Light_hasShaderLighting env), (SFML_LEGACY_GL env),
    (SFltb version_threshold (supportedVersionNumber env)),
    (loadFromMemory_default env); cbn [negb andb];
    wp_run; repeat split;
    try match goal with
        | H : SFltb version_threshold (S754_zero false) = true |- _ =>
            vm_compute in H; discriminate H
        end;
    try reflexivity; try discriminate.
Qed.


End Setup.

(** ** The default shader program *)

Lemma string_append_assoc (a b c : string) : ((a ++ b) ++ c = a ++ (b ++ c))%string.
Proof. induction a as [|x a IH]; simpl; [reflexivity|]. rewrite IH. reflexivity. Qed.

Lemma linesOf_nonempty text : linesOf text <> [].
Proof.
  destruct text as [|c rest]; simpl; [discriminate|].
  destruct (Ascii.eqb c _); [discriminate|].
  destruct (linesOf rest); discriminate.
Qed.

(** The linesOf of two texts put end to end: the last line of the first runs
    into the first line of the second. *)
Lemma linesOf_append a b :
  linesOf (a ++ b)
  = removelast (linesOf a)
    ++ (List.last (linesOf a) EmptyString ++ hd EmptyString (linesOf b))%string
       :: tl (linesOf b).
Proof.
  induction a as [|c a IH].
  - simpl. destruct (linesOf b) eqn:E; [destruct (linesOf_nonempty b E)|reflexivity].
  - cbn [String.append linesOf]. rewrite IH.
    destruct (Ascii.eqb c "010"%char).
    + pose proof (linesOf_nonempty a) as Hne.
      destruct (linesOf a) as [|x [|y rest]]; [contradiction|reflexivity|reflexivity].
    + pose proof (linesOf_nonempty a) as Hne.
      destruct (linesOf a) as [|x [|y rest]]; [contradiction|reflexivity|reflexivity].
Qed.

Lemma linesOf_digits d :
  linesOf (NilEmpty.string_of_uint d) = [NilEmpty.string_of_uint d].
Proof. induction d; simpl; try rewrite IHd; reflexivity. Qed.

Lemma linesOf_number n :
  linesOf (NilZero.string_of_uint (Nat.to_uint n))
  = [NilZero.string_of_uint (Nat.to_uint n)].
Proof.
  unfold NilZero.string_of_uint.
  destruct (Nat.to_uint n); try reflexivity; apply linesOf_digits.
Qed.

Lemma declarations_app qualifier l1 l2 :
  declarations qualifier (l1 ++ l2)
  = declarations qualifier l1 ++ declarations qualifier l2.
Proof.
  induction l1 as [|t l1 IH]; [reflexivity|]. simpl. rewrite IH.
  destruct (declaration qualifier t); reflexivity.
Qed.

(** What a text declares when a number is set into one of its linesOf. *)
Lemma declared_around_number qualifier head n tail :
  declared qualifier
    (head ++ NilZero.string_of_uint (Nat.to_uint n) ++ tail)
  = declarations qualifier (removelast (linesOf head))
    ++ declarations qualifier
         [(List.last (linesOf head) EmptyString
           ++ NilZero.string_of_uint (Nat.to_uint n)
           ++ hd EmptyString (linesOf tail))%string]
    ++ declarations qualifier (tl (linesOf tail)).
Proof.
  unfold declared.
  rewrite linesOf_append, (linesOf_append (NilZero.string_of_uint _) tail),
    linesOf_number.
  cbn [removelast List.last hd tl app].
  rewrite declarations_app.
  change (?x :: tl (linesOf tail)) with ([x] ++ tl (linesOf tail)).
  rewrite declarations_app. reflexivity.
Qed.

Lemma known_uniform_names name :
  existsb (String.eqb name)
    ["sf_ProjectionMatrix"; "sf_ViewMatrix"; "sf_ModelMatrix";
     "sf_NormalMatrix"; "sf_TextureMatrix"; "sf_Texture0"; "sf_TextureEnabled"]
  = true
  \/ existsb (String.eqb name) ["sf_LightCount"; "sf_ViewerPosition"] = true ->
  existsb (String.eqb name) uniformsSet = true.
Proof.
  intros [H|H]; simpl in H;
    repeat (apply orb_true_iff in H; destruct H as [H|H]);
    try discriminate; apply String.eqb_eq in H; subst; reflexivity.
Qed.

Lemma known_protocolCall b c :
  protocolCall b c = true -> setsKnownUniform c = true.
Proof.
  destruct c; try reflexivity. unfold protocolCall, applierCall, setsKnownUniform.
  intros H. apply known_uniform_names.
  apply orb_true_iff in H. destruct H as [H|H];
    apply andb_true_iff in H; destruct H as [_ H]; auto.
Qed.

Lemma known_resetCall b c :
  resetCall b c = true -> setsKnownUniform c = true.
Proof.
  destruct c; try reflexivity. unfold resetCall, applierCall, setsKnownUniform.
  cbn [persistentStateCall]. rewrite orb_false_r.
  intros H. apply known_uniform_names.
  apply andb_true_iff in H. destruct H as [_ H]. auto.
Qed.

Section Program.

Variable env : Env.

Lemma known_perform op w :
  Forall (fun c => setsKnownUniform c = true) (issued (perform env op) w).
Proof.
  destruct op; cbn [perform].
  - rewrite issued_clear. destruct (activate_result env _); repeat constructor.
  - unfold enableDepthTest. rewrite issued_bind, issued_modifyTarget.
    destruct enable; repeat constructor.
  - constructor.
  - destruct (nothingToDraw s) eqn:Hs.
    { unfold issued. rewrite draw_nothing by assumption. constructor. }
    destruct (activate_result env (activations w)) eqn:Hact.
    2:{ unfold issued. rewrite draw_inactive by assumption. constructor. }
    destruct (draw_protocol env s w Hs Hact) as (Hc & _). rewrite Hc.
    apply Forall_app. split.
    + apply (List.Forall_impl _ (known_resetCall (legacy w))).
      apply resetCall_ensureGLStates.
    + apply (List.Forall_impl _ (known_protocolCall (legacy (prepared env w)))).
      apply protocolCall_protocolCalls.
  - rewrite issued_pushGLStates. apply Forall_app. split.
    + destruct (activate_result env _); repeat constructor.
    + apply (List.Forall_impl _ (known_resetCall (legacy (activated w)))).
      apply resetCall_resetGLStates.
  - rewrite issued_popGLStates. destruct (activate_result env _); [|constructor].
    destruct (isNull _); repeat constructor.
  - apply (List.Forall_impl _ (known_resetCall (legacy w))).
    apply resetCall_resetGLStates.
Qed.

Lemma known_performAll ops w :
  Forall (fun c => setsKnownUniform c = true) (issued (performAll env ops) w).
Proof.
  revert w. induction ops as [|op ops IH]; intros w; [constructor|].
  rewrite issued_performAll_cons. apply Forall_app. split.
  - apply known_perform.
  - apply IH.
Qed.

Lemma uniformsSet_declared :
  incl uniformsSet
    (declared "uniform" vertexShaderSource
     ++ declared "uniform" (fragmentShaderSource env)).
Proof.
  unfold fragmentShaderSource. rewrite declared_around_number.
  set (middle := declarations "uniform" [_]).
  set (before := declarations "uniform" (removelast (linesOf _))).
  set (after := declarations "uniform" (tl (linesOf _))).
  assert (Hv : declared "uniform" vertexShaderSource
               = ["sf_ModelMatrix"; "sf_ViewMatrix"; "sf_ProjectionMatrix";
                  "sf_TextureMatrix"; "sf_TextureEnabled"; "sf_LightCount"])
    by (vm_compute; reflexivity).
  assert (Hb : before = ["sf_ModelMatrix"; "sf_NormalMatrix"; "sf_Texture0";
                         "sf_TextureEnabled"])
    by (vm_compute; reflexivity).
  assert (Ha : after = ["sf_LightCount"; "sf_ViewerPosition"])
    by (vm_compute; reflexivity).
  rewrite Hv, Hb, Ha. clearbody middle.
  intros name Hin. unfold uniformsSet in Hin.
  repeat (destruct Hin as [<-|Hin];
          [rewrite !in_app_iff; simpl; tauto|]).
  destruct Hin.
Qed.

(** X25. The default shader program fits the code that drives it, however
    many lights it is built for: every uniform the target ever sets is
    declared as a uniform by its vertex or its fragment stage, the inputs of
    its vertex stage are exactly the four attributes the draw code looks up,
    and the inputs of its fragment stage are exactly the outputs of its
    vertex stage. *)
Theorem default_program_fits_the_target (ops : list Operation) (w : World) :
  Forall
    (fun c =>
       match c with
       | Shader_setParameter _ name _ =>
           In name (declared "uniform" vertexShaderSource
                    ++ declared "uniform" (fragmentShaderSource env))
       | _ => True
       end)
    (issued (performAll env ops) w)
  /\ declared "in" vertexShaderSource = attributesLookedUp
  /\ declared "in" (fragmentShaderSource env) = declared "out" vertexShaderSource.
Proof.
  split; [|split].
  - apply (List.Forall_impl _ (P := fun c => setsKnownUniform c = true));
      [|apply known_performAll].
    intros c H. destruct c; try exact I. unfold setsKnownUniform in H.
    apply uniformsSet_declared. apply existsb_exists in H.
    destruct H as (n & Hn & E). apply String.eqb_eq in E. subst. exact Hn.
  - vm_compute. reflexivity.
  - unfold fragmentShaderSource. rewrite declared_around_number.
    vm_compute. reflexivity.
Qed.

End Program.

(** ** Instances of the further properties *)

Lemma refused_activation_is_noop_witness :
  activate_result Cases.refusingEnv (activations Sample.legacyWorld) = false
  /\ issued (draw Cases.refusingEnv Scenario.cachedDraw) Sample.legacyWorld = []
  /\ popGLStates Cases.refusingEnv Sample.legacyWorld
     = (tt, activated Sample.legacyWorld, []).
Proof.
  pose proof (refused_activation_is_noop Cases.refusingEnv Sample.legacyWorld
                eq_refl) as (_ & Hdraw & Hpop & _).
  split; [reflexivity|]. split; [apply Hdraw | exact Hpop].
Defined.

Lemma depth_test_setting_persists_witness :
  forallb (fun op => negb (isEnableDepthTest op))
    [OpDraw Scenario.cachedDraw; OpResetGLStates] = true
  /\ m_depthTest
       (target
          (final (performAll Sample.legacyEnv
                    [OpDraw Scenario.cachedDraw; OpResetGLStates])
             (final (enableDepthTest true) Sample.legacyWorld))) = true.
Proof.
  split; [reflexivity|].
  exact (proj1 (proj2 (proj2
           (depth_test_setting_persists Sample.legacyEnv true
              [OpDraw Scenario.cachedDraw; OpResetGLStates] Sample.legacyWorld
              eq_refl)))).
Defined.

Lemma clear_colour_levels_witness :
  activate_result Sample.legacyEnv (activations Sample.legacyWorld) = true
  /\ SFltb (clearComponent 127) (clearComponent 128) = true.
Proof.
  split; [reflexivity|].
  apply (proj2 (proj2 (proj2 (proj2
           (clear_colour_levels Sample.legacyEnv Sample.white
              Sample.legacyWorld eq_refl))))); lia.
Defined.

Lemma reset_establishes_defaults_witness :
  activate_result Sample.legacyEnv (activations Scenario.afterBufferDraw) = true
  /\ lastVertexBufferId (m_cache (target Scenario.afterBufferDraw)) = 7%N
  /\ lastVertexBufferId
       (m_cache (target (final (resetGLStates Sample.legacyEnv)
                           Scenario.afterBufferDraw))) = 0%N.
Proof.
  split; [reflexivity|]. split; [reflexivity|].
  exact (f_equal lastVertexBufferId
           (proj1 (proj2 (reset_establishes_defaults Sample.legacyEnv
                            Scenario.afterBufferDraw eq_refl)))).
Defined.

Lemma cached_texture_is_coherent_witness :
  m_defaultShader (target Sample.legacyWorld) = None
  /\ lastWhere textureBound
       (issued (performAll Sample.legacyEnv
                  [OpDraw Scenario.firstTextured; OpDraw Scenario.secondTextured])
          Sample.legacyWorld) = Some (Some Sample.texture2)
  /\ lastTextureId
       (m_cache
          (target
             (final (performAll Sample.legacyEnv
                       [OpDraw Scenario.firstTextured;
                        OpDraw Scenario.secondTextured])
                Sample.legacyWorld))) = 2%N.
Proof.
  assert (H : lastWhere textureBound
                (issued (performAll Sample.legacyEnv
                           [OpDraw Scenario.firstTextured;
                            OpDraw Scenario.secondTextured])
                   Sample.legacyWorld) = Some (Some Sample.texture2))
    by reflexivity.
  split; [reflexivity|]. split; [exact H|].
  pose proof (cached_texture_is_coherent Sample.legacyEnv
                [OpDraw Scenario.firstTextured; OpDraw Scenario.secondTextured]
                Sample.legacyWorld eq_refl) as Hc.
  rewrite H in Hc. exact Hc.
Defined.

Lemma attribute_arrays_released_witness :
  m_defaultShader (target Sample.shaderWorld) = Some 1
  /\ nothingToDraw Cases.overriding = false
  /\ activate_result Cases.litEnv (activations Sample.shaderWorld) = true
  /\ attributeLocations Cases.litEnv 5 = [0; 1; 2]%Z
  /\ afterDraw (issued (draw Cases.litEnv Cases.overriding) Sample.shaderWorld)
     = [glDisableVertexAttribArrayARB 0; glDisableVertexAttribArrayARB 1;
        glDisableVertexAttribArrayARB 2].
Proof.
  split; [reflexivity|]. split; [reflexivity|]. split; [reflexivity|].
  split; [reflexivity|].
  exact (proj2 (proj2 (attribute_arrays_released Cases.litEnv Cases.overriding
                         Sample.shaderWorld 1 eq_refl eq_refl eq_refl))).
Defined.

Lemma attribute_pointer_layout_witness :
  m_defaultShader (target Sample.shaderWorld) = Some 1
  /\ nothingToDraw Cases.overriding = false
  /\ activate_result Cases.litEnv (activations Sample.shaderWorld) = true
  /\ readAll attributePointer
       (issued (draw Cases.litEnv Cases.overriding) Sample.shaderWorld)
     = [(0, 3, GL_FLOAT, false, 36, {| base := None; offset := 0 |});
        (1, 4, GL_UNSIGNED_BYTE, true, 36,
         {| base := Some CallerVertices; offset := 12 |});
        (2, 2, GL_FLOAT, false, 36,
         {| base := Some CallerVertices; offset := 16 |})]%Z.
Proof.
  split; [reflexivity|]. split; [reflexivity|]. split; [reflexivity|].
  exact (attribute_pointer_layout Cases.litEnv Cases.overriding
           Sample.shaderWorld 1 eq_refl eq_refl eq_refl).
Defined.

Lemma light_count_matches_uploads_witness :
  m_defaultShader (target Sample.shaderWorld) = Some 1
  /\ nothingToDraw Cases.overriding = false
  /\ activate_result Cases.litEnv (activations Sample.shaderWorld) = true
  /\ readAll lightCall
       (issued (draw Cases.litEnv Cases.overriding) Sample.shaderWorld)
     = [Shader_setParameter 5 "sf_LightCount" (UInt 2);
        Light_addToShader 3 5; Light_addToShader 4 5;
        Shader_setParameter 5 "sf_ViewerPosition"
          (UVector3 (View.getPosition Sample.view))].
Proof.
  split; [reflexivity|]. split; [reflexivity|]. split; [reflexivity|].
  exact (proj1 (light_count_matches_uploads Cases.litEnv Cases.overriding
                  Sample.shaderWorld 1 eq_refl eq_refl eq_refl)).
Defined.

Lemma persistent_states_stay_set_witness :
  glStatesSet (m_cache (target Sample.legacyWorld)) = true
  /\ forallb leavesStatesAlone
       [OpDraw Scenario.cachedDraw; OpClear Sample.white; OpPopGLStates;
        OpDraw Scenario.movedBufferDraw] = true
  /\ glStatesSet
       (m_cache
          (target
             (final (performAll Sample.legacyEnv
                       [OpDraw Scenario.cachedDraw; OpClear Sample.white;
                        OpPopGLStates; OpDraw Scenario.movedBufferDraw])
                Sample.legacyWorld))) = true.
Proof.
  split; [reflexivity|]. split; [reflexivity|].
  exact (proj1 (persistent_states_stay_set Sample.legacyEnv
                  [OpDraw Scenario.cachedDraw; OpClear Sample.white;
                   OpPopGLStates; OpDraw Scenario.movedBufferDraw]
                  Sample.legacyWorld eq_refl eq_refl)).
Defined.

Lemma first_draw_sets_states_witness :
  glStatesSet (m_cache (target Sample.freshWorld)) = false
  /\ nothingToDraw Scenario.cachedDraw = false
  /\ activate_result Sample.legacyEnv (activations Sample.freshWorld) = true
  /\ activate_result Sample.legacyEnv (S (activations Sample.freshWorld)) = true
  /\ hd_error (issued (draw Sample.legacyEnv Scenario.cachedDraw) Sample.freshWorld)
     = Some ensureGlewInit
  /\ glStatesSet
       (m_cache (target (final (draw Sample.legacyEnv Scenario.cachedDraw)
                           Sample.freshWorld))) = true.
Proof.
  pose proof (first_draw_sets_states Sample.legacyEnv Scenario.cachedDraw
                Sample.freshWorld eq_refl eq_refl eq_refl eq_refl)
    as (_ & Hhd & Hset & _).
  split; [reflexivity|]. split; [reflexivity|]. split; [reflexivity|].
  split; [reflexivity|]. split; [exact Hhd | exact Hset].
Defined.

Lemma push_pop_restores_matrices_witness :
  forallb betweenPushAndPop [OpDraw Scenario.cachedDraw; OpSetView Sample.view;
                             OpDraw Scenario.movedBufferDraw] = true
  /\ modelviewStack Scenario.device <> []
  /\ projectionStack Scenario.device <> []
  /\ modelviewStack
       (replay
          (issued (pushGLStates Sample.legacyEnv) Sample.legacyWorld
           ++ issued (performAll Sample.legacyEnv
                        [OpDraw Scenario.cachedDraw; OpSetView Sample.view;
                         OpDraw Scenario.movedBufferDraw])
                (final (pushGLStates Sample.legacyEnv) Sample.legacyWorld)
           ++ issued (popGLStates Sample.legacyEnv)
                (final (performAll Sample.legacyEnv
                          [OpDraw Scenario.cachedDraw; OpSetView Sample.view;
                           OpDraw Scenario.movedBufferDraw])
                   (final (pushGLStates Sample.legacyEnv) Sample.legacyWorld)))
          Scenario.device)
     = modelviewStack Scenario.device.
Proof.
  assert (H1 : modelviewStack Scenario.device <> []) by discriminate.
  assert (H2 : projectionStack Scenario.device <> []) by discriminate.
  split; [reflexivity|]. split; [exact H1|]. split; [exact H2|].
  exact (proj1 (push_pop_restores_matrices Sample.legacyEnv
                  [OpDraw Scenario.cachedDraw; OpSetView Sample.view;
                   OpDraw Scenario.movedBufferDraw]
                  Sample.legacyWorld Scenario.device eq_refl H1 H2
                  eq_refl eq_refl)).
Defined.

Lemma uniforms_go_to_the_shader_of_the_draw_witness :
  m_defaultShader (target Sample.shaderWorld) = Some 1
  /\ glStatesSet (m_cache (target Sample.shaderWorld)) = true
  /\ nothingToDraw Cases.overriding = false
  /\ activate_result Cases.litEnv (activations Sample.shaderWorld) = true
  /\ readAll shaderBound
       (issued (draw Cases.litEnv Cases.overriding) Sample.shaderWorld)
     = [Some 5]
  /\ m_lastNonLegacyShader
       (target (final (draw Cases.litEnv Cases.overriding) Sample.shaderWorld))
     = Some 5.
Proof.
  pose proof (uniforms_go_to_the_shader_of_the_draw Cases.litEnv Cases.overriding
                Sample.shaderWorld 1 eq_refl eq_refl eq_refl eq_refl)
    as (_ & Hb & _ & Hl).
  split; [reflexivity|]. split; [reflexivity|]. split; [reflexivity|].
  split; [reflexivity|]. split; [exact Hb | exact Hl].
Defined.

Lemma pending_view_is_applied_once_witness :
  glStatesSet (m_cache (target Cases.pendingWorld)) = true
  /\ nothingToDraw Scenario.cachedDraw = false
  /\ activate_result Sample.legacyEnv (activations Cases.pendingWorld) = true
  /\ viewChanged (m_cache (target Cases.pendingWorld)) = true
  /\ readAll viewportSet
       (issued (draw Sample.legacyEnv Scenario.cachedDraw) Cases.pendingWorld)
     = [(0, 0, 800, 600)%Z]
  /\ readAll viewportSet
       (issued
          (draw Sample.legacyEnv (Sample.bufferDraw Sample.identity None (Some 6)))
          (final (draw Sample.legacyEnv Scenario.overridden) Sample.legacyWorld))
     = [].
Proof.
  pose proof (pending_view_is_applied_once Sample.legacyEnv Scenario.cachedDraw
                Cases.pendingWorld eq_refl eq_refl eq_refl) as (Hv & _ & Hfull).
  split; [reflexivity|]. split; [reflexivity|]. split; [reflexivity|].
  split; [reflexivity|]. split.
  - rewrite Hv.
    change (viewChanged (m_cache (target Cases.pendingWorld))) with true.
    rewrite orb_true_r.
    rewrite (Hfull 800%Z 600%Z); [reflexivity|lia|lia|reflexivity|reflexivity].
  - exact (proj1 (pending_view_is_applied_once Sample.legacyEnv
                    (Sample.bufferDraw Sample.identity None (Some 6))
                    (final (draw Sample.legacyEnv Scenario.overridden)
                       Sample.legacyWorld)
                    eq_refl eq_refl eq_refl)).
Defined.

Lemma viewport_corners_are_normalized_witness :
  (1 <= IntRect.width (getViewport Sample.legacyEnv Sample.view) <= 16384)%Z
  /\ (1 <= IntRect.height (getViewport Sample.legacyEnv Sample.view) <= 16384)%Z
  /\ mapPixelToCoords Sample.legacyEnv (Vector2i.mk 800 600) Sample.view
     = transformPoint2 Sample.legacyEnv (View.getInverseTransform Sample.view)
         (Vector2f.mk Float32.one (Float32.opp Float32.one)).
Proof.
  assert (Hv : getViewport Sample.legacyEnv Sample.view = IntRect.mk 0 0 800 600)
    by (vm_compute; reflexivity).
  assert (Hw : (1 <= IntRect.width (getViewport Sample.legacyEnv Sample.view)
                <= 16384)%Z) by (rewrite Hv; simpl; lia).
  assert (Hh : (1 <= IntRect.height (getViewport Sample.legacyEnv Sample.view)
                <= 16384)%Z) by (rewrite Hv; simpl; lia).
  split; [exact Hw|]. split; [exact Hh|].
  pose proof (proj2 (viewport_corners_are_normalized Sample.legacyEnv Sample.view
                       Hw Hh)) as H.
  rewrite Hv in H. exact H.
Defined.

Lemma empty_viewport_is_not_guarded_witness :
  IntRect.width (getViewport Sample.legacyEnv Cases.flatView) = 0%Z
  /\ exists y,
       mapPixelToCoords Sample.legacyEnv (Vector2i.mk 0 10) Cases.flatView
       = transformPoint2 Sample.legacyEnv
           (View.getInverseTransform Cases.flatView) (Vector2f.mk S754_nan y).
Proof.
  assert (Hw : IntRect.width (getViewport Sample.legacyEnv Cases.flatView) = 0%Z)
    by (vm_compute; reflexivity).
  split; [exact Hw|].
  apply (proj1 (empty_viewport_is_not_guarded Sample.legacyEnv Cases.flatView
                  (Vector2i.mk 0 10)) Hw).
  vm_compute. reflexivity.
Defined.

Lemma normalized_corners_are_pixels_witness :
  (1 <= 800 <= 16384)%Z /\ (1 <= 600 <= 16384)%Z
  /\ getViewport Sample.legacyEnv Sample.view = IntRect.mk 0 0 800 600
  /\ mapCoordsToPixel Sample.legacyEnv
       (Vector3f.mk Float32.one (Float32.opp Float32.one) Float32.zero)
       Sample.view
     = Vector2i.mk 800 600.
Proof.
  assert (Hv : getViewport Sample.legacyEnv Sample.view = IntRect.mk 0 0 800 600)
    by (vm_compute; reflexivity).
  assert (Hw : (1 <= 800 <= 16384)%Z) by lia.
  assert (Hh : (1 <= 600 <= 16384)%Z) by lia.
  split; [exact Hw|]. split; [exact Hh|]. split; [exact Hv|].
  apply (proj2 (normalized_corners_are_pixels Sample.legacyEnv Sample.view
                  (Vector3f.mk Float32.one (Float32.opp Float32.one) Float32.zero)
                  800 600 Hw Hh Hv)); vm_compute; reflexivity.
Defined.


Lemma array_draw_pre_transform_path_witness :
  3 <> 0
  /\ activate_result Sample.legacyEnv (activations Sample.legacyWorld) = true
  /\ length (vertexCache (m_cache (target Sample.legacyWorld)))
     = VertexCacheSize Sample.legacyEnv
  /\ usesVertexCache Sample.legacyEnv (target Sample.legacyWorld) 3
       (Sample.states (Sample.translation 1 2 3) None None) = true
  /\ vertexCache (m_cache (target Scenario.afterCachedDraw)) !! 1
     = Some (Vertex.mk
               (transformPoint Sample.legacyEnv (Sample.translation 1 2 3)
                  (Vertex.position (Sample.triangle 1)))
               (Vertex.color (Sample.triangle 1))
               (Vertex.texCoords (Sample.triangle 1))
               (Vertex.normal (Sample.triangle 1)))
  /\ modelview
       (replay (issued (draw Sample.legacyEnv Scenario.cachedDraw)
                  Sample.legacyWorld) Scenario.device)
     = Some (combine Sample.legacyEnv
               (View.getViewTransform (m_view (target Sample.legacyWorld)))
               (Identity Sample.legacyEnv)).
Proof.
  assert (H3 : 3 <> 0) by discriminate.
  pose proof (array_draw_pre_transform_path Sample.legacyEnv Sample.triangle 3
                Triangles (Sample.states (Sample.translation 1 2 3) None None)
                Sample.legacyWorld Scenario.device H3 eq_refl eq_refl)
    as (_ & Htaken & _).
  destruct (Htaken eq_refl) as (Hcache & Hview).
  split; [exact H3|]. split; [reflexivity|]. split; [reflexivity|].
  split; [reflexivity|]. split.
  - apply Hcache. lia.
  - exact (Hview eq_refl).
Defined.
